(** * Figurely: list-view helpers, saved views and tax-report arithmetic

    A shallow embedding of the query-string helpers ([app/lib/pagination.ts],
    [app/lib/sorting.ts], [app/lib/filtering.ts], [app/lib/views.ts]), of the
    list and tax-report loaders and of the generated columns of the SQL
    schema, together with the properties the specification states about
    them.

    Conventions.  A JavaScript string is a [string], read as the UTF-8 bytes
    of the text.  The numbers of the query-string helpers are [NaN], the
    infinities and the doubles whose value is an integer: a [JsNumber]
    holds such a double as its integer value, every operation rounds its
    exact result to the nearest double, and the quotient under
    [Math.ceil] is rounded before the ceiling is taken.  The amounts of
    the tax report are binary64 numbers ([Double], over the [SpecFloat] of
    the library); the values of the NUMERIC columns of the schema are
    exact decimals. *)

From Stdlib Require Import ZArith QArith Qabs Lia Bool Ascii String List.
From Stdlib Require Import SpecFloat.
From stdpp Require Import base option list strings gmap.

#[local] Open Scope string_scope.
#[local] Open Scope Z_scope.

(** ** JavaScript primitives used by the helpers *)

Module Js.

(** The result of [parseInt] and of arithmetic on it: [NaN], an infinity,
    or a double whose value is an integer, held as that integer.  The two
    zeros are not told apart. *)
Inductive JsNumber : Type :=
| NaN : JsNumber
| Inf (negative : bool) : JsNumber
| Num : Z -> JsNumber.

(** The double nearest to the integer [z], as an operation returns it for
    the exact result [z]: [z] itself below 2^53, and else the nearest
    multiple of the spacing [2 ^ e] of the doubles around [z], a tie going
    to the even significand, or an infinity from 2^1024 on. *)
Definition round (z : Z) : JsNumber :=
  let a := Z.abs z in
  if a <? 2 ^ 53 then Num z
  else
    let e := Z.log2 a - 52 in
    let q := a / 2 ^ e in
    let r := a mod 2 ^ e in
    let up := (2 ^ (e - 1) <? r) || ((r =? 2 ^ (e - 1)) && Z.odd q) in
    let v := (if up then q + 1 else q) * 2 ^ e in
    if 2 ^ 1024 <=? v then Inf (z <? 0)
    else Num (if z <? 0 then - v else v).

(** The integer [z] is the value of a double. *)
Definition is_double (z : Z) : bool :=
  match round z with
  | Num v => v =? z
  | _ => false
  end.

(** [NaN], or an integer that [Number.isSafeInteger] accepts. *)
Definition safe (n : JsNumber) : Prop :=
  match n with
  | NaN => True
  | Inf _ => False
  | Num z => Z.abs z < 2 ^ 53
  end.

Definition code (c : ascii) : N := N_of_ascii c.

(** [a || b] on a value that is [null] or a string: the empty string and
    [null] are falsy. *)
Definition or_else (a : option string) (b : string) : string :=
  match a with
  | Some (String c s) => String c s
  | Some EmptyString | None => b
  end.

(** ASCII members of StrWhiteSpaceChar: TAB, LF, VT, FF, CR, SP. *)
Definition is_ws1 (c : ascii) : bool :=
  let n := code c in
  ((9 <=? n) && (n <=? 13) || (n =? 32))%N.

(** U+00A0, as the two bytes C2 A0. *)
Definition is_ws2 (c1 c2 : ascii) : bool :=
  ((code c1 =? 194) && (code c2 =? 160))%N.

(** U+1680, U+2000..U+200A, U+2028, U+2029, U+202F, U+205F, U+3000 and
    U+FEFF, as three bytes each. *)
Definition is_ws3 (c1 c2 c3 : ascii) : bool :=
  let a := code c1 in
  let b := code c2 in
  let c := code c3 in
  ((a =? 225) && (b =? 154) && (c =? 128)
   || (a =? 226) && (b =? 128)
      && ((128 <=? c) && (c <=? 138) || (c =? 168) || (c =? 169) || (c =? 175))
   || (a =? 226) && (b =? 129) && (c =? 159)
   || (a =? 227) && (b =? 128) && (c =? 128)
   || (a =? 239) && (b =? 187) && (c =? 191))%N.

(** Leading white space removed, as [parseInt] does first. *)
Fixpoint trimStart (s : string) : string :=
  match s with
  | EmptyString => s
  | String c1 s1 =>
      if is_ws1 c1 then trimStart s1
      else match s1 with
           | EmptyString => s
           | String c2 s2 =>
               if is_ws2 c1 c2 then trimStart s2
               else match s2 with
                    | EmptyString => s
                    | String c3 s3 =>
                        if is_ws3 c1 c2 c3 then trimStart s3 else s
                    end
           end
  end.

Definition is_digit (c : ascii) : bool :=
  ((48 <=? code c) && (code c <=? 57))%N.

Definition digit_value (c : ascii) : Z := Z.of_N (code c) - 48.

(** The longest prefix of decimal digits, most significant first. *)
Fixpoint digits (s : string) : list Z :=
  match s with
  | EmptyString => []
  | String c s' => if is_digit c then digit_value c :: digits s' else []
  end.

Definition digits_value (ds : list Z) : Z :=
  fold_left (fun acc d => 10 * acc + d) ds 0.

(** [parseInt(s, 10)]: the number that the digits write, rounded to the
    nearest double. *)
Definition parseInt (s : string) : JsNumber :=
  let s1 := trimStart s in
  let '(neg, s2) :=
    match s1 with
    | String c r =>
        if (code c =? 45)%N then (true, r)
        else if (code c =? 43)%N then (false, r)
        else (false, s1)
    | EmptyString => (false, s1)
    end in
  match digits s2 with
  | [] => NaN
  | ds => round (if neg then - digits_value ds else digits_value ds)
  end.

(** [Math.max(a, b)] and [Math.min(a, b)]: [NaN] as soon as one argument
    is [NaN]. *)
Definition max (a b : JsNumber) : JsNumber :=
  match a, b with
  | NaN, _ | _, NaN => NaN
  | Inf false, _ | _, Inf false => Inf false
  | Inf true, x | x, Inf true => x
  | Num x, Num y => Num (Z.max x y)
  end.

Definition min (a b : JsNumber) : JsNumber :=
  match a, b with
  | NaN, _ | _, NaN => NaN
  | Inf true, _ | _, Inf true => Inf true
  | Inf false, x | x, Inf false => x
  | Num x, Num y => Num (Z.min x y)
  end.

(** [a - b], [a + b] and [a * b]: the exact result, rounded. *)
Definition sub (a b : JsNumber) : JsNumber :=
  match a, b with
  | NaN, _ | _, NaN => NaN
  | Inf s, Inf s' => if Bool.eqb s s' then NaN else Inf s
  | Inf s, Num _ => Inf s
  | Num _, Inf s => Inf (negb s)
  | Num x, Num y => round (x - y)
  end.

Definition add (a b : JsNumber) : JsNumber :=
  match a, b with
  | NaN, _ | _, NaN => NaN
  | Inf s, Inf s' => if Bool.eqb s s' then Inf s else NaN
  | Inf s, Num _ | Num _, Inf s => Inf s
  | Num x, Num y => round (x + y)
  end.

Definition mul (a b : JsNumber) : JsNumber :=
  match a, b with
  | NaN, _ | _, NaN => NaN
  | Inf s, Inf s' => Inf (xorb s s')
  | Inf s, Num y | Num y, Inf s =>
      if y =? 0 then NaN else Inf (xorb s (y <? 0))
  | Num x, Num y => round (x * y)
  end.

(** [a < b], [a > b], [a <= b] and [a >= b]: every comparison with [NaN]
    is false. *)
Definition ltb (a b : JsNumber) : bool :=
  match a, b with
  | NaN, _ | _, NaN => false
  | Inf true, Inf true => false
  | Inf true, _ => true
  | Inf false, _ => false
  | Num _, Inf s => negb s
  | Num x, Num y => x <? y
  end.

Definition gtb (a b : JsNumber) : bool := ltb b a.

Definition leb (a b : JsNumber) : bool :=
  match a, b with
  | NaN, _ | _, NaN => false
  | Inf true, _ => true
  | Inf false, Inf false => true
  | Inf false, _ => false
  | Num _, Inf s => negb s
  | Num x, Num y => x <=? y
  end.

Definition geb (a b : JsNumber) : bool := leb b a.

Definition ge (a b : JsNumber) : Prop := geb a b = true.

(** The value of a hexadecimal digit, of either case. *)
Definition hex_value (c : ascii) : option N :=
  let n := code c in
  if (48 <=? n)%N && (n <=? 57)%N then Some (n - 48)%N
  else if (65 <=? n)%N && (n <=? 70)%N then Some (n - 55)%N
  else if (97 <=? n)%N && (n <=? 102)%N then Some (n - 87)%N
  else None.

(** [s.trimEnd()] and [s.trim()]. *)
Fixpoint trimEnd (s : string) : string :=
  match s with
  | EmptyString => EmptyString
  | String c s' =>
      if String.eqb (trimStart s) EmptyString then EmptyString
      else String c (trimEnd s')
  end.

Definition trim (s : string) : string := trimEnd (trimStart s).

(** [s.split(sep)] for a one-character separator, and
    [s.split(sep).filter(Boolean)], which drops the empty pieces. *)
Fixpoint split (sep : ascii) (s : string) : list string :=
  match s with
  | EmptyString => [EmptyString]
  | String c s' =>
      if Ascii.eqb c sep then EmptyString :: split sep s'
      else match split sep s' with
           | piece :: pieces => String c piece :: pieces
           | [] => [String c EmptyString]
           end
  end.

Definition filter_Boolean (l : list string) : list string :=
  List.filter (fun x => negb (String.eqb x EmptyString)) l.

(** The text holds U+0000, which PostgreSQL takes in no [text] and no
    [jsonb] value. *)
Fixpoint has_nul (s : string) : bool :=
  match s with
  | EmptyString => false
  | String c s' => (code c =? 0)%N || has_nul s'
  end.

(** *** Property reads on an object literal

    An object literal inherits from [Object.prototype]; these are the
    names of its properties.  Each holds a function, except [__proto__],
    whose getter yields [Object.prototype] itself: all are truthy, and
    none has a property of the application's own. *)
Definition Object_prototype : list string :=
  [ "constructor"; "__defineGetter__"; "__defineSetter__"; "hasOwnProperty";
    "__lookupGetter__"; "__lookupSetter__"; "isPrototypeOf";
    "propertyIsEnumerable"; "toString"; "valueOf"; "__proto__";
    "toLocaleString" ].

(** What [obj[key]] evaluates to. *)
Inductive Property (A : Type) : Type :=
| Own : A -> Property A
| Inherited : string -> Property A
| Undefined : Property A.
Arguments Own {A} _.
Arguments Inherited {A} _.
Arguments Undefined {A}.

Definition get_property {A : Type} (obj : gmap string A) (key : string)
  : Property A :=
  match obj !! key with
  | Some c => Own c
  | None =>
      if existsb (String.eqb key) Object_prototype then Inherited key
      else Undefined
  end.

End Js.

(** ** URLSearchParams *)

Module URLSearchParams.

(** The list of name/value pairs, in order, duplicates allowed. *)
Definition t : Type := list (string * string).

Definition empty : t := [].

(** [new URLSearchParams(init)]: a copy of [init], or empty when [init]
    is [undefined]. *)
Definition copy (init : option t) : t :=
  match init with
  | Some ps => ps
  | None => empty
  end.

(** [get(name)]: the value of the first pair named [name], or [null]. *)
Fixpoint get (name : string) (ps : t) : option string :=
  match ps with
  | [] => None
  | (k, v) :: ps' => if String.eqb k name then Some v else get name ps'
  end.

(** [delete(name)]: every pair named [name] is removed. *)
Definition delete (name : string) (ps : t) : t :=
  List.filter (fun kv => negb (String.eqb (fst kv) name)) ps.

(** [set(name, value)]: the first pair named [name] takes the value and
    the later ones are removed; without such a pair, one is appended. *)
Fixpoint set (name value : string) (ps : t) : t :=
  match ps with
  | [] => [(name, value)]
  | (k, v) :: ps' =>
      if String.eqb k name then (k, value) :: delete name ps'
      else (k, v) :: set name value ps'
  end.

Definition has (name : string) (ps : t) : bool :=
  existsb (fun kv => String.eqb (fst kv) name) ps.

(** How many pairs are named [name]. *)
Definition count (name : string) (ps : t) : nat :=
  length (List.filter (fun kv => String.eqb (fst kv) name) ps).

(** *** The application/x-www-form-urlencoded serializer *)

Definition hex_digit (n : N) : ascii :=
  ascii_of_N (if (n <? 10)%N then 48 + n else 55 + n)%N.

(** Bytes left as they are: [*], [-], [.], [_], digits and letters. *)
Definition is_unreserved (c : ascii) : bool :=
  let n := Js.code c in
  ((n =? 42) || (n =? 45) || (n =? 46) || (n =? 95)
   || (48 <=? n) && (n <=? 57)
   || (65 <=? n) && (n <=? 90)
   || (97 <=? n) && (n <=? 122))%N.

Fixpoint encode (s : string) : string :=
  match s with
  | EmptyString => EmptyString
  | String c s' =>
      if is_unreserved c then String c (encode s')
      else if (Js.code c =? 32)%N then String "+" (encode s')
      else String "%"
             (String (hex_digit (Js.code c / 16))
                (String (hex_digit (Js.code c mod 16)) (encode s')))
  end.

Definition encode_pair (kv : string * string) : string :=
  encode (fst kv) ++ "=" ++ encode (snd kv).

(** [toString()]. *)
Definition toString (ps : t) : string :=
  String.concat "&" (map encode_pair ps).

(** *** The application/x-www-form-urlencoded parser *)

Fixpoint plus_to_space (s : string) : string :=
  match s with
  | EmptyString => EmptyString
  | String c s' =>
      String (if (Js.code c =? 43)%N then ascii_of_N 32 else c) (plus_to_space s')
  end.

(** A [%] followed by two hexadecimal digits is the byte they write;
    any other byte stands for itself. *)
Fixpoint percent_decode (s : string) : string :=
  match s with
  | EmptyString => EmptyString
  | String c s1 =>
      if (Js.code c =? 37)%N then
        match s1 with
        | String h1 (String h2 s2) =>
            match Js.hex_value h1, Js.hex_value h2 with
            | Some a, Some b => String (ascii_of_N (a * 16 + b)) (percent_decode s2)
            | _, _ => String c (percent_decode s1)
            end
        | _ => String c (percent_decode s1)
        end
      else String c (percent_decode s1)
  end.

Definition decode (s : string) : string := percent_decode (plus_to_space s).

(** The name before the first [=] and the value after it; the whole is
    the name when there is no [=]. *)
Fixpoint split_pair (s : string) : string * string :=
  match s with
  | EmptyString => (EmptyString, EmptyString)
  | String c s' =>
      if (Js.code c =? 61)%N then (EmptyString, s')
      else let '(name, value) := split_pair s' in (String c name, value)
  end.

Definition parse_pairs (s : string) : t :=
  flat_map
    (fun piece =>
       match piece with
       | EmptyString => []
       | String _ _ =>
           let '(name, value) := split_pair piece in [(decode name, decode value)]
       end)
    (Js.split "&" s).

(** The byte [c] does not occur in [s]. *)
Fixpoint free_of (c : ascii) (s : string) : bool :=
  match s with
  | EmptyString => true
  | String x s' => negb (Ascii.eqb x c) && free_of c s'
  end.

(** [new URLSearchParams(init)] for a string: a leading [?] is dropped. *)
Definition parse (init : string) : t :=
  match init with
  | String c s => if (Js.code c =? 63)%N then parse_pairs s else parse_pairs init
  | EmptyString => []
  end.

End URLSearchParams.

(** ** app/lib/pagination.ts *)

Module Pagination.
Import Js.

Record PaginationParams : Type := {
  page : JsNumber;
  limit : JsNumber
}.

Definition DEFAULT_PAGE_SIZE : Z := 20.

(** [String(DEFAULT_PAGE_SIZE)]. *)
Definition DEFAULT_PAGE_SIZE_string : string := "20".

Definition parsePaginationParams (searchParams : URLSearchParams.t)
  : PaginationParams :=
  let page :=
    Js.max (Num 1)
      (parseInt (or_else (URLSearchParams.get "page" searchParams) "1")) in
  let limit :=
    Js.max (Num 1)
      (parseInt (or_else (URLSearchParams.get "limit" searchParams)
                   DEFAULT_PAGE_SIZE_string)) in
  {| page := page; limit := limit |}.

Record Range : Type := {
  from : JsNumber;
  to : JsNumber
}.

Definition getSupabaseRange (page limit : JsNumber) : Range :=
  let from := Js.mul (Js.sub page (Num 1)) limit in
  let to := Js.sub (Js.add from limit) (Num 1) in
  {| from := from; to := to |}.

(** The zero-based indices of the inclusive range [r], in order, for
    bounds that are integers. *)
Definition indices (r : Range) : list Z :=
  match from r, to r with
  | Num a, Num b => map (fun k => a + Z.of_nat k) (seq 0 (Z.to_nat (b - a + 1)))
  | _, _ => []
  end.

End Pagination.

(** ** The query builder and the tables it reads

    A request built with [supabase.from(t).select(...)] carries filters,
    which the server combines by conjunction, an ordering and a window of
    rows.  What a filter other than [user_id = ...] means on a row, how two
    rows compare on a column, and which requests the server refuses from
    the request alone, are the server's; they are the operations of
    [Postgrest]. *)

Module Supabase.
Import Js.

Inductive Filter : Type :=
| Eq (column value : string)
| OneOf (column : string) (values : list string)
| Gte (column value : string)
| Lte (column value : string)
| Or (expr : string).

Record Query : Type := {
  filters : list Filter;
  ordering : list (string * bool);
  window : option (JsNumber * JsNumber)
}.

Definition select : Query :=
  {| filters := []; ordering := []; window := None |}.

Definition add_filter (f : Filter) (q : Query) : Query :=
  {| filters := filters q ++ [f]; ordering := ordering q; window := window q |}.

Definition eq (column value : string) : Query -> Query := add_filter (Eq column value).
Definition in_ (column : string) (values : list string) : Query -> Query :=
  add_filter (OneOf column values).
Definition gte (column value : string) : Query -> Query := add_filter (Gte column value).
Definition lte (column value : string) : Query -> Query := add_filter (Lte column value).
Definition or (expr : string) : Query -> Query := add_filter (Or expr).

(** [order(column, { ascending })]. *)
Definition order (column : string) (ascending : bool) (q : Query) : Query :=
  {| filters := filters q;
     ordering := ordering q ++ [(column, ascending)];
     window := window q |}.

(** [range(from, to)]. *)
Definition range (from to : JsNumber) (q : Query) : Query :=
  {| filters := filters q; ordering := ordering q; window := Some (from, to) |}.

(** Every table of the schema has a [user_id] column. *)
Class Owned (Row : Type) : Type := {
  owner : Row -> string
}.

Class Postgrest (Row : Type) : Type := {
  (** the filter holds on the row *)
  holds : Filter -> Row -> bool;
  (** the first row sorts no later than the second on the column *)
  precedes : string -> Row -> Row -> bool;
  (** the request is refused whatever the table holds *)
  rejects : Query -> bool
}.

Section Run.
Context {Row : Type} `{Owned Row} `{Postgrest Row}.

Definition sat (f : Filter) (r : Row) : bool :=
  match f with
  | Eq column value =>
      if String.eqb column "user_id" then String.eqb (owner r) value
      else holds f r
  | _ => holds f r
  end.

Definition selected (q : Query) (table : list Row) : list Row :=
  List.filter (fun r => forallb (fun f => sat f r) (filters q)) table.

Fixpoint insert_sorted (le : Row -> Row -> bool) (r : Row) (l : list Row)
  : list Row :=
  match l with
  | [] => [r]
  | x :: l' => if le r x then r :: l else x :: insert_sorted le r l'
  end.

(** A stable sort. *)
Definition sort_rows (le : Row -> Row -> bool) (l : list Row) : list Row :=
  fold_right (insert_sorted le) [] l.

Definition le_on (o : string * bool) (a b : Row) : bool :=
  if snd o then precedes (fst o) a b else precedes (fst o) b a.

(** The first ordering is the major one. *)
Definition ordered (q : Query) (rows : list Row) : list Row :=
  fold_right (fun o rows => sort_rows (le_on o) rows) rows (ordering q).

Record Response : Type := {
  data : option (list Row);
  count : option nat;
  error : bool
}.

Definition failed : Response :=
  {| data := None; count := None; error := true |}.

(** [await query]. *)
Definition run (q : Query) (table : list Row) : Response :=
  if rejects q then failed
  else
    let rows := ordered q (selected q table) in
    match window q with
    | None =>
        {| data := Some rows; count := Some (length rows); error := false |}
    | Some (Num a, Num b) =>
        if (0 <=? a) && (a <=? b) then
          {| data := Some (take (Z.to_nat (b - a + 1)) (drop (Z.to_nat a) rows));
             count := Some (length rows);
             error := false |}
        else failed
    | Some _ => failed
    end.

(** The rows of [table] that belong to [uid]. *)
Definition rows_of (uid : string) (table : list Row) : list Row :=
  List.filter (fun r => String.eqb (owner r) uid) table.

(** Two states of a table agree on the rows of [uid]: they hold the same
    rows of [uid], in the same order, whatever rows of other users lie
    between them. *)
Definition agree (uid : string) (table1 table2 : list Row) : Prop :=
  rows_of uid table1 = rows_of uid table2.

(** The query asks for the rows of [uid] only. *)
Definition restricted_to (uid : string) (q : Query) : Prop :=
  In (Eq "user_id" uid) (filters q).

End Run.

Arguments Response : clear implicits.

End Supabase.

(** ** app/lib/search.ts *)

Module Search.
Import Js.

Definition parseSearchParams (searchParams : URLSearchParams.t) : string :=
  match URLSearchParams.get "q" searchParams with
  | Some (String c s) => String c s
  | _ =>
      match URLSearchParams.get "search" searchParams with
      | Some (String c s) => String c s
      | _ => EmptyString
      end
  end.

Definition buildSupabaseSearchQuery (query : string) (fields : list string)
  : string :=
  if String.eqb (trim query) EmptyString || bool_decide (fields = []) then EmptyString
  else
    let searchTerm := "%" ++ trim query ++ "%" in
    String.concat "," (map (fun field => field ++ ".ilike." ++ searchTerm) fields).

End Search.

(** ** app/lib/sorting.ts *)

Module Sorting.
Import Js.

Inductive SortOrder : Type := asc | desc.

Definition SortOrder_string (o : SortOrder) : string :=
  match o with
  | asc => "asc"
  | desc => "desc"
  end.

Record SortParams : Type := {
  sortBy : option string;
  sortOrder : SortOrder
}.

(** The optional arguments default to ["created_at"] and ["desc"]. *)
Definition parseSortParams (searchParams : URLSearchParams.t)
    (defaultSortBy : option string) (defaultSortOrder : option SortOrder)
  : SortParams :=
  let defaultSortBy := default "created_at" defaultSortBy in
  let defaultSortOrder := default desc defaultSortOrder in
  let sortBy := or_else (URLSearchParams.get "sort" searchParams) defaultSortBy in
  let sortOrder :=
    or_else (URLSearchParams.get "order" searchParams)
      (SortOrder_string defaultSortOrder) in
  if negb (String.eqb sortOrder "asc") && negb (String.eqb sortOrder "desc")
  then {| sortBy := Some sortBy; sortOrder := defaultSortOrder |}
  else {| sortBy := Some sortBy;
          sortOrder := if String.eqb sortOrder "asc" then asc else desc |}.

(** [s.includes(needle)]. *)
Fixpoint includes (needle s : string) : bool :=
  String.prefix needle s
  || match s with
     | EmptyString => false
     | String _ s' => includes needle s'
     end.

Definition buildSortUrl (currentParams : URLSearchParams.t) (sortBy : string)
    (currentSortBy : option string) (currentSortOrder : SortOrder) : string :=
  let params := URLSearchParams.copy (Some currentParams) in
  let params :=
    if bool_decide (Some sortBy = currentSortBy) then
      let newOrder :=
        match currentSortOrder with
        | asc => "desc"
        | desc => "asc"
        end in
      URLSearchParams.set "order" newOrder params
    else
      let isTextColumn := includes "name" sortBy || includes "email" sortBy in
      let params := URLSearchParams.set "sort" sortBy params in
      URLSearchParams.set "order" (if isTextColumn then "asc" else "desc") params in
  let params := URLSearchParams.set "page" "1" params in
  "?" ++ URLSearchParams.toString params.

(** [columnMap?.[sortBy] || sortBy], then [query.order(...)].  A name
    inherited from [Object.prototype] reads a built-in, whose text
    [builtin_text] the request then carries as the column. *)
Definition applySupabaseSorting (builtin_text : string -> string)
    (query : Supabase.Query) (sortBy : string) (sortOrder : SortOrder)
    (columnMap : option (gmap string string)) : Supabase.Query :=
  let dbColumn :=
    match columnMap with
    | None => sortBy
    | Some m =>
        match get_property m sortBy with
        | Own (String c s) => String c s
        | Own EmptyString | Undefined => sortBy
        | Inherited k => builtin_text k
        end
    end in
  Supabase.order dbColumn
    match sortOrder with asc => true | desc => false end query.

Definition clientColumnMap : gmap string string :=
  <["name" := "name"]> (<["contact" := "contact_person"]>
  (<["email" := "email"]> (<["phone" := "phone"]>
  (<["status" := "status"]> (<["created" := "created_at"]> ∅))))).

Definition invoiceColumnMap : gmap string string :=
  <["client" := "bill_to_name"]> (<["amount" := "total_amount"]>
  (<["status" := "status"]> (<["date" := "date"]>
  (<["invoice_number" := "invoice_number"]> (<["created" := "created_at"]> ∅))))).

Definition mileageColumnMap : gmap string string :=
  <["date" := "date"]> (<["purpose" := "purpose"]>
  (<["miles" := "miles"]> (<["rate" := "rate_per_mile"]>
  (<["deduction" := "total_deduction"]> (<["created" := "created_at"]> ∅))))).

End Sorting.

(** ** app/lib/filtering.ts *)

Module Filtering.
Import Js.

Record DateRangeFilter : Type := {
  from : option string;
  to : option string
}.

(** An optional property that is absent or [undefined] is [None]. *)
Record FilterParams : Type := {
  status : option (list string);
  category : option (list string);
  dateRange : option DateRangeFilter;
  search : option string
}.

(** The [string | string[] | null] argument of [buildFilterUrl]. *)
Inductive FilterValue : Type :=
| FNull : FilterValue
| FArray : list string -> FilterValue
| FString : string -> FilterValue.

(** [values.join(",")]. *)
Definition join (sep : string) (values : list string) : string :=
  String.concat sep values.

(** [getDateRangeFromPreset] reads the clock and the time zone; it is
    the argument [getDateRangeFromPreset] here. *)
Definition parseFilterParams
    (getDateRangeFromPreset : string -> DateRangeFilter)
    (searchParams : URLSearchParams.t) : FilterParams :=
  let status :=
    match URLSearchParams.get "status" searchParams with
    | Some (String c s) => Some (filter_Boolean (split "," (String c s)))
    | _ => None
    end in
  let category :=
    match URLSearchParams.get "category" searchParams with
    | Some (String c s) => Some (filter_Boolean (split "," (String c s)))
    | _ => None
    end in
  let dateFrom := URLSearchParams.get "date_from" searchParams in
  let dateTo := URLSearchParams.get "date_to" searchParams in
  let dateRange :=
    match URLSearchParams.get "date_preset" searchParams with
    | Some (String c s) => Some (getDateRangeFromPreset (String c s))
    | _ =>
        match dateFrom, dateTo with
        | Some (String _ _), _ | _, Some (String _ _) =>
            Some {| from := dateFrom; to := dateTo |}
        | _, _ => None
        end
    end in
  let search :=
    match URLSearchParams.get "q" searchParams with
    | Some (String c s) => Some (String c s)
    | _ => None
    end in
  {| status := status; category := category; dateRange := dateRange;
     search := search |}.

(** The [options] of [applySupabaseFilters]; an absent column name takes
    its default. *)
Record FilterOptions : Type := {
  statusColumn : option string;
  categoryColumn : option string;
  dateColumn : option string
}.

Definition applySupabaseFilters (query : Supabase.Query)
    (filters : FilterParams) (options : FilterOptions) : Supabase.Query :=
  let statusColumn := default "status" (statusColumn options) in
  let categoryColumn := default "category" (categoryColumn options) in
  let dateColumn := default "date" (dateColumn options) in
  let query :=
    match status filters with
    | Some (x :: l) => Supabase.in_ statusColumn (x :: l) query
    | _ => query
    end in
  let query :=
    match category filters with
    | Some (x :: l) => Supabase.in_ categoryColumn (x :: l) query
    | _ => query
    end in
  match dateRange filters with
  | Some range =>
      let query :=
        match from range with
        | Some (String c s) => Supabase.gte dateColumn (String c s) query
        | _ => query
        end in
      match to range with
      | Some (String c s) => Supabase.lte dateColumn (String c s) query
      | _ => query
      end
  | None => query
  end.

Definition buildFilterUrl (currentParams : URLSearchParams.t)
    (filterKey : string) (filterValue : FilterValue) : string :=
  let params := URLSearchParams.copy (Some currentParams) in
  let params :=
    match filterValue with
    | FNull | FArray [] => URLSearchParams.delete filterKey params
    | FArray values => URLSearchParams.set filterKey (join "," values) params
    | FString value => URLSearchParams.set filterKey value params
    end in
  let params := URLSearchParams.set "page" "1" params in
  "?" ++ URLSearchParams.toString params.

(** The optional [preserveKeys] defaults to [["limit"]]. *)
Definition clearAllFilters (currentParams : URLSearchParams.t)
    (preserveKeys : option (list string)) : string :=
  let preserveKeys := default ["limit"] preserveKeys in
  let params := URLSearchParams.empty in
  let params :=
    fold_left
      (fun params key =>
         match URLSearchParams.get key currentParams with
         | Some (String c v) => URLSearchParams.set key (String c v) params
         | Some EmptyString | None => params
         end)
      preserveKeys params in
  let params := URLSearchParams.set "page" "1" params in
  "?" ++ URLSearchParams.toString params.

End Filtering.

(** ** JSON.stringify and JSON.parse *)

Module Json.
Import Js.

(** A JavaScript value that JSON text denotes.  An object is the list of
    its members as the text has them; reading a property takes the last
    member of that name.  A number keeps its literal. *)
#[local] Unset Elimination Schemes.
Inductive value : Type :=
| JNull : value
| JBool : bool -> value
| JNumber : string -> value
| JString : string -> value
| JArray : list value -> value
| JObject : list (string * value) -> value.
#[local] Set Elimination Schemes.

Definition is_code (c : ascii) (n : N) : bool := (code c =? n)%N.

(** *** JSON.stringify *)

Definition hex_lower (n : N) : ascii :=
  ascii_of_N (if (n <? 10)%N then 48 + n else 87 + n)%N.

(** QuoteJSONString, one character. *)
Definition escape_char (c : ascii) : string :=
  let n := code c in
  if (n =? 8)%N then "\b"
  else if (n =? 9)%N then "\t"
  else if (n =? 10)%N then "\n"
  else if (n =? 12)%N then "\f"
  else if (n =? 13)%N then "\r"
  else if (n =? 34)%N then String "\" (String c EmptyString)
  else if (n =? 92)%N then "\\"
  else if (n <? 32)%N then
    String "\" (String "u" (String "0" (String "0"
      (String (hex_lower (n / 16)) (String (hex_lower (n mod 16)) EmptyString)))))
  else String c EmptyString.

Fixpoint escape (s : string) : string :=
  match s with
  | EmptyString => EmptyString
  | String c s' => escape_char c ++ escape s'
  end.

Definition dquote : ascii := ascii_of_N 34.

Definition quote (s : string) : string :=
  String dquote (escape s ++ String dquote EmptyString).

Fixpoint stringify (v : value) : string :=
  match v with
  | JNull => "null"
  | JBool true => "true"
  | JBool false => "false"
  | JNumber literal => literal
  | JString s => quote s
  | JArray l => "[" ++ String.concat "," (map stringify l) ++ "]"
  | JObject members =>
      "{" ++ String.concat ","
               (map (fun kv => quote (fst kv) ++ ":" ++ stringify (snd kv)) members)
          ++ "}"
  end.

(** *** JSON.parse *)

Fixpoint skip_ws (s : string) : string :=
  match s with
  | String c s' =>
      if is_code c 32 || is_code c 9 || is_code c 10 || is_code c 13 then skip_ws s' else s
  | EmptyString => s
  end.

Definition hex4 (h1 h2 h3 h4 : ascii) : option N :=
  match hex_value h1, hex_value h2, hex_value h3, hex_value h4 with
  | Some a, Some b, Some c, Some d => Some (((a * 16 + b) * 16 + c) * 16 + d)%N
  | _, _, _, _ => None
  end.

(** The UTF-8 bytes of a code point. *)
Definition utf8 (cp : N) : string :=
  let byte (n : N) := ascii_of_N n in
  (if cp <? 128 then String (byte cp) EmptyString
   else if cp <? 2048 then
     String (byte (192 + cp / 64)) (String (byte (128 + cp mod 64)) EmptyString)
   else if cp <? 65536 then
     String (byte (224 + cp / 4096))
       (String (byte (128 + (cp / 64) mod 64))
          (String (byte (128 + cp mod 64)) EmptyString))
   else
     String (byte (240 + cp / 262144))
       (String (byte (128 + (cp / 4096) mod 64))
          (String (byte (128 + (cp / 64) mod 64))
             (String (byte (128 + cp mod 64)) EmptyString))))%N.

Definition is_high_surrogate (u : N) : bool := ((55296 <=? u) && (u <=? 56319))%N.
Definition is_low_surrogate (u : N) : bool := ((56320 <=? u) && (u <=? 57343))%N.

(** The one-character string of code [n]. *)
Definition chr (n : N) : string := String (ascii_of_N n) EmptyString.

Definition prepend (p : string) (r : option (string * string))
  : option (string * string) :=
  match r with
  | Some (str, rest) => Some (p ++ str, rest)
  | None => None
  end.

(** The characters of a string literal after its opening quote, up to
    the closing one; the rest of the text comes with them. *)
Fixpoint parse_chars (s : string) : option (string * string) :=
  match s with
  | EmptyString => None
  | String c s1 =>
      if is_code c 34 then Some (EmptyString, s1)
      else if is_code c 92 then
        match s1 with
        | EmptyString => None
        | String e s2 =>
            if is_code e 34 || is_code e 92 || is_code e 47
            then prepend (String e EmptyString) (parse_chars s2)
            else if is_code e 98 then prepend (chr 8) (parse_chars s2)
            else if is_code e 102 then prepend (chr 12) (parse_chars s2)
            else if is_code e 110 then prepend (chr 10) (parse_chars s2)
            else if is_code e 114 then prepend (chr 13) (parse_chars s2)
            else if is_code e 116 then prepend (chr 9) (parse_chars s2)
            else if is_code e 117 then
              match s2 with
              | String h1 (String h2 (String h3 (String h4 s3))) =>
                  match hex4 h1 h2 h3 h4 with
                  | None => None
                  | Some u =>
                      if is_high_surrogate u then
                        match s3 with
                        | String b (String e' (String l1 (String l2 (String l3 (String l4 s4))))) =>
                            match hex4 l1 l2 l3 l4 with
                            | Some lo =>
                                if is_code b 92 && is_code e' 117 && is_low_surrogate lo
                                then prepend
                                       (utf8 (65536 + (u - 55296) * 1024 + (lo - 56320))%N)
                                       (parse_chars s4)
                                else prepend (utf8 u) (parse_chars s3)
                            | None => prepend (utf8 u) (parse_chars s3)
                            end
                        | _ => prepend (utf8 u) (parse_chars s3)
                        end
                      else prepend (utf8 u) (parse_chars s3)
                  end
              | _ => None
              end
            else None
        end
      else if (code c <? 32)%N then None
      else prepend (String c EmptyString) (parse_chars s1)
  end.

(** [s] starts with [p]: what follows [p]. *)
Fixpoint strip_prefix (p s : string) : option string :=
  match p, s with
  | EmptyString, _ => Some s
  | String a p', String b s' => if Ascii.eqb a b then strip_prefix p' s' else None
  | String _ _, EmptyString => None
  end.

(** **** Number literals *)

Fixpoint skip_digits (s : string) : string :=
  match s with
  | String c s' => if is_digit c then skip_digits s' else s
  | EmptyString => s
  end.

(** One digit at least. *)
Definition digits1 (s : string) : option string :=
  match s with
  | String c s' => if is_digit c then Some (skip_digits s') else None
  | EmptyString => None
  end.

Definition int_part (s : string) : option string :=
  match s with
  | String c s' =>
      if is_code c 48 then Some s'
      else if is_digit c then Some (skip_digits s')
      else None
  | EmptyString => None
  end.

Definition frac_part (s : string) : option string :=
  match s with
  | String c s' => if is_code c 46 then digits1 s' else Some s
  | EmptyString => Some s
  end.

Definition exp_part (s : string) : option string :=
  match s with
  | String c s' =>
      if is_code c 101 || is_code c 69 then
        match s' with
        | String g s'' => if is_code g 43 || is_code g 45 then digits1 s'' else digits1 s'
        | EmptyString => None
        end
      else Some s
  | EmptyString => Some s
  end.

(** What follows the number literal that [s] starts with. *)
Definition number_end (s : string) : option string :=
  let s1 := match s with
            | String c s' => if is_code c 45 then s' else s
            | EmptyString => s
            end in
  match int_part s1 with
  | Some s2 =>
      match frac_part s2 with
      | Some s3 => exp_part s3
      | None => None
      end
  | None => None
  end.

(** The first [length s - length rest] characters of [s]. *)
Definition consumed (s rest : string) : string :=
  String.substring 0 (String.length s - String.length rest) s.

(** **** Values

    The parser of values, the parser of the elements of an array and the
    parser of the members of an object call one another; each is written
    over the ones it calls. *)

(** A value that starts at [s], white space skipped; [elements] reads
    the elements of an array up to its bracket and [members] the members
    of an object up to its brace. *)
Definition value_at (elements : string -> option (list value * string))
    (members : string -> option (list (string * value) * string))
    (s : string) : option (value * string) :=
  match s with
  | EmptyString => None
  | String c r =>
      if is_code c 34 then
        match parse_chars r with
        | Some (str, r') => Some (JString str, r')
        | None => None
        end
      else if is_code c 91 then
        match skip_ws r with
        | String c' r' =>
            if is_code c' 93 then Some (JArray [], r')
            else match elements r with
                 | Some (vs, r'') => Some (JArray vs, r'')
                 | None => None
                 end
        | EmptyString => None
        end
      else if is_code c 123 then
        match skip_ws r with
        | String c' r' =>
            if is_code c' 125 then Some (JObject [], r')
            else match members r with
                 | Some (ms, r'') => Some (JObject ms, r'')
                 | None => None
                 end
        | EmptyString => None
        end
      else
        match strip_prefix "null" s, strip_prefix "true" s, strip_prefix "false" s with
        | Some r', _, _ => Some (JNull, r')
        | _, Some r', _ => Some (JBool true, r')
        | _, _, Some r' => Some (JBool false, r')
        | _, _, _ =>
            match number_end s with
            | Some r' => Some (JNumber (consumed s r'), r')
            | None => None
            end
        end
  end.

(** After the element [v]: a comma and the elements that [continue]
    reads, or the closing bracket. *)
Definition next_element (continue : string -> option (list value * string))
    (v : value) (r : string) : option (list value * string) :=
  match skip_ws r with
  | String c r' =>
      if is_code c 44 then
        match continue r' with
        | Some (vs, r'') => Some (v :: vs, r'')
        | None => None
        end
      else if is_code c 93 then Some ([v], r')
      else None
  | EmptyString => None
  end.

(** After the member [k: v]: a comma and the members that [continue]
    reads, or the closing brace. *)
Definition next_member (continue : string -> option (list (string * value) * string))
    (k : string) (v : value) (r : string) : option (list (string * value) * string) :=
  match skip_ws r with
  | String c r' =>
      if is_code c 44 then
        match continue r' with
        | Some (ms, r'') => Some ((k, v) :: ms, r'')
        | None => None
        end
      else if is_code c 125 then Some ([(k, v)], r')
      else None
  | EmptyString => None
  end.

(** After the name [k] of a member: a colon, and the value that
    [value_of] reads. *)
Definition member_value (value_of : string -> option (value * string))
    (continue : string -> option (list (string * value) * string))
    (k : string) (r : string) : option (list (string * value) * string) :=
  match skip_ws r with
  | String c r' =>
      if is_code c 58 then
        match value_of r' with
        | Some (v, r'') => next_member continue k v r''
        | None => None
        end
      else None
  | EmptyString => None
  end.

(** A member: a string literal, which is its name, and the rest. *)
Definition member_at (value_of : string -> option (value * string))
    (continue : string -> option (list (string * value) * string))
    (s : string) : option (list (string * value) * string) :=
  match skip_ws s with
  | String q r =>
      if is_code q 34 then
        match parse_chars r with
        | Some (k, r') => member_value value_of continue k r'
        | None => None
        end
      else None
  | EmptyString => None
  end.

Fixpoint parse_value (fuel : nat) (s : string) {struct fuel}
  : option (value * string) :=
  match fuel with
  | O => None
  | S fuel => value_at (parse_elements fuel) (parse_members fuel) (skip_ws s)
  end

with parse_elements (fuel : nat) (s : string) {struct fuel}
  : option (list value * string) :=
  match fuel with
  | O => None
  | S fuel =>
      match parse_value fuel s with
      | Some (v, r) => next_element (parse_elements fuel) v r
      | None => None
      end
  end

with parse_members (fuel : nat) (s : string) {struct fuel}
  : option (list (string * value) * string) :=
  match fuel with
  | O => None
  | S fuel => member_at (parse_value fuel) (parse_members fuel) s
  end.

(** [JSON.parse(text)]; [None] stands for the SyntaxError it throws.
    The calls that read a value are no more than its characters, so the
    length of the text is fuel enough. *)
Definition parse (text : string) : option value :=
  match parse_value (S (String.length text)) text with
  | Some (v, rest) =>
      match skip_ws rest with
      | EmptyString => Some v
      | String _ _ => None
      end
  | None => None
  end.

(** The values that hold no number: null, booleans, strings, and arrays
    and objects of such. *)
Fixpoint printable (v : value) : bool :=
  match v with
  | JNumber _ => false
  | JNull | JBool _ | JString _ => true
  | JArray l => forallb printable l
  | JObject members => forallb (fun kv => printable (snd kv)) members
  end.

(** The characters that the text of such a value starts with: a quote,
    a bracket, a brace, or the first letter of [null], [true], [false]. *)
Definition starts_value (c : ascii) : bool :=
  is_code c 34 || is_code c 91 || is_code c 123
  || is_code c 110 || is_code c 116 || is_code c 102.

(** The text of a member of an object. *)
Definition member_text (kv : string * value) : string :=
  quote (fst kv) ++ ":" ++ stringify (snd kv).

(** A bound on the calls the parser makes to read the value back. *)
Fixpoint size (v : value) : nat :=
  match v with
  | JNull | JBool _ | JNumber _ | JString _ => 1
  | JArray l => S (list_sum (map (fun x => S (size x)) l))
  | JObject members => S (list_sum (map (fun kv => S (size (snd kv))) members))
  end.

(** [obj[key]] on a parsed object: the last member named [key]. *)
Fixpoint member (key : string) (members : list (string * value)) : option value :=
  match members with
  | [] => None
  | (k, v) :: members' =>
      match member key members' with
      | Some v' => Some v'
      | None => if String.eqb k key then Some v else None
      end
  end.

(** A string or a property name of the value holds U+0000. *)
Fixpoint has_nul (v : value) : bool :=
  match v with
  | JString s => Js.has_nul s
  | JArray l => existsb has_nul l
  | JObject members =>
      existsb (fun kv => Js.has_nul (fst kv) || has_nul (snd kv)) members
  | JNull | JBool _ | JNumber _ => false
  end.

End Json.

(** ** app/lib/views.ts: building a URL from a saved view *)

Module Views.
Import Js Sorting Filtering.

Record ViewState : Type := {
  filters : FilterParams;
  sort : SortParams
}.

(** A string that is neither [null], [undefined] nor empty. *)
Definition truthy (s : option string) : option string :=
  match s with
  | Some (String c v) => Some (String c v)
  | Some EmptyString | None => None
  end.

(** An array that is present and not empty. *)
Definition nonempty (l : option (list string)) : option (list string) :=
  match l with
  | Some (x :: l') => Some (x :: l')
  | Some [] | None => None
  end.

Definition set_if {A : Type} (v : option A) (name : string)
    (f : A -> string) (params : URLSearchParams.t) : URLSearchParams.t :=
  match v with
  | Some a => URLSearchParams.set name (f a) params
  | None => params
  end.

Definition buildUrlFromViewState (state : ViewState)
    (baseParams : option URLSearchParams.t) : string :=
  let params := URLSearchParams.copy baseParams in
  let params :=
    match truthy (sortBy (sort state)) with
    | Some by_ =>
        URLSearchParams.set "order" (SortOrder_string (sortOrder (sort state)))
          (URLSearchParams.set "sort" by_ params)
    | None => params
    end in
  let params :=
    set_if (nonempty (status (filters state))) "status" (join ",") params in
  let params :=
    set_if (nonempty (category (filters state))) "category" (join ",") params in
  let params :=
    match dateRange (filters state) with
    | Some range =>
        let params := set_if (truthy (from range)) "date_from" id params in
        set_if (truthy (to range)) "date_to" id params
    | None => params
    end in
  let params := set_if (truthy (search (filters state))) "q" id params in
  let params := URLSearchParams.set "page" "1" params in
  "?" ++ URLSearchParams.toString params.

(** *** Encoding and decoding

    [encodeViewState] and [decodeViewState] work on the JavaScript object
    behind a [ViewState]. *)

Definition encodeViewState (state : Json.value) : string :=
  Json.stringify state.

Definition decodeViewState (encoded : string) : Json.value :=
  match Json.parse encoded with
  | Some v => v
  | None =>
      Json.JObject
        [ ("filters", Json.JObject []);
          ("sort", Json.JObject [ ("sortBy", Json.JNull);
                                  ("sortOrder", Json.JString "desc") ]) ]
  end.

(** **** The object of a [ViewState]

    Properties come in the order of the interface declarations; an
    optional property that is [None] is left out. *)

Definition nullable (s : option string) : Json.value :=
  match s with
  | Some x => Json.JString x
  | None => Json.JNull
  end.

Definition optional (key : string) (v : option Json.value)
  : list (string * Json.value) :=
  match v with
  | Some x => [(key, x)]
  | None => []
  end.

Definition strings_object (l : list string) : Json.value :=
  Json.JArray (map Json.JString l).

Definition DateRangeFilter_object (r : DateRangeFilter) : Json.value :=
  Json.JObject [ ("from", nullable (from r)); ("to", nullable (to r)) ].

Definition FilterParams_object (f : FilterParams) : Json.value :=
  Json.JObject
    (optional "status" (option_map strings_object (status f))
     ++ optional "category" (option_map strings_object (category f))
     ++ optional "dateRange" (option_map DateRangeFilter_object (dateRange f))
     ++ optional "search" (option_map Json.JString (search f))).

Definition SortParams_object (p : SortParams) : Json.value :=
  Json.JObject
    [ ("sortBy", nullable (sortBy p));
      ("sortOrder", Json.JString (SortOrder_string (sortOrder p))) ].

Definition to_object (state : ViewState) : Json.value :=
  Json.JObject
    [ ("filters", FilterParams_object (filters state));
      ("sort", SortParams_object (sort state)) ].

(** **** Reading an object as a [ViewState]

    [None] when a property does not have the type the interface gives
    it. *)

Definition as_string (v : Json.value) : option string :=
  match v with
  | Json.JString x => Some x
  | _ => None
  end.

Definition as_nullable (v : Json.value) : option (option string) :=
  match v with
  | Json.JNull => Some None
  | Json.JString x => Some (Some x)
  | _ => None
  end.

Fixpoint all_strings (l : list Json.value) : option (list string) :=
  match l with
  | [] => Some []
  | v :: l' =>
      match as_string v, all_strings l' with
      | Some x, Some xs => Some (x :: xs)
      | _, _ => None
      end
  end.

Definition as_strings (v : Json.value) : option (list string) :=
  match v with
  | Json.JArray l => all_strings l
  | _ => None
  end.

Definition as_SortOrder (v : Json.value) : option SortOrder :=
  match v with
  | Json.JString x =>
      if String.eqb x "asc" then Some asc
      else if String.eqb x "desc" then Some desc
      else None
  | _ => None
  end.

(** An optional property: absent, or of the type [read] accepts. *)
Definition read_optional {A : Type} (read : Json.value -> option A)
    (key : string) (members : list (string * Json.value)) : option (option A) :=
  match Json.member key members with
  | None => Some None
  | Some v => option_map Some (read v)
  end.

(** A required property. *)
Definition read_required {A : Type} (read : Json.value -> option A)
    (key : string) (members : list (string * Json.value)) : option A :=
  match Json.member key members with
  | None => None
  | Some v => read v
  end.

Definition as_DateRangeFilter (v : Json.value) : option DateRangeFilter :=
  match v with
  | Json.JObject members =>
      match read_required as_nullable "from" members,
            read_required as_nullable "to" members with
      | Some f, Some t => Some {| from := f; to := t |}
      | _, _ => None
      end
  | _ => None
  end.

Definition as_FilterParams (v : Json.value) : option FilterParams :=
  match v with
  | Json.JObject members =>
      match read_optional as_strings "status" members,
            read_optional as_strings "category" members,
            read_optional as_DateRangeFilter "dateRange" members,
            read_optional as_string "search" members with
      | Some st, Some c, Some d, Some q =>
          Some {| status := st; category := c; dateRange := d; search := q |}
      | _, _, _, _ => None
      end
  | _ => None
  end.

Definition as_SortParams (v : Json.value) : option SortParams :=
  match v with
  | Json.JObject members =>
      match read_required as_nullable "sortBy" members,
            read_required as_SortOrder "sortOrder" members with
      | Some b, Some o => Some {| sortBy := b; sortOrder := o |}
      | _, _ => None
      end
  | _ => None
  end.

Definition as_ViewState (v : Json.value) : option ViewState :=
  match v with
  | Json.JObject members =>
      match read_required as_FilterParams "filters" members,
            read_required as_SortParams "sort" members with
      | Some f, Some p => Some {| filters := f; sort := p |}
      | _, _ => None
      end
  | _ => None
  end.

(** [extractViewState]. *)
Definition extractViewState (currentSort : SortParams)
    (currentFilters : FilterParams) : ViewState :=
  {| sort := currentSort; filters := currentFilters |}.

End Views.

(** ** The status badge of the clients list (routes/dashboard.clients._index) *)

Module ClientsIndex.
Import Js.

Inductive Variant : Type :=
| v_default | v_secondary | v_destructive | v_outline | v_success.

(** An entry of [statusConfig]. *)
Record Config : Type := {
  label : string;
  variant : Variant
}.

(** The own properties of the object literal [statusConfig]. *)
Definition statusConfig : gmap string Config :=
  <["lead" := {| label := "Lead"; variant := v_secondary |}]>
  (<["prospect" := {| label := "Prospect"; variant := v_outline |}]>
  (<["active" := {| label := "Active"; variant := v_success |}]>
  (<["on_hold" := {| label := "On Hold"; variant := v_secondary |}]>
  (<["inactive" := {| label := "Inactive"; variant := v_destructive |}]>
  (<["archived" := {| label := "Archived"; variant := v_outline |}]> ∅))))).

(** The element [<Badge variant={...}>{...}</Badge>]; a property read
    that yields [undefined] is [None]. *)
Record Badge : Type := {
  badge_variant : option Variant;
  badge_label : option string
}.

Definition getStatusBadge (status : string) : Badge :=
  match get_property statusConfig status with
  | Own config =>
      {| badge_variant := Some (variant config);
         badge_label := Some (label config) |}
  | Inherited _ =>
      {| badge_variant := None; badge_label := None |}
  | Undefined =>
      {| badge_variant := Some v_default; badge_label := Some "Active" |}
  end.

End ClientsIndex.

(** ** The SQL schema: NUMERIC(10, 2) columns and generated columns *)

Module Schema.

(** A NUMERIC(p, 2) column value is held as its number of hundredths. *)
Definition hundredths : Type := Z.

(** A value of PostgreSQL's numeric type in the course of a computation:
    [unscaled / 10 ^ scale]. *)
Record numeric : Type := {
  unscaled : Z;
  scale : nat
}.

Definition of_column (v : hundredths) : numeric :=
  {| unscaled := v; scale := 2 |}.

(** [a * b]: exact, the scales add up. *)
Definition numeric_mul (a b : numeric) : numeric :=
  {| unscaled := unscaled a * unscaled b; scale := scale a + scale b |}.

(** [a / 100], the quotient by the integer 100: exact, with two more
    decimals (the server keeps sixteen significant digits at least). *)
Definition numeric_div_100 (a : numeric) : numeric :=
  {| unscaled := unscaled a; scale := scale a + 2 |}.

(** [num / den], for [0 < den], rounded to the nearest integer, ties away
    from zero: the rounding of the numeric type. *)
Definition round_half_away (num den : Z) : Z :=
  if 0 <=? num then (2 * num + den) / (2 * den)
  else - ((2 * (- num) + den) / (2 * den)).

(** The value kept when [a] is stored in a NUMERIC(10, 2) column: [a]
    rounded to two decimals.  (A value of more than eight integer digits
    is refused, and the row with it; no stored row has one.) *)
Definition store_scale_2 (a : numeric) : hundredths :=
  if (2 <=? scale a)%nat
  then round_half_away (unscaled a) (10 ^ Z.of_nat (scale a - 2))
  else unscaled a * 10 ^ Z.of_nat (2 - scale a).

(** The number a NUMERIC(p, 2) column value stands for. *)
Definition to_Q (v : hundredths) : Q := inject_Z v / 100.

Module Invoice.
Record t : Type := {
  user_id : string;
  date : string;
  status : option string;
  total : hundredths
}.
End Invoice.

Module Expense.
Record t : Type := {
  user_id : string;
  date : string;
  total : hundredths;
  is_tax_deductible : option bool;
  business_use_percentage : option hundredths;
  tax_category : option string
}.

(** [deductible_amount NUMERIC(10, 2) GENERATED ALWAYS AS
    (total * (business_use_percentage / 100)) STORED]: NULL when the
    percentage is NULL. *)
Definition deductible_amount (r : t) : option hundredths :=
  match business_use_percentage r with
  | Some pct =>
      Some (store_scale_2
              (numeric_mul (of_column (total r)) (numeric_div_100 (of_column pct))))
  | None => None
  end.
End Expense.

Module Mileage.
Record t : Type := {
  user_id : string;
  date : string;
  miles : hundredths;
  rate_per_mile : option hundredths
}.

(** [total DECIMAL(10, 2) GENERATED ALWAYS AS (miles * rate_per_mile)
    STORED]: NULL when the rate is NULL. *)
Definition total (r : t) : option hundredths :=
  match rate_per_mile r with
  | Some rate =>
      Some (store_scale_2 (numeric_mul (of_column (miles r)) (of_column rate)))
  | None => None
  end.
End Mileage.

End Schema.

(** ** The list loaders (clients, invoices, mileage) *)

Module ListLoader.
Import Js Supabase Pagination Sorting Filtering Search.

(** What an [async] loader ends with. *)
Inductive Outcome (A : Type) : Type :=
| Returned : A -> Outcome A
| Thrown : string -> Outcome A.
Arguments Returned {A} _.
Arguments Thrown {A} _.

(** Where the three loaders differ. *)
Record Config : Type := {
  tableName : string;
  defaultSortBy : string;
  columnMap : gmap string string;
  filterOptions : FilterOptions;
  searchFields : list string;
  failure : string
}.

Definition clients : Config :=
  {| tableName := "clients";
     defaultSortBy := "created_at";
     columnMap := clientColumnMap;
     filterOptions :=
       {| statusColumn := Some "status"; categoryColumn := None;
          dateColumn := None |};
     searchFields := ["name"; "email"; "phone"; "contact_person"];
     failure := "Failed to load clients" |}.

Definition invoices : Config :=
  {| tableName := "invoices";
     defaultSortBy := "date";
     columnMap := invoiceColumnMap;
     filterOptions :=
       {| statusColumn := Some "status"; categoryColumn := None;
          dateColumn := Some "date" |};
     searchFields := ["invoice_number"; "bill_to_name"; "bill_to_email"; "notes"];
     failure := "Failed to load invoices" |}.

Definition mileage : Config :=
  {| tableName := "mileage";
     defaultSortBy := "date";
     columnMap := mileageColumnMap;
     filterOptions :=
       {| statusColumn := None; categoryColumn := None;
          dateColumn := Some "date" |};
     searchFields := ["purpose"; "notes"];
     failure := "Failed to load mileage records" |}.

Section Loader.
Context {Row View : Type}.
Context {owned_row : Owned Row} {server_row : Postgrest Row}.
Context {owned_view : Owned View} {server_view : Postgrest View}.
Variable getDateRangeFromPreset : string -> DateRangeFilter.
Variable builtin_text : string -> string.

(** The body of the JSON response. *)
Record Data : Type := {
  rows : list Row;
  totalCount : nat;
  currentPage : JsNumber;
  itemsPerPage : JsNumber;
  sortParams : SortParams;
  filterParams : FilterParams;
  savedViews : list View
}.

(** The query on the listed table. *)
Definition list_query (cfg : Config) (uid : string)
    (searchParams : URLSearchParams.t) : Query :=
  let pp := parsePaginationParams searchParams in
  let r := getSupabaseRange (page pp) (limit pp) in
  let query := parseSearchParams searchParams in
  let sortParams := parseSortParams searchParams (Some (defaultSortBy cfg)) (Some desc) in
  let filterParams := parseFilterParams getDateRangeFromPreset searchParams in
  let q := Supabase.eq "user_id" uid Supabase.select in
  let q :=
    applySupabaseSorting builtin_text q
      (or_else (sortBy sortParams) (defaultSortBy cfg))
      (sortOrder sortParams) (Some (columnMap cfg)) in
  let q := applySupabaseFilters q filterParams (filterOptions cfg) in
  let q :=
    match query with
    | String _ _ => Supabase.or (buildSupabaseSearchQuery query (searchFields cfg)) q
    | EmptyString => q
    end in
  Supabase.range (Pagination.from r) (Pagination.to r) q.

(** The query on [saved_views]. *)
Definition views_query (cfg : Config) (uid : string) : Query :=
  Supabase.order "created_at" false
    (Supabase.eq "table_name" (tableName cfg)
       (Supabase.eq "user_id" uid Supabase.select)).

(** [loader], for the session of user [uid]. *)
Definition loader (cfg : Config) (uid : string)
    (searchParams : URLSearchParams.t)
    (table : list Row) (saved_views : list View) : Outcome Data :=
  let pp := parsePaginationParams searchParams in
  let query := parseSearchParams searchParams in
  let sortParams := parseSortParams searchParams (Some (defaultSortBy cfg)) (Some desc) in
  let filterParams := parseFilterParams getDateRangeFromPreset searchParams in
  let res := run (list_query cfg uid searchParams) table in
  if error res then Thrown (failure cfg)
  else
    let views := run (views_query cfg uid) saved_views in
    Returned
      {| rows := default [] (data res);
         totalCount := default 0%nat (count res);
         currentPage := page pp;
         itemsPerPage := limit pp;
         sortParams := sortParams;
         filterParams :=
           {| status := status filterParams;
              category := category filterParams;
              dateRange := dateRange filterParams;
              search := match query with
                        | String c s => Some (String c s)
                        | EmptyString => None
                        end |};
         savedViews := default [] (data views) |}.

(** *** The line-item templates loader

    It orders by creation time, has no filters of its own, and answers
    with what it has when the query fails. *)

Record TemplatesData : Type := {
  templates : list Row;
  templatesCount : nat;
  templatesPage : JsNumber;
  templatesPerPage : JsNumber
}.

Definition templates_query (uid : string) (searchParams : URLSearchParams.t)
  : Query :=
  let pp := parsePaginationParams searchParams in
  let r := getSupabaseRange (page pp) (limit pp) in
  let query := parseSearchParams searchParams in
  let q :=
    Supabase.order "created_at" false
      (Supabase.eq "user_id" uid Supabase.select) in
  let q :=
    match query with
    | String _ _ => Supabase.or (buildSupabaseSearchQuery query ["name"; "description"]) q
    | EmptyString => q
    end in
  Supabase.range (Pagination.from r) (Pagination.to r) q.

Definition templates_loader (uid : string) (searchParams : URLSearchParams.t)
    (table : list Row) : TemplatesData :=
  let pp := parsePaginationParams searchParams in
  let res := run (templates_query uid searchParams) table in
  {| templates := default [] (data res);
     templatesCount := default 0%nat (count res);
     templatesPage := page pp;
     templatesPerPage := limit pp |}.

End Loader.

End ListLoader.

(** ** routes/dashboard.clients._index: the list of the active clients *)

Module ClientsList.
Import Js Supabase Pagination Search ListLoader.

Section Loader.
Context {Row : Type}.
Context {owned_row : Owned Row} {server_row : Postgrest Row}.

(** The body of the JSON response. *)
Record Data : Type := {
  clients : list Row;
  totalCount : nat;
  currentPage : JsNumber;
  itemsPerPage : JsNumber
}.

(** The query on [clients]; [true] goes out as the text [true]. *)
Definition clientsQuery (uid : string) (searchParams : URLSearchParams.t)
  : Query :=
  let pp := parsePaginationParams searchParams in
  let r := getSupabaseRange (page pp) (limit pp) in
  let query := parseSearchParams searchParams in
  let q :=
    Supabase.order "created_at" false
      (Supabase.eq "is_active" "true"
         (Supabase.eq "user_id" uid Supabase.select)) in
  let q :=
    match query with
    | String _ _ =>
        Supabase.or
          (buildSupabaseSearchQuery query
             ["name"; "email"; "phone"; "contact_person"]) q
    | EmptyString => q
    end in
  Supabase.range (Pagination.from r) (Pagination.to r) q.

(** [loader], for the session of user [uid]. *)
Definition loader (uid : string) (searchParams : URLSearchParams.t)
    (table : list Row) : Outcome Data :=
  let pp := parsePaginationParams searchParams in
  let res := run (clientsQuery uid searchParams) table in
  if error res then Thrown "Failed to load clients"
  else
    Returned
      {| clients := default [] (data res);
         totalCount := default 0%nat (count res);
         currentPage := page pp;
         itemsPerPage := limit pp |}.

End Loader.

End ClientsList.

(** ** JavaScript numbers that are not integers

    A number of the tax report is a binary64 double: [SpecFloat]'s
    [spec_float] with 53 bits of precision, and its operations, rounded to
    nearest, ties to even. *)

Module Double.

Definition t : Type := spec_float.

Definition prec : Z := 53.
Definition emax : Z := 1024.

(** The double nearest to the integer [z]. *)
Definition of_Z (z : Z) : t := binary_normalize prec emax z 0 false.

Definition add : t -> t -> t := SFadd prec emax.
Definition sub : t -> t -> t := SFsub prec emax.
Definition mul : t -> t -> t := SFmul prec emax.
Definition div : t -> t -> t := SFdiv prec emax.

Definition zero : t := S754_zero false.

(** [a < b]. *)
Definition ltb (a b : t) : bool := SFltb a b.

(** The decimal literal [n / d] with a power of ten [d], and a NUMERIC
    column value as JSON delivers it: the double nearest to the
    quotient. *)
Definition decimal (n d : Z) : t := div (of_Z n) (of_Z d).

(** [l.reduce((sum, x) => sum + x, 0)]. *)
Definition sum (l : list t) : t := fold_left add l zero.

(** The rational that a finite double stands for. *)
Definition to_Q (x : t) : option Q :=
  match x with
  | S754_zero _ => Some 0%Q
  | S754_finite s m e =>
      Some ((if s then - inject_Z (Z.pos m) else inject_Z (Z.pos m)) * 2 ^ e)%Q
  | _ => None
  end.

End Double.

(** ** routes/dashboard.tax-report.pdf *)

Module TaxReport.
Import Js Supabase Schema.

#[global] Instance invoice_owned : Owned Invoice.t := {| owner := Invoice.user_id |}.
#[global] Instance expense_owned : Owned Expense.t := {| owner := Expense.user_id |}.
#[global] Instance mileage_owned : Owned Mileage.t := {| owner := Mileage.user_id |}.

(** A NUMERIC(p, 2) column value in the response. *)
Definition of_hundredths (v : hundredths) : Double.t := Double.decimal v 100.

(** The number a numeric column read stands for in a sum: [null] counts
    as 0. *)
Definition column (x : option hundredths) : Double.t :=
  match x with
  | Some v => of_hundredths v
  | None => Double.zero
  end.

(** [sum + x] for a number [sum] and a numeric column read [x]. *)
Definition plus_column (sum : Double.t) (x : option hundredths) : Double.t :=
  Double.add sum (column x).

Record CategoryTotal : Type := {
  cat_count : nat;
  cat_total : Double.t
}.

Record Stats : Type := {
  totalIncome : Double.t;
  totalExpenses : Double.t;
  totalMileageDeduction : Double.t;
  totalDeductions : Double.t;
  netProfit : Double.t;
  selfEmploymentTax : Double.t;
  estimatedIncomeTax : Double.t;
  totalEstimatedTax : Double.t;
  totalMileage : Double.t;
  expenseCount : nat;
  mileageRecordCount : nat
}.

Record TaxReportData : Type := {
  stats : Stats;
  expensesByCategory : gmap string CategoryTotal;
  startDate : string;
  endDate : string
}.

(** [inv.status === "paid"]. *)
Definition is_paid (inv : Invoice.t) : bool :=
  match Invoice.status inv with
  | Some s => String.eqb s "paid"
  | None => false
  end.

(** [exp.is_tax_deductible], as a condition. *)
Definition is_deductible (exp : Expense.t) : bool :=
  match Expense.is_tax_deductible exp with
  | Some b => b
  | None => false
  end.

(** [x > 0]. *)
Definition positive (x : Double.t) : bool := Double.ltb Double.zero x.

(** One step of the [forEach] that groups by tax category.  A category
    named like a property of [Object.prototype] finds that built-in, so
    no entry of the result is made or changed for it. *)
Definition add_to_category (acc : gmap string CategoryTotal) (exp : Expense.t)
  : gmap string CategoryTotal :=
  let category := or_else (Expense.tax_category exp) "uncategorized" in
  match get_property acc category with
  | Own e =>
      <[category := {| cat_count := S (cat_count e);
                       cat_total := plus_column (cat_total e) (Expense.deductible_amount exp) |}]> acc
  | Undefined =>
      <[category := {| cat_count := 1%nat;
                       cat_total :=
                         plus_column Double.zero (Expense.deductible_amount exp) |}]> acc
  | Inherited _ => acc
  end.

(** The category of an expense in the report. *)
Definition category_of (exp : Expense.t) : string :=
  or_else (Expense.tax_category exp) "uncategorized".

(** The entry of a category once [add_to_category] took a group of
    further expenses of that category, in the words of the loop: the
    count goes up by one for each and the amounts are added in turn. *)
Definition entry_after (e : option CategoryTotal) (group : list Expense.t)
  : option CategoryTotal :=
  match group with
  | [] => e
  | _ :: _ =>
      Some {| cat_count := (from_option cat_count 0 e + length group)%nat;
              cat_total :=
                fold_left Double.add
                  (map (fun exp => column (Expense.deductible_amount exp)) group)
                  (from_option cat_total Double.zero e) |}
  end.

(** The statistics, from the fetched rows. *)
Definition compute_stats (invoices : list Invoice.t) (expenses : list Expense.t)
    (mileage : list Mileage.t) : Stats :=
  let totalIncome :=
    fold_left (fun sum inv => Double.add sum (of_hundredths (Invoice.total inv)))
      (List.filter is_paid invoices) Double.zero in
  let taxDeductibleExpenses := List.filter is_deductible expenses in
  let totalExpenses :=
    fold_left (fun sum exp => plus_column sum (Expense.deductible_amount exp))
      taxDeductibleExpenses Double.zero in
  let totalMileage :=
    fold_left (fun sum m => Double.add sum (of_hundredths (Mileage.miles m)))
      mileage Double.zero in
  let totalMileageDeduction :=
    fold_left (fun sum m => plus_column sum (Mileage.total m)) mileage Double.zero in
  let totalDeductions := Double.add totalExpenses totalMileageDeduction in
  let netProfit := Double.sub totalIncome totalDeductions in
  let selfEmploymentTax :=
    if positive netProfit then Double.mul netProfit (Double.decimal 153 1000)
    else Double.zero in
  let estimatedIncomeTax :=
    if positive netProfit
    then Double.mul
           (Double.sub netProfit (Double.div selfEmploymentTax (Double.of_Z 2)))
           (Double.decimal 22 100)
    else Double.zero in
  let totalEstimatedTax := Double.add selfEmploymentTax estimatedIncomeTax in
  {| totalIncome := totalIncome;
     totalExpenses := totalExpenses;
     totalMileageDeduction := totalMileageDeduction;
     totalDeductions := totalDeductions;
     netProfit := netProfit;
     selfEmploymentTax := selfEmploymentTax;
     estimatedIncomeTax := estimatedIncomeTax;
     totalEstimatedTax := totalEstimatedTax;
     totalMileage := totalMileage;
     expenseCount := length taxDeductibleExpenses;
     mileageRecordCount := length mileage |}.

Section Loader.
Context {server_invoices : Postgrest Invoice.t}.
Context {server_expenses : Postgrest Expense.t}.
Context {server_mileage : Postgrest Mileage.t}.
(** The first day of the current year and the current day, as the
    clock gives them. *)
Variables (yearStart today : string).

(** The query sent to each of the three tables. *)
Definition report_query (uid startDate endDate : string) : Query :=
  Supabase.lte "date" endDate
    (Supabase.gte "date" startDate
       (Supabase.eq "user_id" uid Supabase.select)).

(** [result.data || []]. *)
Definition fetch {Row : Type} `{Owned Row} `{Postgrest Row}
    (q : Query) (table : list Row) : list Row :=
  default [] (data (run q table)).

(** The data the PDF is rendered from, for the session of user [uid]. *)
Definition loader (uid : string) (searchParams : URLSearchParams.t)
    (invoices : list Invoice.t) (expenses : list Expense.t)
    (mileage : list Mileage.t) : TaxReportData :=
  let startDate := or_else (URLSearchParams.get "startDate" searchParams) yearStart in
  let endDate := or_else (URLSearchParams.get "endDate" searchParams) today in
  let q := report_query uid startDate endDate in
  let invoices := fetch q invoices in
  let expenses := fetch q expenses in
  let mileage := fetch q mileage in
  {| stats := compute_stats invoices expenses mileage;
     expensesByCategory :=
       fold_left add_to_category (List.filter is_deductible expenses) ∅;
     startDate := startDate;
     endDate := endDate |}.

End Loader.

End TaxReport.

(** ** A server for the examples

    Dates are ISO strings and compare as such; a filter on another column
    holds; no request is refused. *)

Module Reference.
Import Supabase Schema.

Definition date_holds (date : string) (f : Filter) : bool :=
  match f with
  | Gte column value => negb (String.eqb column "date") || String.leb value date
  | Lte column value => negb (String.eqb column "date") || String.leb date value
  | _ => true
  end.

Definition by_date {Row : Type} (date : Row -> string) : Postgrest Row :=
  {| holds := fun f r => date_holds (date r) f;
     precedes := fun _ a b => String.leb (date a) (date b);
     rejects := fun _ => false |}.

Definition invoices : Postgrest Invoice.t := by_date Invoice.date.
Definition expenses : Postgrest Expense.t := by_date Expense.date.
Definition mileage : Postgrest Mileage.t := by_date Mileage.date.

(** A row of [clients] and a row of [saved_views], with the columns the
    examples use. *)
Record Client : Type := {
  client_user_id : string;
  client_name : string;
  client_created_at : string
}.

Record SavedView : Type := {
  view_user_id : string;
  view_name : string;
  view_table_name : string;
  view_created_at : string
}.

Definition client_owned : Owned Client := {| owner := client_user_id |}.
Definition view_owned : Owned SavedView := {| owner := view_user_id |}.

Definition clients : Postgrest Client := by_date client_created_at.

Definition saved_views : Postgrest SavedView :=
  {| holds := fun f r =>
       match f with
       | Eq column value =>
           negb (String.eqb column "table_name") || String.eqb (view_table_name r) value
       | _ => true
       end;
     precedes := fun _ a b => String.leb (view_created_at a) (view_created_at b);
     rejects := fun _ => false |}.

Definition no_preset (preset : string) : Filtering.DateRangeFilter :=
  {| Filtering.from := None; Filtering.to := None |}.

Definition builtin_text (name : string) : string :=
  "function " ++ name ++ "() { [native code] }".

End Reference.

(** ** [Math.ceil(a / b)], [Math.floor(n / 2)] and [String(n)] *)

Module JsMath.
Import Js.

Abbreviation number := JsNumber (only parsing).
Abbreviation nan := NaN (only parsing).
Abbreviation inf := Inf (only parsing).
Abbreviation int := Num (only parsing).

(** The quotient [a / b] of two positive integers, rounded to the nearest
    double, ties to the even significand: [m * 2 ^ e] for the pair
    [(m, e)] returned.  The exponent [l] has
    [2 ^ l <= a / b < 2 ^ (l + 1)]; the significand has 53 bits, fewer
    below [2 ^ -1022]. *)
Definition div_round (a b : Z) : Z * Z :=
  let l0 := Z.log2 a - Z.log2 b in
  let below :=
    if 0 <=? l0 then a <? b * 2 ^ l0 else a * 2 ^ (- l0) <? b in
  let l := if below then l0 - 1 else l0 in
  let e := Z.max (l - 52) (-1074) in
  let n := if e <? 0 then a * 2 ^ (- e) else a in
  let d := if e <? 0 then b else b * 2 ^ e in
  let q := n / d in
  let r := n mod d in
  let up := (d <? 2 * r) || ((2 * r =? d) && Z.odd q) in
  (if up then q + 1 else q, e).

(** [Math.ceil] of [m * 2 ^ e], negated when [negative]. *)
Definition ceil_scaled (negative : bool) (m e : Z) : Z :=
  if 0 <=? e then (if negative then - (m * 2 ^ e) else m * 2 ^ e)
  else if negative then - (m / 2 ^ (- e))
       else - ((- m) / 2 ^ (- e)).

(** [Math.ceil(a / b)]: the quotient is rounded before [Math.ceil] sees
    it. *)
Definition ceil_div (a b : number) : number :=
  match a, b with
  | nan, _ | _, nan => nan
  | inf _, inf _ => nan
  | inf s, int y => inf (xorb s (y <? 0))
  | int _, inf _ => int 0
  | int x, int y =>
      if y =? 0 then (if x =? 0 then nan else inf (x <? 0))
      else if x =? 0 then int 0
      else
        let '(m, e) := div_round (Z.abs x) (Z.abs y) in
        int (ceil_scaled (xorb (x <? 0) (y <? 0)) m e)
  end.

(** [Math.floor(n / 2)]: halving an integer is exact. *)
Definition floor_half (n : number) : number :=
  match n with
  | nan => nan
  | inf s => inf s
  | int z => int (z / 2)
  end.

(** *** [String(n)] *)

Definition digit_char (d : N) : ascii := ascii_of_N (48 + d).

(** The decimal digits of [n] put before [acc]; [fuel] bounds their
    number. *)
Fixpoint digits_before (fuel : nat) (n : N) (acc : string) : string :=
  match fuel with
  | O => acc
  | S fuel =>
      let acc := String (digit_char (n mod 10)) acc in
      if (n <? 10)%N then acc else digits_before fuel (n / 10) acc
  end.

(** A number has no more decimal digits than binary ones. *)
Definition string_of_N (n : N) : string :=
  digits_before (S (N.to_nat (N.log2 n))) n EmptyString.

Definition string_of_Z (z : Z) : string :=
  if z <? 0 then String "-" (string_of_N (Z.to_N (- z)))
  else string_of_N (Z.to_N z).

(** [String(n)] writes the fewest digits that read back as [n]: the
    digits of an integer [s] of [k] digits, with a power of ten [n], for
    which [s * 10 ^ (n - k)] rounds to the number, [k] as small as can be
    and then [s * 10 ^ (n - k)] as near to the number as can be. *)
Definition reads_back (a s p : Z) : bool :=
  match round (s * p) with
  | Num v => v =? a
  | _ => false
  end.

(** The [s] of [k] digits for the power [n], if there is one; [10 ^ k]
    stands for the digit 1 with the power [n + 1]. *)
Definition candidate (a n k : Z) : option Z :=
  let p := 10 ^ (n - k) in
  let lo := a / p in
  let hi := lo + 1 in
  let r := a mod p in
  let ok s := (10 ^ (k - 1) <=? s) && (s <=? 10 ^ k) && reads_back a s p in
  if (2 * r <? p) || ((2 * r =? p) && Z.even lo)
  then (if ok lo then Some lo else if ok hi then Some hi else None)
  else (if ok hi then Some hi else if ok lo then Some lo else None).

Fixpoint shortest_from (steps : nat) (k a n : Z) : Z * Z :=
  match steps with
  | O => (a, n)
  | S steps =>
      match candidate a n k with
      | Some s => (s, k)
      | None => shortest_from steps (k + 1) a n
      end
  end.

(** [s], [k] and [n] for the positive integer [a]. *)
Definition shortest (a : Z) : Z * Z * Z :=
  let n := Z.of_nat (String.length (string_of_N (Z.to_N a))) in
  let '(s, k) := shortest_from (Z.to_nat n) 1 a n in
  if s =? 10 ^ k then (10 ^ (k - 1), k, n + 1) else (s, k, n).

Fixpoint zeros (n : nat) : string :=
  match n with
  | O => EmptyString
  | S n => String "0" (zeros n)
  end.

(** The digits, then zeros, up to 21 digits; beyond, one digit, the
    others after a point, and the power of ten. *)
Definition string_of_large (a : Z) : string :=
  let '(s, k, n) := shortest a in
  let ds := string_of_N (Z.to_N s) in
  if n <=? 21 then ds ++ zeros (Z.to_nat (n - k))
  else
    match ds with
    | String d EmptyString => String d ("e+" ++ string_of_Z (n - 1))
    | String d rest => String d ("." ++ rest ++ "e+" ++ string_of_Z (n - 1))
    | EmptyString => EmptyString
    end.

(** [String(n)].  Below [2 ^ 53] the fewest digits are those of the
    integer itself, trailing zeros included. *)
Definition to_String (n : JsNumber) : string :=
  match n with
  | NaN => "NaN"
  | Inf false => "Infinity"
  | Inf true => "-Infinity"
  | Num z =>
      if Z.abs z <? 2 ^ 53 then string_of_Z z
      else if z <? 0 then String "-" (string_of_large (- z))
      else string_of_large z
  end.

End JsMath.

(** ** app/lib/pagination.ts: metadata, page numbers and URLs *)

Module PaginationMeta.
Import Js JsMath.

Record PaginationMeta : Type := {
  currentPage : number;
  totalPages : number;
  totalItems : number;
  itemsPerPage : number;
  hasNextPage : bool;
  hasPreviousPage : bool;
  startIndex : number;
  endIndex : number
}.

Definition calculatePaginationMeta (totalItems currentPage itemsPerPage : number)
  : PaginationMeta :=
  let totalPages := Js.max (int 1) (ceil_div totalItems itemsPerPage) in
  let safePage := Js.max (int 1) (Js.min currentPage totalPages) in
  let startIndex := Js.mul (Js.sub safePage (int 1)) itemsPerPage in
  let endIndex :=
    Js.min (Js.sub (Js.add startIndex itemsPerPage) (int 1))
      (Js.sub totalItems (int 1)) in
  {| currentPage := safePage;
     totalPages := totalPages;
     totalItems := totalItems;
     itemsPerPage := itemsPerPage;
     hasNextPage := ltb safePage totalPages;
     hasPreviousPage := gtb safePage (int 1);
     startIndex := startIndex;
     endIndex := endIndex |}.

(** An entry of the page list: a number or ['ellipsis']. *)
Inductive PageItem : Type :=
| Page : number -> PageItem
| Ellipsis : PageItem.

(** The integers from [first] to [last], none when [last < first]. *)
Definition from_to (first last : Z) : list Z :=
  map (fun k => first + Z.of_nat k) (seq 0 (Z.to_nat (last - first + 1))).

(** An array holds at most [2 ^ 32 - 1] entries. *)
Definition array_limit : Z := 2 ^ 32 - 1.

(** [Array.from({ length }, (_, i) => i + 1)]: the length is read as an
    integer from 0 to [2 ^ 53 - 1]; [None] when the array cannot be made. *)
Definition Array_from_length (length : number) : option (list PageItem) :=
  match length with
  | nan | inf true => Some []
  | inf false => None
  | int n =>
      if array_limit <? n then None
      else Some (map (fun i => Page (int i)) (from_to 1 n))
  end.

(** The values that [for (let i = first; i <= last; i++)] runs through,
    [i++] being [i + 1] rounded; [None] when [i] stops growing before it
    passes [last].  [steps] bounds the rounds. *)
Fixpoint counted (steps : nat) (i last : Z) : option (list Z) :=
  if last <? i then Some []
  else
    match steps with
    | O => None
    | S steps =>
        match round (i + 1) with
        | Num i' =>
            if i' <=? i then None
            else option_map (cons i) (counted steps i' last)
        | _ => None
        end
    end.

(** Each round adds one at least, and no array takes more than
    [array_limit] entries. *)
Definition for_loop (first last : number) : option (list Z) :=
  if leb first last then
    match first, last with
    | int a, int b =>
        counted (Z.to_nat (Z.min (b - a + 1) (array_limit + 1))) a b
    | _, _ => None
    end
  else Some [].

(** [getPageNumbers]; [maxVisible] defaults to 7.  [None] when the call
    does not return a list. *)
Definition getPageNumbers (currentPage totalPages : number)
    (maxVisible : option number) : option (list PageItem) :=
  let maxVisible := default (int 7) maxVisible in
  if leb totalPages maxVisible then Array_from_length totalPages
  else
    let halfVisible := floor_half maxVisible in
    let pages := [Page (int 1)] in
    let startPage := Js.max (int 2) (Js.sub currentPage halfVisible) in
    let endPage :=
      Js.min (Js.sub totalPages (int 1)) (Js.add currentPage halfVisible) in
    let '(startPage, endPage) :=
      if leb currentPage halfVisible
      then (startPage, Js.sub maxVisible (int 1))
      else if geb currentPage (Js.sub totalPages halfVisible)
           then (Js.add (Js.sub totalPages maxVisible) (int 2), endPage)
           else (startPage, endPage) in
    let pages :=
      if gtb startPage (int 2) then (pages ++ [Ellipsis])%list else pages in
    match for_loop startPage endPage with
    | None => None
    | Some middle =>
        let pages := (pages ++ map (fun i => Page (int i)) middle)%list in
        let pages :=
          if ltb endPage (Js.sub totalPages (int 1))
          then (pages ++ [Ellipsis])%list else pages in
        let pages :=
          if gtb totalPages (int 1) then (pages ++ [Page totalPages])%list
          else pages in
        if array_limit <? Z.of_nat (length pages) then None else Some pages
    end.

(** The page numbers of a list are consecutive where no ellipsis stands
    between them, an ellipsis stands between two numbers only where pages
    are left out, and none stands first, last or next to another. *)
Fixpoint marks_gaps (pages : list PageItem) : bool :=
  match pages with
  | [] => true
  | Ellipsis :: _ => false
  | Page (int a) :: rest =>
      match rest with
      | [] => true
      | Page (int b) :: _ => (b =? a + 1) && marks_gaps rest
      | Ellipsis :: rest' =>
          match rest' with
          | Page (int b) :: _ => (a + 1 <? b) && marks_gaps rest'
          | _ => false
          end
      | _ => false
      end
  | Page _ :: _ => false
  end.

(** The [updates] of [createPaginationUrl]: a property left out is
    [None]. *)
Record Updates : Type := {
  update_page : option JsNumber;
  update_limit : option JsNumber
}.

(** [queryString ? `${baseUrl}?${queryString}` : baseUrl]. *)
Definition with_query (baseUrl queryString : string) : string :=
  match queryString with
  | EmptyString => baseUrl
  | String _ _ => baseUrl ++ "?" ++ queryString
  end.

Definition createPaginationParams (searchParams : URLSearchParams.t)
    (updates : Updates) : URLSearchParams.t :=
  let params := URLSearchParams.copy (Some searchParams) in
  let params :=
    match update_page updates with
    | Some page => URLSearchParams.set "page" (to_String page) params
    | None => params
    end in
  match update_limit updates with
  | Some limit => URLSearchParams.set "limit" (to_String limit) params
  | None => params
  end.

Definition createPaginationUrl (baseUrl : string)
    (searchParams : URLSearchParams.t) (updates : Updates) : string :=
  with_query baseUrl
    (URLSearchParams.toString (createPaginationParams searchParams updates)).

End PaginationMeta.

(** ** components/pagination: the links of the pager *)

Module Pager.
Import Js JsMath PaginationMeta.

(** The parameters kept from the current query: those named in
    [preserveParams] whose value is not empty. *)
Definition preserve (searchParams : URLSearchParams.t)
    (preserveParams : list string) : URLSearchParams.t :=
  fold_left
    (fun params param =>
       match URLSearchParams.get param searchParams with
       | Some (String c v) => URLSearchParams.set param (String c v) params
       | Some EmptyString | None => params
       end)
    preserveParams URLSearchParams.empty.

(** The parameters of [createPageUrl(page)]; the limit goes in unless it
    is 20. *)
Definition createPageParams (searchParams : URLSearchParams.t)
    (preserveParams : list string) (itemsPerPage page : JsNumber)
  : URLSearchParams.t :=
  let params := preserve searchParams preserveParams in
  let params := URLSearchParams.set "page" (to_String page) params in
  match itemsPerPage with
  | Num 20 => params
  | _ => URLSearchParams.set "limit" (to_String itemsPerPage) params
  end.

Definition createPageUrl (basePath : string) (searchParams : URLSearchParams.t)
    (preserveParams : list string) (itemsPerPage page : JsNumber) : string :=
  with_query basePath
    (URLSearchParams.toString
       (createPageParams searchParams preserveParams itemsPerPage page)).

Definition createLimitParams (searchParams : URLSearchParams.t)
    (preserveParams : list string) (limit : JsNumber) : URLSearchParams.t :=
  let params := preserve searchParams preserveParams in
  let params := URLSearchParams.set "page" "1" params in
  URLSearchParams.set "limit" (to_String limit) params.

Definition createLimitUrl (basePath : string) (searchParams : URLSearchParams.t)
    (preserveParams : list string) (limit : JsNumber) : string :=
  with_query basePath
    (URLSearchParams.toString (createLimitParams searchParams preserveParams limit)).

End Pager.

(** ** app/lib/filtering.ts: toggles and the badge count *)

Module FilterTools.
Import Js Filtering.

(** [currentValues.includes(value)]. *)
Definition includes (value : string) (currentValues : list string) : bool :=
  existsb (String.eqb value) currentValues.

Definition toggleFilterValue (currentValues : list string) (value : string)
  : list string :=
  if includes value currentValues
  then List.filter (fun v => negb (String.eqb v value)) currentValues
  else (currentValues ++ [value])%list.

Definition getActiveFilterCount (filters : FilterParams) : nat :=
  let count := 0%nat in
  let count :=
    match status filters with
    | Some (_ :: _) => S count
    | _ => count
    end in
  let count :=
    match category filters with
    | Some (_ :: _) => S count
    | _ => count
    end in
  let count :=
    match dateRange filters with
    | Some range =>
        match Views.truthy (from range), Views.truthy (to range) with
        | None, None => count
        | _, _ => S count
        end
    | None => count
    end in
  match search filters with
  | Some (String _ _) => S count
  | _ => count
  end.

(** A value that a comma-separated parameter carries unchanged: not
    empty and without a comma. *)
Definition is_value (v : string) : bool :=
  negb (String.eqb v EmptyString) && URLSearchParams.free_of "," v.

End FilterTools.

(** ** components/filter-bar: what the handlers navigate to *)

Module FilterBar.
Import Js Filtering FilterTools.

(** [values.length > 0 ? values : null]. *)
Definition or_null (values : list string) : FilterValue :=
  match values with
  | [] => FNull
  | _ :: _ => FArray values
  end.

Definition handleToggleStatus (filters : FilterParams)
    (searchParams : URLSearchParams.t) (status : string) : string :=
  let currentStatus := default [] (Filtering.status filters) in
  let newStatus := toggleFilterValue currentStatus status in
  buildFilterUrl searchParams "status" (or_null newStatus).

Definition handleToggleCategory (filters : FilterParams)
    (searchParams : URLSearchParams.t) (category : string) : string :=
  let currentCategory := default [] (Filtering.category filters) in
  let newCategory := toggleFilterValue currentCategory category in
  buildFilterUrl searchParams "category" (or_null newCategory).

Definition handleClearDateRange (searchParams : URLSearchParams.t) : string :=
  let params := URLSearchParams.copy (Some searchParams) in
  let params := URLSearchParams.delete "date_from" params in
  let params := URLSearchParams.delete "date_to" params in
  let params := URLSearchParams.delete "date_preset" params in
  let params := URLSearchParams.set "page" "1" params in
  "?" ++ URLSearchParams.toString params.

Definition handleApplyDateRange (searchParams : URLSearchParams.t)
    (from to : option string) : string :=
  let params := URLSearchParams.copy (Some searchParams) in
  let params := URLSearchParams.delete "date_preset" params in
  let params :=
    match from with
    | Some (String c s) => URLSearchParams.set "date_from" (String c s) params
    | Some EmptyString | None => URLSearchParams.delete "date_from" params
    end in
  let params :=
    match to with
    | Some (String c s) => URLSearchParams.set "date_to" (String c s) params
    | Some EmptyString | None => URLSearchParams.delete "date_to" params
    end in
  let params := URLSearchParams.set "page" "1" params in
  "?" ++ URLSearchParams.toString params.

Definition handleClearAll (searchParams : URLSearchParams.t) : string :=
  let params := URLSearchParams.copy (Some searchParams) in
  let params := URLSearchParams.delete "status" params in
  let params := URLSearchParams.delete "category" params in
  let params := URLSearchParams.delete "date_from" params in
  let params := URLSearchParams.delete "date_to" params in
  let params := URLSearchParams.delete "date_preset" params in
  let params := URLSearchParams.set "page" "1" params in
  "?" ++ URLSearchParams.toString params.

End FilterBar.

(** ** app/lib/sorting.ts: the indicator of a column header *)

Module SortIndicator.
Import Sorting.

Definition getSortIndicator (columnName : string) (currentSortBy : option string)
    (currentSortOrder : SortOrder) : option SortOrder :=
  if bool_decide (Some columnName = currentSortBy) then Some currentSortOrder
  else None.

End SortIndicator.

(** ** app/lib/views.ts: the description of a view *)

Module ViewDescription.
Import Js Sorting Filtering Views.

(** [parts.push(part)]. *)
Definition push (parts : list string) (part : string) : list string :=
  (parts ++ [part])%list.

Definition getViewDescription (state : ViewState) : string :=
  let parts := [] in
  let parts :=
    match truthy (sortBy (sort state)) with
    | Some by_ =>
        let order :=
          match sortOrder (sort state) with
          | asc => "ascending"
          | desc => "descending"
          end in
        push parts ("Sorted by " ++ by_ ++ " (" ++ order ++ ")")
    | None => parts
    end in
  let parts :=
    match nonempty (status (filters state)) with
    | Some values => push parts ("Status: " ++ join ", " values)
    | None => parts
    end in
  let parts :=
    match nonempty (category (filters state)) with
    | Some values => push parts ("Category: " ++ join ", " values)
    | None => parts
    end in
  let parts :=
    match dateRange (filters state) with
    | Some range =>
        match truthy (from range), truthy (to range) with
        | Some from, Some to => push parts ("Date: " ++ from ++ " to " ++ to)
        | Some from, None => push parts ("Date: from " ++ from)
        | None, Some to => push parts ("Date: until " ++ to)
        | None, None => parts
        end
    | None => parts
    end in
  let parts :=
    match truthy (search (filters state)) with
    | Some text =>
        push parts
          ("Search: " ++ String Json.dquote (text ++ String Json.dquote EmptyString))
    | None => parts
    end in
  match parts with
  | [] => "No filters applied"
  | _ :: _ => join " • " parts
  end.

End ViewDescription.

(** ** app/lib/search.ts and components/search-input: the search links *)

Module SearchUrl.
Import Js PaginationMeta.

(** The parameters of [createSearchUrl]; [preserveParams] defaults to
    none.  The page goes back to 1 when it is among the parameters
    kept. *)
Definition createSearchParams (searchParams : URLSearchParams.t)
    (query : string) (preserveParams : option (list string))
  : URLSearchParams.t :=
  let params := Pager.preserve searchParams (default [] preserveParams) in
  let params :=
    match trim query with
    | String c s => URLSearchParams.set "q" (String c s) params
    | EmptyString => params
    end in
  if URLSearchParams.has "page" params
  then URLSearchParams.set "page" "1" params
  else params.

Definition createSearchUrl (baseUrl : string) (searchParams : URLSearchParams.t)
    (query : string) (preserveParams : option (list string)) : string :=
  with_query baseUrl
    (URLSearchParams.toString (createSearchParams searchParams query preserveParams)).

(** The parameters that [updateSearchParams] of the search input
    navigates to: here the page goes back to 1 when the current query has
    one. *)
Definition updateSearchParams (searchParams : URLSearchParams.t)
    (preserveParams : list string) (newQuery : string) : URLSearchParams.t :=
  let params := Pager.preserve searchParams preserveParams in
  let params :=
    match trim newQuery with
    | String c s => URLSearchParams.set "q" (String c s) params
    | EmptyString => params
    end in
  let hasPage := URLSearchParams.has "page" searchParams in
  if hasPage then URLSearchParams.set "page" "1" params else params.

Definition updateSearchUrl (path : string) (searchParams : URLSearchParams.t)
    (preserveParams : list string) (newQuery : string) : string :=
  with_query path
    (URLSearchParams.toString (updateSearchParams searchParams preserveParams newQuery)).

End SearchUrl.

(** ** The [saved_views] table and the action of a list route
    (supabase-migrations, routes/dashboard.clients._index) *)

Module SavedViews.
Import Js Supabase ListLoader.

Record Row : Type := {
  id : string;
  user_id : string;
  name : string;
  table_name : string;
  view_state : Json.value;
  created_at : string
}.

#[global] Instance row_owned : Owned Row := {| owner := user_id |}.

(** [CHECK (table_name IN (...))]. *)
Definition table_names : list string :=
  ["invoices"; "expenses"; "clients"; "mileage"; "line_item_templates"].

(** The values of an [insert]; [None] is [null]. *)
Record Values : Type := {
  new_user_id : string;
  new_name : option string;
  new_table_name : option string;
  new_view_state : option Json.value
}.

(** [FormData.get(name)]: the first value of the name, or [null]. *)
Definition FormData : Type := list (string * string).

Fixpoint get (name : string) (formData : FormData) : option string :=
  match formData with
  | [] => None
  | (k, v) :: rest => if String.eqb k name then Some v else get name rest
  end.

(** In a request body the JSON [null] is the SQL NULL. *)
Definition not_null (v : Json.value) : option Json.value :=
  match v with
  | Json.JNull => None
  | _ => Some v
  end.

(** What a route handler answers: [json({ success: true })] or
    [json({ error }, { status })]. *)
Inductive Reply : Type :=
| Success : Reply
| Failure (error : string) (status : Z) : Reply.

Section Server.
(** The texts that the server reads as a [uuid]; the value that
    [gen_random_uuid()] gives to the next row and the one that [NOW()]
    gives. *)
Variable is_uuid : string -> bool.
Variables (next_id now : string).
(** The values are within the limits of the server on sizes: those of a
    request, of a [jsonb] value and of an entry of the unique index. *)
Variable fits : Values -> bool.

(** UNIQUE (user_id, table_name, name). *)
Definition same_name (uid tname vname : string) (r : Row) : bool :=
  String.eqb (user_id r) uid && String.eqb (table_name r) tname
  && String.eqb (name r) vname.

(** [insert(values)] by the session of [auth_uid]: the table with the new
    row, or [None] when the row-level policy, a NOT NULL, the CHECK, the
    primary key or the UNIQUE constraint refuses it, a text holds U+0000,
    or the values pass a limit on sizes. *)
Definition insert (auth_uid : string) (values : Values) (table : list Row)
  : option (list Row) :=
  match new_name values, new_table_name values, new_view_state values with
  | Some vname, Some tname, Some state =>
      if negb (String.eqb (new_user_id values) auth_uid) then None
      else if Js.has_nul vname || Json.has_nul state then None
      else if negb (fits values) then None
      else if negb (existsb (String.eqb tname) table_names) then None
      else if existsb (fun r => String.eqb (id r) next_id) table then None
      else if existsb (same_name (new_user_id values) tname vname) table then None
      else
        Some (table ++ [ {| id := next_id;
                            user_id := new_user_id values;
                            name := vname;
                            table_name := tname;
                            view_state := state;
                            created_at := now |} ])%list
  | _, _, _ => None
  end.

(** [delete().eq("id", viewId).eq("user_id", uid)] by the session of
    [auth_uid]; a [null] goes out as the text [null], and a text that is
    no [uuid] is an error. *)
Definition delete (auth_uid : string) (viewId : option string) (uid : string)
    (table : list Row) : option (list Row) :=
  let text := default "null" viewId in
  if is_uuid text then
    Some (List.filter
            (fun r =>
               negb (String.eqb (user_id r) auth_uid
                     && String.eqb (id r) text && String.eqb (user_id r) uid))
            table)
  else None.

(** [action], for the session of user [uid]: the outcome and the table
    afterwards. *)
Definition action (uid : string) (formData : FormData) (table : list Row)
  : Outcome Reply * list Row :=
  let intent := get "intent" formData in
  if bool_decide (intent = Some "save_view") then
    let viewName := get "view_name" formData in
    let tableName := get "table_name" formData in
    let viewState := get "view_state" formData in
    match Json.parse (default "null" viewState) with
    | None => (Thrown "SyntaxError", table)
    | Some state =>
        match
          insert uid
            {| new_user_id := uid;
               new_name := viewName;
               new_table_name := tableName;
               new_view_state := not_null state |}
            table
        with
        | None => (Thrown "Failed to save view", table)
        | Some table' => (Returned Success, table')
        end
    end
  else if bool_decide (intent = Some "delete_view") then
    let viewId := get "view_id" formData in
    match delete uid viewId uid table with
    | None => (Thrown "Failed to delete view", table)
    | Some table' => (Returned Success, table')
    end
  else (Returned (Failure "Invalid intent" 400), table).

(** The form that the saved-views menu posts for the current view. *)
Definition save_form (viewName tableName : string) (currentViewState : Json.value)
  : FormData :=
  [ ("intent", "save_view");
    ("view_name", viewName);
    ("table_name", tableName);
    ("view_state", Json.stringify currentViewState) ].

End Server.

(** The server on [saved_views], as far as the loaders use it: the filter
    on [table_name] and the order by [created_at]. *)
Definition server : Postgrest Row :=
  {| holds := fun f r =>
       match f with
       | Eq column value =>
           if String.eqb column "table_name" then String.eqb (table_name r) value
           else true
       | _ => true
       end;
     precedes := fun _ a b => String.leb (created_at a) (created_at b);
     rejects := fun _ => false |}.

End SavedViews.

(** ** The action that creates a client (routes/dashboard.clients.new) *)

Module ClientsNew.
Import Js Supabase.

(** The object [clientData]; [None] is [null]. *)
Record ClientData : Type := {
  user_id : string;
  name : option string;
  email : option string;
  phone : option string;
  mobile : option string;
  fax : option string;
  website : option string;
  address : option string;
  city : option string;
  state : option string;
  postal_code : option string;
  country : option string;
  contact_person : option string;
  tax_id : option string;
  notes : option string;
  status : string;
  is_active : bool
}.

(** A row of [clients]: the columns that the server fills in and those
    that the action gives. *)
Record Row : Type := {
  id : string;
  created_at : string;
  values : ClientData
}.

#[global] Instance row_owned : Owned Row := {| owner := fun r => user_id (values r) |}.

(** [CHECK (status IN (...))]. *)
Definition statuses : list string :=
  ["lead"; "prospect"; "active"; "on_hold"; "inactive"; "archived"].

(** [json({ error, fields }, { status })] or [redirect(url)]. *)
Inductive Reply : Type :=
| Json (error : string) (fields : ClientData) (status : Z) : Reply
| Redirect (url : string) : Reply.

(** [formData.get(name) as string || null]. *)
Definition or_null (value : option string) : option string :=
  match value with
  | Some (String c s) => Some (String c s)
  | Some EmptyString | None => None
  end.

(** The optional text columns of a row. *)
Definition optional_columns (v : ClientData) : list (option string) :=
  [ email v; phone v; mobile v; fax v; website v; address v; city v; state v;
    postal_code v; country v; contact_person v; tax_id v; notes v ].

Section Server.
(** The values that [gen_random_uuid()] and [now()] give to the next
    row. *)
Variables (next_id now : string).

(** [insert(clientData).select().single()] by the session of [auth_uid]:
    the new row and the table with it, or [None] when the NOT NULL on the
    name, the row-level policy, the CHECK on the status or the primary key
    refuses it, or a text holds U+0000. *)
Definition insert (auth_uid : string) (clientData : ClientData)
    (table : list Row) : option (Row * list Row) :=
  match name clientData with
  | None => None
  | Some _ =>
      if negb (String.eqb (user_id clientData) auth_uid) then None
      else if existsb (from_option Js.has_nul false)
                (name clientData :: optional_columns clientData)
           then None
      else if negb (existsb (String.eqb (status clientData)) statuses) then None
      else if existsb (fun r => String.eqb (id r) next_id) table then None
      else
        let row := {| id := next_id; created_at := now; values := clientData |} in
        Some (row, table ++ [row])%list
  end.

(** [action], for the session of user [uid]: the reply and the table
    afterwards. *)
Definition action (uid : string) (formData : SavedViews.FormData)
    (table : list Row) : Reply * list Row :=
  let get name := SavedViews.get name formData in
  let clientData :=
    {| user_id := uid;
       name := get "name";
       email := or_null (get "email");
       phone := or_null (get "phone");
       mobile := or_null (get "mobile");
       fax := or_null (get "fax");
       website := or_null (get "website");
       address := or_null (get "address");
       city := or_null (get "city");
       state := or_null (get "state");
       postal_code := or_null (get "postal_code");
       country := or_null (get "country");
       contact_person := or_null (get "contact_person");
       tax_id := or_null (get "tax_id");
       notes := or_null (get "notes");
       status := or_else (get "status") "active";
       is_active := true |} in
  let blank :=
    match name clientData with
    | Some (String c s) => String.eqb (trim (String c s)) EmptyString
    | Some EmptyString | None => true
    end in
  if blank then (Json "Client name is required" clientData 400, table)
  else
    match insert uid clientData table with
    | None => (Json "Failed to create client" clientData 500, table)
    | Some (data, table') => (Redirect ("/dashboard/clients/" ++ id data), table')
    end.

End Server.

End ClientsNew.

(** * Properties *)

(** ** Pagination *)

Section PaginationProperties.
Import Js Pagination.

Lemma indices_spec (a b i : Z) :
  In i (indices {| from := Num a; to := Num b |}) <-> a <= i <= b.
Proof.
  unfold indices; simpl.
  rewrite in_map_iff. split.
  - intros (k & <- & Hk). apply in_seq in Hk. lia.
  - intros Hi. exists (Z.to_nat (i - a)). split; [lia|].
    apply in_seq. lia.
Qed.

Lemma indices_length (a b : Z) :
  a <= b + 1 ->
  Z.of_nat (length (indices {| from := Num a; to := Num b |})) = b - a + 1.
Proof.
  intros Hab. unfold indices; simpl.
  rewrite length_map, length_seq. lia.
Qed.

(** An integer below [2 ^ 53] in absolute value is a double. *)
Lemma round_small (z : Z) : Z.abs z < 2 ^ 53 -> round z = Num z.
Proof.
  intros Hz. unfold round. cbv zeta.
  destruct (Z.ltb_spec (Z.abs z) (2 ^ 53)) as [_ | Hge]; [reflexivity | lia].
Qed.

Lemma getSupabaseRange_Num (page limit : Z) :
  1 <= page -> 1 <= limit -> page * limit < 2 ^ 53 ->
  getSupabaseRange (Num page) (Num limit)
  = {| from := Num ((page - 1) * limit);
       to := Num ((page - 1) * limit + limit - 1) |}.
Proof.
  intros Hp Hl Hpl.
  assert (Hlt : page < 2 ^ 53) by nia.
  assert (Hfrom : 0 <= (page - 1) * limit) by nia.
  assert (Hto : (page - 1) * limit + limit = page * limit) by ring.
  unfold getSupabaseRange. cbn [Js.sub Js.mul].
  rewrite (round_small (page - 1)) by lia.
  cbn [Js.mul].
  rewrite (round_small ((page - 1) * limit)) by lia.
  cbn [Js.add].
  rewrite (round_small ((page - 1) * limit + limit)) by lia.
  cbn [Js.sub].
  rewrite (round_small ((page - 1) * limit + limit - 1)) by lia.
  reflexivity.
Qed.

End PaginationProperties.

(** C4.  For a page and a limit that are at least 1 and whose product is
    below [2 ^ 53], [getSupabaseRange] returns [from = (page - 1) * limit]
    and [to = from + limit - 1]; the inclusive range holds exactly [limit]
    indices, those from [from] to [to]; the range of the next page starts
    right after [to], and the ranges of two different such pages share no
    index. *)
Theorem getSupabaseRange_pages (page limit : Z) :
  1 <= page -> 1 <= limit -> page * limit < 2 ^ 53 ->
  Pagination.getSupabaseRange (Js.Num page) (Js.Num limit)
  = {| Pagination.from := Js.Num ((page - 1) * limit);
       Pagination.to := Js.Num ((page - 1) * limit + limit - 1) |}
  /\ Z.of_nat (length (Pagination.indices
                         (Pagination.getSupabaseRange (Js.Num page) (Js.Num limit))))
     = limit
  /\ (forall i,
        In i (Pagination.indices
                (Pagination.getSupabaseRange (Js.Num page) (Js.Num limit)))
        <-> (page - 1) * limit <= i <= (page - 1) * limit + limit - 1)
  /\ Pagination.from (Pagination.getSupabaseRange (Js.Num (page + 1)) (Js.Num limit))
     = Js.add (Pagination.to (Pagination.getSupabaseRange (Js.Num page) (Js.Num limit)))
         (Js.Num 1)
  /\ (forall page' i,
        1 <= page' -> page' * limit < 2 ^ 53 -> page' <> page ->
        In i (Pagination.indices
                (Pagination.getSupabaseRange (Js.Num page) (Js.Num limit))) ->
        ~ In i (Pagination.indices
                  (Pagination.getSupabaseRange (Js.Num page') (Js.Num limit)))).
Proof.
  intros Hp Hl Hpl.
  rewrite (getSupabaseRange_Num page limit) by assumption.
  split; [reflexivity|].
  split; [rewrite indices_length; lia|].
  split; [intros i; apply indices_spec|].
  split.
  - unfold Pagination.getSupabaseRange.
    cbn [Pagination.from Pagination.to Js.sub Js.add Js.mul].
    replace (page + 1 - 1) with page by ring.
    rewrite (round_small page) by nia.
    cbn [Js.mul].
    replace ((page - 1) * limit + limit - 1 + 1) with (page * limit) by ring.
    reflexivity.
  - intros page' i Hp' Hpl' Hne.
    rewrite indices_spec. intros Hi Hi'.
    rewrite (getSupabaseRange_Num page' limit) in Hi' by assumption.
    apply indices_spec in Hi'.
    destruct (Z.lt_total page' page) as [Hlt | [Heq | Hgt]]; [| congruence |].
    + assert ((page' - 1) * limit + limit <= (page - 1) * limit).
      { replace ((page' - 1) * limit + limit) with (page' * limit) by ring.
        apply Z.mul_le_mono_nonneg_r; lia. }
      lia.
    + assert ((page - 1) * limit + limit <= (page' - 1) * limit).
      { replace ((page - 1) * limit + limit) with (page * limit) by ring.
        apply Z.mul_le_mono_nonneg_r; lia. }
      lia.
Qed.

(** Page 3 of 20 rows is the range from 40 to 59. *)
Lemma getSupabaseRange_pages_witness :
  Pagination.getSupabaseRange (Js.Num 3) (Js.Num 20)
  = {| Pagination.from := Js.Num 40; Pagination.to := Js.Num 59 |}
  /\ Z.of_nat (length (Pagination.indices
                         (Pagination.getSupabaseRange (Js.Num 3) (Js.Num 20))))
     = 20.
Proof.
  destruct (getSupabaseRange_pages 3 20) as (H1 & H2 & _); [lia | lia | lia |].
  split; [exact H1 | exact H2].
Defined.

(** C4, where the product passes [2 ^ 53].  Page [2 ^ 52 + 1] with the
    limit 3: both are doubles and at least 1; [from] is [3 * 2 ^ 52],
    but [from + 3] and then [to] round up to [from + 4], so the range
    holds five indices, not three, and the next page starts at [to]
    itself. *)
Theorem getSupabaseRange_rounds :
  Js.is_double 4503599627370497 = true
  /\ Pagination.getSupabaseRange (Js.Num 4503599627370497) (Js.Num 3)
     = {| Pagination.from := Js.Num 13510798882111488;
          Pagination.to := Js.Num 13510798882111492 |}
  /\ (4503599627370497 - 1) * 3 + 3 - 1 = 13510798882111490
  /\ length (Pagination.indices
               (Pagination.getSupabaseRange (Js.Num 4503599627370497) (Js.Num 3)))
     = 5%nat
  /\ Js.is_double 4503599627370498 = true
  /\ Pagination.from
       (Pagination.getSupabaseRange (Js.Num 4503599627370498) (Js.Num 3))
     = Js.Num 13510798882111492
  /\ In 13510798882111492
       (Pagination.indices
          (Pagination.getSupabaseRange (Js.Num 4503599627370497) (Js.Num 3)))
  /\ In 13510798882111492
       (Pagination.indices
          (Pagination.getSupabaseRange (Js.Num 4503599627370498) (Js.Num 3))).
Proof.
  split; [vm_compute; reflexivity|].
  split; [vm_compute; reflexivity|].
  split; [reflexivity|].
  split; [vm_compute; reflexivity|].
  split; [vm_compute; reflexivity|].
  split; [vm_compute; reflexivity|].
  split; vm_compute; tauto.
Qed.

(** [Math.max(1, x)] is [NaN] or at least 1. *)
Lemma max_1_NaN_or_ge (x : Js.JsNumber) :
  Js.max (Js.Num 1) x = Js.NaN \/ Js.ge (Js.max (Js.Num 1) x) (Js.Num 1).
Proof.
  destruct x as [|[]|z]; [left; reflexivity|right..].
  - reflexivity.
  - reflexivity.
  - unfold Js.ge; simpl. apply Z.leb_le. lia.
Qed.

(** Whatever the query string, the page and the limit that
    [parsePaginationParams] returns are each [NaN] or at least 1; they are
    at least 1 as soon as [parseInt] reads a number. *)
Lemma parsePaginationParams_NaN_or_ge (searchParams : URLSearchParams.t) :
  let pp := Pagination.parsePaginationParams searchParams in
  (Pagination.page pp = Js.NaN \/ Js.ge (Pagination.page pp) (Js.Num 1))
  /\ (Pagination.limit pp = Js.NaN \/ Js.ge (Pagination.limit pp) (Js.Num 1)).
Proof.
  split; apply max_1_NaN_or_ge.
Qed.

(** A parameter that is absent or empty takes its default, which is at
    least 1. *)
Lemma parsePaginationParams_defaults :
  Pagination.parsePaginationParams [] = {| Pagination.page := Js.Num 1; Pagination.limit := Js.Num 20 |}
  /\ Pagination.parsePaginationParams [("page", ""); ("limit", "")]
     = {| Pagination.page := Js.Num 1; Pagination.limit := Js.Num 20 |}
  /\ Pagination.parsePaginationParams [("page", "-3"); ("limit", "0")]
     = {| Pagination.page := Js.Num 1; Pagination.limit := Js.Num 1 |}.
Proof. repeat split. Qed.

(** C9, at a failing input.  With [page=abc], [parseInt] returns [NaN],
    [Math.max(1, NaN)] is [NaN], and the page returned is [NaN], which is
    not at least 1; the same holds of the limit with [limit=ten]. *)
Theorem parsePaginationParams_non_numeric :
  Pagination.page (Pagination.parsePaginationParams [("page", "abc")]) = Js.NaN
  /\ ~ Js.ge (Pagination.page (Pagination.parsePaginationParams [("page", "abc")]))
         (Js.Num 1)
  /\ Pagination.limit (Pagination.parsePaginationParams [("limit", "ten")]) = Js.NaN
  /\ ~ Js.ge (Pagination.limit (Pagination.parsePaginationParams [("limit", "ten")]))
         (Js.Num 1).
Proof.
  repeat split; try reflexivity; unfold Js.ge; simpl; discriminate.
Qed.

(** ** Sorting *)

(** [a || b] on a string read from the query. *)
Lemma or_else_spec (a : option string) (b : string) :
  Js.or_else a b
  = match a with
    | None => b
    | Some s => if String.eqb s "" then b else s
    end.
Proof. destruct a as [[|c s]|]; reflexivity. Qed.

(** C8.  [parseSortParams] returns as [sortBy] the [sort] parameter when
    it is present and not empty and the default column otherwise, and as
    [sortOrder] the [order] parameter when it is exactly [asc] or [desc]
    and the default order otherwise. *)
Theorem parseSortParams_spec (searchParams : URLSearchParams.t)
    (defaultSortBy : string) (defaultSortOrder : Sorting.SortOrder) :
  Sorting.parseSortParams searchParams (Some defaultSortBy) (Some defaultSortOrder)
  = {| Sorting.sortBy :=
         Some match URLSearchParams.get "sort" searchParams with
              | None => defaultSortBy
              | Some s => if String.eqb s "" then defaultSortBy else s
              end;
       Sorting.sortOrder :=
         match URLSearchParams.get "order" searchParams with
         | None => defaultSortOrder
         | Some o =>
             if String.eqb o "asc" then Sorting.asc
             else if String.eqb o "desc" then Sorting.desc
             else defaultSortOrder
         end |}.
Proof.
  unfold Sorting.parseSortParams.
  rewrite !or_else_spec.
  cbn [default].
  destruct (URLSearchParams.get "order" searchParams) as [o|].
  - destruct (String.eqb_spec o "") as [-> | Hne].
    + destruct defaultSortOrder; reflexivity.
    + destruct (String.eqb o "asc") eqn:Ea; [reflexivity|].
      destruct (String.eqb o "desc") eqn:Ed; reflexivity.
  - destruct defaultSortOrder; reflexivity.
Qed.

(** The arguments left out take [created_at] and [desc]. *)
Lemma parseSortParams_defaults (searchParams : URLSearchParams.t) :
  Sorting.parseSortParams searchParams None None
  = Sorting.parseSortParams searchParams (Some "created_at") (Some Sorting.desc).
Proof. reflexivity. Qed.

(** ** Query strings *)

Section URLSearchParamsProperties.
Import URLSearchParams.

Lemma get_set (name value : string) (ps : t) :
  get name (set name value ps) = Some value.
Proof.
  induction ps as [|[k v] ps IH]; simpl.
  - rewrite String.eqb_refl. reflexivity.
  - destruct (String.eqb k name) eqn:E; simpl; rewrite E; [reflexivity | exact IH].
Qed.

Lemma count_delete (name : string) (ps : t) :
  count name (delete name ps) = 0%nat.
Proof.
  unfold count, delete.
  induction ps as [|[k v] ps IH]; simpl; [reflexivity|].
  destruct (String.eqb k name) eqn:E; simpl; [exact IH|].
  rewrite E. exact IH.
Qed.

Lemma count_set (name value : string) (ps : t) :
  count name (set name value ps) = 1%nat.
Proof.
  induction ps as [|[k v] ps IH].
  - unfold count; simpl. rewrite String.eqb_refl. reflexivity.
  - simpl. destruct (String.eqb k name) eqn:E.
    + unfold count; simpl. rewrite E. simpl. f_equal. apply count_delete.
    + unfold count in *; simpl. rewrite E. exact IH.
Qed.

(** *** The parser undoes the serializer *)

Lemma encode_cons (c : ascii) (s : string) :
  encode (String c s) = encode (String c "") ++ encode s.
Proof.
  cbn [encode].
  destruct (is_unreserved c); [reflexivity|].
  destruct (Js.code c =? 32)%N; reflexivity.
Qed.

(** One byte, whatever follows its encoding. *)
Lemma decode_encode_byte (c : ascii) (rest : string) :
  percent_decode (plus_to_space (encode (String c "") ++ rest))
  = String c (percent_decode (plus_to_space rest)).
Proof.
  destruct c as [[] [] [] [] [] [] [] []]; reflexivity.
Qed.

Lemma decode_encode (s : string) : decode (encode s) = s.
Proof.
  unfold decode.
  induction s as [|c s IH]; [reflexivity|].
  rewrite encode_cons, decode_encode_byte, IH. reflexivity.
Qed.

Lemma encode_byte_free (c : ascii) :
  free_of "&" (encode (String c "")) = true
  /\ free_of "=" (encode (String c "")) = true.
Proof.
  destruct c as [[] [] [] [] [] [] [] []]; split; reflexivity.
Qed.

Lemma free_of_app (c : ascii) (a b : string) :
  free_of c (a ++ b) = free_of c a && free_of c b.
Proof.
  induction a as [|x a IH]; simpl; [reflexivity|].
  rewrite IH. apply andb_assoc.
Qed.

Lemma encode_free_amp (s : string) : free_of "&" (encode s) = true.
Proof.
  induction s as [|c s IH]; [reflexivity|].
  rewrite encode_cons, free_of_app, IH.
  rewrite (proj1 (encode_byte_free c)). reflexivity.
Qed.

Lemma encode_free_eq (s : string) : free_of "=" (encode s) = true.
Proof.
  induction s as [|c s IH]; [reflexivity|].
  rewrite encode_cons, free_of_app, IH.
  rewrite (proj2 (encode_byte_free c)). reflexivity.
Qed.

Lemma split_free (sep : ascii) (a : string) :
  free_of sep a = true -> Js.split sep a = [a].
Proof.
  induction a as [|x a IH]; simpl; [reflexivity|].
  intros [Hx Ha]%andb_prop.
  apply negb_true_iff in Hx. rewrite Hx, (IH Ha). reflexivity.
Qed.

Lemma split_app (sep : ascii) (a b : string) :
  free_of sep a = true ->
  Js.split sep (a ++ String sep b) = a :: Js.split sep b.
Proof.
  induction a as [|x a IH]; simpl.
  - intros _. rewrite Ascii.eqb_refl. reflexivity.
  - intros [Hx Ha]%andb_prop.
    apply negb_true_iff in Hx. rewrite Hx, (IH Ha). reflexivity.
Qed.

Lemma split_pair_app (a b : string) :
  free_of "=" a = true -> split_pair (a ++ String "=" b) = (a, b).
Proof.
  induction a as [|x a IH]; simpl; [reflexivity|].
  intros [Hx Ha]%andb_prop.
  rewrite (IH Ha).
  destruct (Js.code x =? 61)%N eqn:E; [|reflexivity].
  apply N.eqb_eq in E.
  assert (x = "="%char) as ->.
  { rewrite <- (ascii_N_embedding x). unfold Js.code in E. rewrite E. reflexivity. }
  discriminate Hx.
Qed.

Lemma parse_encode_pair (kv : string * string) :
  match encode_pair kv with
  | EmptyString => []
  | String _ _ =>
      let '(name, value) := split_pair (encode_pair kv) in
      [(decode name, decode value)]
  end = [kv].
Proof.
  destruct kv as [k v]. unfold encode_pair; simpl fst; simpl snd.
  assert (split_pair (encode k ++ "=" ++ encode v) = (encode k, encode v)) as Hs
    by (apply split_pair_app, encode_free_eq).
  destruct (encode k ++ "=" ++ encode v) eqn:E.
  - destruct (encode k); discriminate E.
  - rewrite Hs, !decode_encode. reflexivity.
Qed.

Lemma encode_pair_free_amp (kv : string * string) :
  free_of "&" (encode_pair kv) = true.
Proof.
  unfold encode_pair. rewrite !free_of_app, !encode_free_amp. reflexivity.
Qed.

Lemma parse_pairs_toString (ps : t) : parse_pairs (toString ps) = ps.
Proof.
  unfold parse_pairs, toString.
  induction ps as [|kv ps IH]; [reflexivity|].
  destruct ps as [|kv' ps].
  - simpl map. cbn [String.concat].
    rewrite split_free by apply encode_pair_free_amp.
    cbn [flat_map]. rewrite parse_encode_pair. reflexivity.
  - change (String.concat "&" (map encode_pair (kv :: kv' :: ps)))
      with (encode_pair kv ++ String "&" (String.concat "&" (map encode_pair (kv' :: ps)))).
    rewrite split_app by apply encode_pair_free_amp.
    cbn [flat_map]. rewrite parse_encode_pair, IH. reflexivity.
Qed.

(** A query string that a helper returns reads back as the parameters
    it was made from. *)
Lemma parse_query (ps : t) : parse ("?" ++ toString ps) = ps.
Proof. apply parse_pairs_toString. Qed.

End URLSearchParamsProperties.

(** What a helper returns when it ends with [params.set("page", "1")]. *)
Lemma page_1_after_set (ps : URLSearchParams.t) :
  URLSearchParams.get "page"
    (URLSearchParams.parse
       ("?" ++ URLSearchParams.toString (URLSearchParams.set "page" "1" ps)))
  = Some "1"
  /\ URLSearchParams.count "page"
       (URLSearchParams.parse
          ("?" ++ URLSearchParams.toString (URLSearchParams.set "page" "1" ps)))
     = 1%nat.
Proof.
  rewrite parse_query. split; [apply get_set | apply count_set].
Qed.

(** C10.  The query string that each of [buildFilterUrl], [buildSortUrl],
    [buildUrlFromViewState] and [clearAllFilters] returns, read back as
    search parameters, has exactly one [page] parameter, and its value is
    [1]. *)
Theorem url_helpers_reset_page :
  (forall currentParams filterKey filterValue,
      URLSearchParams.get "page"
        (URLSearchParams.parse
           (Filtering.buildFilterUrl currentParams filterKey filterValue))
      = Some "1"
      /\ URLSearchParams.count "page"
           (URLSearchParams.parse
              (Filtering.buildFilterUrl currentParams filterKey filterValue))
         = 1%nat)
  /\ (forall currentParams sortBy currentSortBy currentSortOrder,
         URLSearchParams.get "page"
           (URLSearchParams.parse
              (Sorting.buildSortUrl currentParams sortBy currentSortBy currentSortOrder))
         = Some "1"
         /\ URLSearchParams.count "page"
              (URLSearchParams.parse
                 (Sorting.buildSortUrl currentParams sortBy currentSortBy
                    currentSortOrder))
            = 1%nat)
  /\ (forall state baseParams,
         URLSearchParams.get "page"
           (URLSearchParams.parse (Views.buildUrlFromViewState state baseParams))
         = Some "1"
         /\ URLSearchParams.count "page"
              (URLSearchParams.parse (Views.buildUrlFromViewState state baseParams))
            = 1%nat)
  /\ (forall currentParams preserveKeys,
         URLSearchParams.get "page"
           (URLSearchParams.parse (Filtering.clearAllFilters currentParams preserveKeys))
         = Some "1"
         /\ URLSearchParams.count "page"
              (URLSearchParams.parse
                 (Filtering.clearAllFilters currentParams preserveKeys))
            = 1%nat).
Proof.
  repeat split; intros; apply page_1_after_set.
Qed.

(** ** The status badge *)






(** ** The tax report *)

Section TaxReportProperties.
Import Schema TaxReport.

(** [reduce] with [+] over a list adds up the list of what is added. *)
Lemma reduce_sum {A : Type} (f : A -> Double.t) (l : list A) :
  forall start,
    fold_left (fun sum x => Double.add sum (f x)) l start
    = fold_left Double.add (map f l) start.
Proof.
  induction l as [|x l IH]; intros start; [reflexivity|].
  cbn [fold_left map]. apply IH.
Qed.

Lemma is_paid_spec (l : list Invoice.t) :
  List.filter is_paid l
  = List.filter (fun inv => bool_decide (Invoice.status inv = Some "paid")) l.
Proof.
  apply filter_ext. intros inv. unfold is_paid.
  destruct (Invoice.status inv) as [st|]; [|reflexivity].
  destruct (String.eqb_spec st "paid") as [-> | Hne]; [reflexivity|].
  symmetry. apply bool_decide_eq_false. congruence.
Qed.

Lemma is_deductible_spec (l : list Expense.t) :
  List.filter is_deductible l
  = List.filter
      (fun exp => bool_decide (Expense.is_tax_deductible exp = Some true)) l.
Proof.
  apply filter_ext. intros exp. unfold is_deductible.
  destruct (Expense.is_tax_deductible exp) as [[]|]; reflexivity.
Qed.

End TaxReportProperties.

(** C1, in the arithmetic of the code.  From the fetched rows the tax
    report computes, in doubles: the total income, the sum from 0, in the
    order of the rows, of [total] over the invoices whose status is
    [paid]; the total expenses, the like sum of [deductible_amount] over
    the expenses whose [is_tax_deductible] is true, and the total mileage
    deduction, the like sum of the mileage [total]s, a NULL amount
    counting as 0; the total deductions, their sum; the net profit,
    income less deductions; the self-employment tax, a positive net
    profit times 0.153 and 0 otherwise; the estimated income tax, the net
    profit less half the self-employment tax, times 0.22, when the net
    profit is positive and 0 otherwise; and the total estimated tax, the
    sum of the two taxes.  Each operation rounds to the nearest double. *)
Theorem tax_report_stats (invoices : list Schema.Invoice.t)
    (expenses : list Schema.Expense.t) (mileage : list Schema.Mileage.t) :
  let s := TaxReport.compute_stats invoices expenses mileage in
  TaxReport.totalIncome s
  = Double.sum
      (map (fun inv => TaxReport.of_hundredths (Schema.Invoice.total inv))
         (List.filter
            (fun inv => bool_decide (Schema.Invoice.status inv = Some "paid"))
            invoices))
  /\ TaxReport.totalExpenses s
     = Double.sum
         (map (fun exp => TaxReport.column (Schema.Expense.deductible_amount exp))
            (List.filter
               (fun exp => bool_decide (Schema.Expense.is_tax_deductible exp = Some true))
               expenses))
  /\ TaxReport.totalMileageDeduction s
     = Double.sum
         (map (fun m => TaxReport.column (Schema.Mileage.total m)) mileage)
  /\ TaxReport.totalDeductions s
     = Double.add (TaxReport.totalExpenses s) (TaxReport.totalMileageDeduction s)
  /\ TaxReport.netProfit s
     = Double.sub (TaxReport.totalIncome s) (TaxReport.totalDeductions s)
  /\ TaxReport.selfEmploymentTax s
     = (if Double.ltb Double.zero (TaxReport.netProfit s)
        then Double.mul (TaxReport.netProfit s) (Double.decimal 153 1000)
        else Double.zero)
  /\ TaxReport.estimatedIncomeTax s
     = (if Double.ltb Double.zero (TaxReport.netProfit s)
        then Double.mul
               (Double.sub (TaxReport.netProfit s)
                  (Double.div (TaxReport.selfEmploymentTax s) (Double.of_Z 2)))
               (Double.decimal 22 100)
        else Double.zero)
  /\ TaxReport.totalEstimatedTax s
     = Double.add (TaxReport.selfEmploymentTax s) (TaxReport.estimatedIncomeTax s).
Proof.
  intros s.
  split; [|split; [|split; [|split; [|split; [|split; [|split]]]]]];
    try reflexivity.
  - subst s; cbn [TaxReport.totalIncome TaxReport.compute_stats].
    rewrite is_paid_spec. apply reduce_sum.
  - subst s; cbn [TaxReport.totalExpenses TaxReport.compute_stats].
    rewrite is_deductible_spec.
    apply (reduce_sum (fun exp => TaxReport.column (Schema.Expense.deductible_amount exp))).
  - subst s; cbn [TaxReport.totalMileageDeduction TaxReport.compute_stats].
    apply (reduce_sum (fun m => TaxReport.column (Schema.Mileage.total m))).
Qed.

(** One paid invoice of 1200.00 and nothing to deduct: the income and the
    net profit are 1200, and the self-employment tax is 1200 times
    0.153. *)
Lemma tax_report_stats_witness :
  let s :=
    TaxReport.compute_stats
      [ {| Schema.Invoice.user_id := "u1"; Schema.Invoice.date := "2025-02-01";
           Schema.Invoice.status := Some "paid"; Schema.Invoice.total := 120000 |};
        {| Schema.Invoice.user_id := "u1"; Schema.Invoice.date := "2025-02-02";
           Schema.Invoice.status := Some "sent"; Schema.Invoice.total := 5000 |} ]
      [] [] in
  TaxReport.totalIncome s = Double.of_Z 1200
  /\ TaxReport.netProfit s = Double.of_Z 1200
  /\ TaxReport.selfEmploymentTax s
     = Double.mul (Double.of_Z 1200) (Double.decimal 153 1000).
Proof.
  cbv zeta.
  destruct (tax_report_stats
              [ {| Schema.Invoice.user_id := "u1"; Schema.Invoice.date := "2025-02-01";
                   Schema.Invoice.status := Some "paid";
                   Schema.Invoice.total := 120000 |};
                {| Schema.Invoice.user_id := "u1"; Schema.Invoice.date := "2025-02-02";
                   Schema.Invoice.status := Some "sent";
                   Schema.Invoice.total := 5000 |} ]
              [] [])
    as (Hincome & _ & _ & _ & Hnet & Htax & _).
  split; [rewrite Hincome; vm_compute; reflexivity|].
  split; [rewrite Hnet; vm_compute; reflexivity|].
  rewrite Htax. vm_compute. reflexivity.
Defined.

(** C1, as stated, at two paid invoices of 0.10 and 0.20 and one expense
    of 0.30, all of it deductible.  The amounts add up to 0.30 each way
    and leave no profit; the report's total income is not 0.30 but the
    next double, its net profit is [2 ^ -54], which is positive, and it
    estimates a tax. *)
Theorem tax_report_sums_round :
  let paid v :=
    {| Schema.Invoice.user_id := "u1"; Schema.Invoice.date := "2025-03-01";
       Schema.Invoice.status := Some "paid"; Schema.Invoice.total := v |} in
  let expense :=
    {| Schema.Expense.user_id := "u1"; Schema.Expense.date := "2025-03-01";
       Schema.Expense.total := 30; Schema.Expense.is_tax_deductible := Some true;
       Schema.Expense.business_use_percentage := Some 10000;
       Schema.Expense.tax_category := Some "supplies" |} in
  let s := TaxReport.compute_stats [paid 10; paid 20] [expense] [] in
  Schema.Expense.deductible_amount expense = Some 30
  /\ (Schema.to_Q 10%Z + Schema.to_Q 20%Z - Schema.to_Q 30%Z == 0)%Q
  /\ Double.to_Q (TaxReport.totalIncome s)
     = Some (5404319552844596 # 18014398509481984)%Q
  /\ ~ (5404319552844596 # 18014398509481984 == Schema.to_Q 30%Z)%Q
  /\ TaxReport.totalIncome s <> TaxReport.of_hundredths 30
  /\ (exists q,
        Double.to_Q (TaxReport.netProfit s) = Some q
        /\ (q == 1 # 18014398509481984)%Q)
  /\ Double.ltb Double.zero (TaxReport.netProfit s) = true
  /\ Double.ltb Double.zero (TaxReport.selfEmploymentTax s) = true
  /\ Double.ltb Double.zero (TaxReport.totalEstimatedTax s) = true.
Proof.
  cbv zeta.
  split; [reflexivity|].
  split; [reflexivity|].
  split; [vm_compute; reflexivity|].
  split; [intros H; vm_compute in H; discriminate H|].
  split; [intros H; vm_compute in H; discriminate H|].
  split; [eexists; split; [vm_compute; reflexivity | reflexivity]|].
  split; [vm_compute; reflexivity|].
  split; vm_compute; reflexivity.
Qed.

(** ** Generated columns *)

Section RoundingProperties.
Import Schema.

(** The rounded quotient is within half a unit of the exact one. *)
Lemma round_half_away_bound (num den : Z) :
  0 < den -> 2 * Z.abs (den * round_half_away num den - num) <= den.
Proof.
  intros Hden. unfold round_half_away.
  destruct (Z.leb_spec 0 num) as [Hnum | Hnum].
  - pose proof (Z.div_mod (2 * num + den) (2 * den) ltac:(lia)) as Hdm.
    pose proof (Z.mod_pos_bound (2 * num + den) (2 * den) ltac:(lia)) as Hm.
    set (q := (2 * num + den) / (2 * den)) in *.
    set (m := (2 * num + den) mod (2 * den)) in *.
    nia.
  - pose proof (Z.div_mod (2 * - num + den) (2 * den) ltac:(lia)) as Hdm.
    pose proof (Z.mod_pos_bound (2 * - num + den) (2 * den) ltac:(lia)) as Hm.
    set (q := (2 * - num + den) / (2 * den)) in *.
    set (m := (2 * - num + den) mod (2 * den)) in *.
    nia.
Qed.

(** The two generated columns, as roundings. *)
Lemma store_product_percentage (total pct : hundredths) :
  store_scale_2 (numeric_mul (of_column total) (numeric_div_100 (of_column pct)))
  = round_half_away (total * pct) 10000.
Proof. reflexivity. Qed.

Lemma store_product (miles rate : hundredths) :
  store_scale_2 (numeric_mul (of_column miles) (of_column rate))
  = round_half_away (miles * rate) 100.
Proof. reflexivity. Qed.

(** A quotient that is whole is kept. *)
Lemma round_half_away_exact (k den : Z) :
  0 < den -> round_half_away (den * k) den = k.
Proof.
  intros Hden.
  pose proof (round_half_away_bound (den * k) den Hden) as Hb.
  set (r := round_half_away (den * k) den) in *.
  nia.
Qed.

End RoundingProperties.

(** The stored deductible amount of an expense whose percentage is NULL is
    NULL. *)
Lemma deductible_amount_null (r : Schema.Expense.t) :
  Schema.Expense.business_use_percentage r = None ->
  Schema.Expense.deductible_amount r = None.
Proof.
  unfold Schema.Expense.deductible_amount. intros ->. reflexivity.
Qed.

(** With the default percentage, 100, the deductible amount is the total. *)
Lemma deductible_amount_full (r : Schema.Expense.t) :
  Schema.Expense.business_use_percentage r = Some 10000 ->
  Schema.Expense.deductible_amount r = Some (Schema.Expense.total r).
Proof.
  unfold Schema.Expense.deductible_amount. intros ->. f_equal.
  rewrite store_product_percentage, (Z.mul_comm (Schema.Expense.total r)).
  apply round_half_away_exact. lia.
Qed.

(** C2, as the schema has it.  The stored deductible amount of an expense
    is its total times its business-use percentage over 100, rounded to
    two decimals with ties away from zero: it is within half a cent of
    the exact product, and is the exact product when that is a whole
    number of cents. *)
Theorem deductible_amount_rounded (r : Schema.Expense.t) (pct : Schema.hundredths) :
  Schema.Expense.business_use_percentage r = Some pct ->
  exists d : Schema.hundredths,
    Schema.Expense.deductible_amount r = Some d
    /\ d = Schema.round_half_away (Schema.Expense.total r * pct) 10000
    /\ (Qabs (Schema.to_Q d
               - Schema.to_Q (Schema.Expense.total r) * (Schema.to_Q pct / 100))
         <= 1 # 200)%Q
    /\ ((10000 | Schema.Expense.total r * pct) ->
        (Schema.to_Q d
         == Schema.to_Q (Schema.Expense.total r) * (Schema.to_Q pct / 100))%Q).
Proof.
  intros Hpct.
  exists (Schema.round_half_away (Schema.Expense.total r * pct) 10000).
  unfold Schema.Expense.deductible_amount. rewrite Hpct.
  split; [rewrite store_product_percentage; reflexivity|]. split; [reflexivity|].
  pose proof (round_half_away_bound (Schema.Expense.total r * pct) 10000 ltac:(lia)) as Hb.
  set (d := Schema.round_half_away (Schema.Expense.total r * pct) 10000) in *.
  split.
  - apply Qabs_Qle_condition.
    cbv [Schema.to_Q Qle Qminus Qplus Qopp Qmult Qdiv Qinv inject_Z Qnum Qden].
    split; lia.
  - intros [k Hk].
    assert (d = k) as ->.
    { subst d. rewrite Hk, Z.mul_comm. apply round_half_away_exact. lia. }
    cbv [Schema.to_Q Qeq Qminus Qplus Qopp Qmult Qdiv Qinv inject_Z Qnum Qden].
    lia.
Qed.

(** An expense of 33.33 used 50.00 percent for business: 16.67. *)
Lemma deductible_amount_rounded_witness :
  exists d : Schema.hundredths,
    Schema.Expense.deductible_amount
      {| Schema.Expense.user_id := "u1"; Schema.Expense.date := "2025-03-01";
         Schema.Expense.total := 3333; Schema.Expense.is_tax_deductible := Some true;
         Schema.Expense.business_use_percentage := Some 5000;
         Schema.Expense.tax_category := Some "supplies" |} = Some d
    /\ d = 1667.
Proof.
  destruct (deductible_amount_rounded
              {| Schema.Expense.user_id := "u1"; Schema.Expense.date := "2025-03-01";
                 Schema.Expense.total := 3333; Schema.Expense.is_tax_deductible := Some true;
                 Schema.Expense.business_use_percentage := Some 5000;
                 Schema.Expense.tax_category := Some "supplies" |} 5000 eq_refl)
    as (d & Hd & Hr & _).
  exists d. split; [exact Hd|]. rewrite Hr. reflexivity.
Defined.

(** C2, as stated, at an expense of 33.33 used 50.00 percent for business:
    the exact product is 16.665, and the column, of scale 2, holds
    16.67. *)
Lemma deductible_amount_not_product :
  Schema.Expense.deductible_amount
    {| Schema.Expense.user_id := "u1"; Schema.Expense.date := "2025-03-01";
       Schema.Expense.total := 3333; Schema.Expense.is_tax_deductible := Some true;
       Schema.Expense.business_use_percentage := Some 5000;
       Schema.Expense.tax_category := Some "supplies" |} = Some 1667
  /\ ~ (Schema.to_Q 1667%Z == Schema.to_Q 3333%Z * (Schema.to_Q 5000%Z / 100))%Q.
Proof.
  split; [reflexivity|].
  intros H. vm_compute in H. discriminate H.
Qed.

(** The rows that the report's query selects from a table. *)
Lemma report_query_selected {Row : Type} `{Supabase.Owned Row} `{Supabase.Postgrest Row}
    (uid startDate endDate : string) (table : list Row) :
  Supabase.selected (TaxReport.report_query uid startDate endDate) table
  = List.filter
      (fun r =>
         String.eqb (Supabase.owner r) uid
         && Supabase.holds (Supabase.Gte "date" startDate) r
         && Supabase.holds (Supabase.Lte "date" endDate) r)
      table.
Proof.
  unfold Supabase.selected. apply filter_ext. intros r.
  cbn. rewrite andb_true_r, andb_assoc. reflexivity.
Qed.

(** What the report fetches from a table: nothing when the request is
    refused, and otherwise the rows of the user in the date range. *)
Lemma report_fetch {Row : Type} `{Supabase.Owned Row} `{Supabase.Postgrest Row}
    (uid startDate endDate : string) (table : list Row) :
  TaxReport.fetch (TaxReport.report_query uid startDate endDate) table
  = if Supabase.rejects (TaxReport.report_query uid startDate endDate) then []
    else List.filter
           (fun r =>
              String.eqb (Supabase.owner r) uid
              && Supabase.holds (Supabase.Gte "date" startDate) r
              && Supabase.holds (Supabase.Lte "date" endDate) r)
           table.
Proof.
  unfold TaxReport.fetch, Supabase.run.
  destruct (Supabase.rejects (TaxReport.report_query uid startDate endDate));
    [reflexivity|].
  cbn [Supabase.window TaxReport.report_query Supabase.lte Supabase.gte Supabase.eq
         Supabase.add_filter Supabase.select Supabase.data default].
  unfold Supabase.ordered.
  cbn [Supabase.ordering TaxReport.report_query Supabase.lte Supabase.gte Supabase.eq
         Supabase.add_filter Supabase.select fold_right].
  apply report_query_selected.
Qed.

(** The stored deduction of a mileage record whose rate is NULL is NULL. *)
Lemma mileage_total_null (r : Schema.Mileage.t) :
  Schema.Mileage.rate_per_mile r = None -> Schema.Mileage.total r = None.
Proof.
  unfold Schema.Mileage.total. intros ->. reflexivity.
Qed.




(** ** Tenant isolation *)

Section IsolationProperties.
Import Supabase.
Context {Row : Type} {owned : Owned Row} {server : Postgrest Row}.

Lemma filter_implied (p o : Row -> bool) (l : list Row) :
  (forall r, p r = true -> o r = true) ->
  List.filter p (List.filter o l) = List.filter p l.
Proof.
  intros Himp. induction l as [|r l IH]; simpl; [reflexivity|].
  destruct (o r) eqn:Eo; simpl.
  - rewrite IH. reflexivity.
  - destruct (p r) eqn:Ep; [|exact IH].
    rewrite (Himp r Ep) in Eo. discriminate Eo.
Qed.

Lemma In_take (n : nat) (l : list Row) (x : Row) : In x (take n l) -> In x l.
Proof.
  intros Hx. rewrite <- (firstn_skipn n l). apply in_or_app. left. exact Hx.
Qed.

Lemma In_drop (n : nat) (l : list Row) (x : Row) : In x (drop n l) -> In x l.
Proof.
  intros Hx. rewrite <- (firstn_skipn n l). apply in_or_app. right. exact Hx.
Qed.

(** A row that a restricted query selects belongs to the user. *)
Lemma restricted_owner (uid : string) (q : Query) (r : Row) :
  restricted_to uid q ->
  forallb (fun f => sat f r) (filters q) = true ->
  String.eqb (owner r) uid = true.
Proof.
  intros Hin Hall.
  rewrite forallb_forall in Hall.
  specialize (Hall _ Hin). exact Hall.
Qed.

(** A restricted query selects from the rows of the user. *)
Lemma selected_rows_of (uid : string) (q : Query) (table : list Row) :
  restricted_to uid q ->
  selected q table = selected q (rows_of uid table).
Proof.
  intros Hin. unfold selected, rows_of.
  symmetry. apply filter_implied.
  intros r. apply restricted_owner. exact Hin.
Qed.

Lemma run_rows_of (uid : string) (q : Query) (table : list Row) :
  restricted_to uid q -> run q table = run q (rows_of uid table).
Proof.
  intros Hin. unfold run.
  rewrite (selected_rows_of uid q table Hin). reflexivity.
Qed.

(** Two-run form: a restricted query answers alike on two tables that
    agree on the rows of the user. *)
Lemma run_agree (uid : string) (q : Query) (table1 table2 : list Row) :
  restricted_to uid q -> agree uid table1 table2 ->
  run q table1 = run q table2.
Proof.
  intros Hin Hagree.
  rewrite (run_rows_of uid q table1 Hin), (run_rows_of uid q table2 Hin).
  unfold agree in Hagree. rewrite Hagree. reflexivity.
Qed.

(** Every row of the answer of a restricted query belongs to the user. *)
Lemma run_owner (uid : string) (q : Query) (table : list Row) (r : Row) :
  restricted_to uid q ->
  In r (default [] (data (run q table))) -> owner r = uid.
Proof.
  intros Hin Hr.
  assert (forall l : list Row,
             (forall x, In x (ordered q l) -> In x l)) as Hordered.
  { intros l. unfold ordered.
    induction (ordering q) as [|o os IHo]; simpl; [tauto|].
    intros x Hx. apply IHo.
    assert (forall le (l' : list Row) y, In y (sort_rows le l') -> In y l') as Hsort.
    { intros le l'. unfold sort_rows.
      induction l' as [|a l' IHl]; simpl; [tauto|].
      intros y Hy.
      assert (forall (l0 : list Row) z, In z (insert_sorted le a l0) -> z = a \/ In z l0)
        as Hins.
      { induction l0 as [|b l0 IH0]; simpl.
        - intros z [Hz | []]; left; congruence.
        - intros z. destruct (le a b); simpl.
          + intros [Hz | [Hz | Hz]]; [left; congruence | right; left; exact Hz
                                     | right; right; exact Hz].
          + intros [Hz | Hz]; [right; left; exact Hz|].
            destruct (IH0 z Hz) as [Hza | Hzl]; [left; exact Hza | right; right; exact Hzl]. }
      destruct (Hins _ _ Hy) as [-> | Hy']; [left; reflexivity | right; apply IHl, Hy']. }
    eapply Hsort. exact Hx. }
  assert (In r (ordered q (selected q table))) as Hsel.
  { unfold run in Hr.
    destruct (rejects q); [destruct Hr|].
    destruct (window q) as [[[|?|a] [|?|b]]|]; simpl in Hr; try (destruct Hr; fail).
    - destruct ((0 <=? a) && (a <=? b)); simpl in Hr; [|destruct Hr].
      eapply In_drop, In_take, Hr.
    - exact Hr. }
  apply Hordered in Hsel. unfold selected in Hsel.
  apply filter_In in Hsel as [_ Hall].
  apply String.eqb_eq. eapply restricted_owner; eassumption.
Qed.

End IsolationProperties.

Section RestrictedQueries.
Import Supabase.

Lemma restricted_add_filter (uid : string) (f : Filter) (q : Query) :
  restricted_to uid q -> restricted_to uid (add_filter f q).
Proof.
  unfold restricted_to, add_filter; simpl. intros Hin.
  apply in_or_app. left. exact Hin.
Qed.

Lemma restricted_order (uid column : string) (ascending : bool) (q : Query) :
  restricted_to uid q -> restricted_to uid (order column ascending q).
Proof. intros Hin. exact Hin. Qed.

Lemma restricted_range (uid : string) (from to : Js.JsNumber) (q : Query) :
  restricted_to uid q -> restricted_to uid (range from to q).
Proof. intros Hin. exact Hin. Qed.

Lemma restricted_eq_user_id (uid : string) :
  restricted_to uid (eq "user_id" uid select).
Proof. left. reflexivity. Qed.

Lemma restricted_applySupabaseSorting (uid : string)
    (builtin_text : string -> string) (q : Query) (sortBy : string)
    (sortOrder : Sorting.SortOrder) (columnMap : option (gmap string string)) :
  restricted_to uid q ->
  restricted_to uid
    (Sorting.applySupabaseSorting builtin_text q sortBy sortOrder columnMap).
Proof. intros Hin. apply restricted_order. exact Hin. Qed.

Lemma restricted_applySupabaseFilters (uid : string) (q : Query)
    (filters : Filtering.FilterParams) (options : Filtering.FilterOptions) :
  restricted_to uid q ->
  restricted_to uid (Filtering.applySupabaseFilters q filters options).
Proof.
  intros Hin. unfold Filtering.applySupabaseFilters.
  destruct (Filtering.status filters) as [[|x l]|];
    destruct (Filtering.category filters) as [[|y l']|];
    destruct (Filtering.dateRange filters) as [[[[|c f]|] [[|c' t]|]]|];
    cbn [Filtering.from Filtering.to];
    repeat apply restricted_add_filter; exact Hin.
Qed.

(** Each query of the loaders asks for the rows of the session's user. *)
Lemma list_query_restricted (getDateRangeFromPreset : string -> Filtering.DateRangeFilter)
    (builtin_text : string -> string) (cfg : ListLoader.Config) (uid : string)
    (searchParams : URLSearchParams.t) :
  restricted_to uid
    (ListLoader.list_query getDateRangeFromPreset builtin_text cfg uid searchParams).
Proof.
  unfold ListLoader.list_query.
  apply restricted_range.
  destruct (Search.parseSearchParams searchParams);
    [| apply restricted_add_filter];
    apply restricted_applySupabaseFilters, restricted_applySupabaseSorting,
      restricted_eq_user_id.
Qed.

Lemma views_query_restricted (cfg : ListLoader.Config) (uid : string) :
  restricted_to uid (ListLoader.views_query cfg uid).
Proof.
  apply restricted_order, restricted_add_filter, restricted_eq_user_id.
Qed.

Lemma templates_query_restricted (uid : string) (searchParams : URLSearchParams.t) :
  restricted_to uid (ListLoader.templates_query uid searchParams).
Proof.
  unfold ListLoader.templates_query.
  apply restricted_range.
  destruct (Search.parseSearchParams searchParams);
    [| apply restricted_add_filter];
    apply restricted_order, restricted_eq_user_id.
Qed.

Lemma clientsQuery_restricted (uid : string) (searchParams : URLSearchParams.t) :
  restricted_to uid (ClientsList.clientsQuery uid searchParams).
Proof.
  unfold ClientsList.clientsQuery.
  apply restricted_range.
  destruct (Search.parseSearchParams searchParams);
    [| apply restricted_add_filter];
    apply restricted_order, restricted_add_filter, restricted_eq_user_id.
Qed.

Lemma report_query_restricted (uid startDate endDate : string) :
  restricted_to uid (TaxReport.report_query uid startDate endDate).
Proof.
  do 2 apply restricted_add_filter. apply restricted_eq_user_id.
Qed.

End RestrictedQueries.

(** C5.  Each loader asks every table only for the rows whose [user_id]
    is the session's user, and the server conjoins that with the other
    filters; hence on two states of the database that agree on the rows
    of that user, the clients, invoices and mileage list loaders with
    their saved views, the line-item templates loader, the tax-report
    loader and the loader of the active clients each return the same
    response, whatever the rows of other users are. *)
Theorem loaders_noninterference :
  (forall (Row View : Type)
          (owned_row : Supabase.Owned Row) (server_row : Supabase.Postgrest Row)
          (owned_view : Supabase.Owned View) (server_view : Supabase.Postgrest View)
          (getDateRangeFromPreset : string -> Filtering.DateRangeFilter)
          (builtin_text : string -> string)
          (cfg : ListLoader.Config) (uid : string) (searchParams : URLSearchParams.t)
          (table1 table2 : list Row) (views1 views2 : list View),
      Supabase.restricted_to uid
        (ListLoader.list_query getDateRangeFromPreset builtin_text cfg uid searchParams)
      /\ Supabase.restricted_to uid (ListLoader.views_query cfg uid)
      /\ (Supabase.agree uid table1 table2 ->
          Supabase.agree uid views1 views2 ->
          ListLoader.loader getDateRangeFromPreset builtin_text cfg uid searchParams
            table1 views1
          = ListLoader.loader getDateRangeFromPreset builtin_text cfg uid searchParams
              table2 views2))
  /\ (forall (Row : Type)
             (owned_row : Supabase.Owned Row) (server_row : Supabase.Postgrest Row)
             (uid : string) (searchParams : URLSearchParams.t)
             (table1 table2 : list Row),
         Supabase.restricted_to uid (ListLoader.templates_query uid searchParams)
         /\ (Supabase.agree uid table1 table2 ->
             ListLoader.templates_loader uid searchParams table1
             = ListLoader.templates_loader uid searchParams table2))
  /\ (forall (server_invoices : Supabase.Postgrest Schema.Invoice.t)
             (server_expenses : Supabase.Postgrest Schema.Expense.t)
             (server_mileage : Supabase.Postgrest Schema.Mileage.t)
             (yearStart today uid : string) (searchParams : URLSearchParams.t)
             (invoices1 invoices2 : list Schema.Invoice.t)
             (expenses1 expenses2 : list Schema.Expense.t)
             (mileage1 mileage2 : list Schema.Mileage.t),
         (forall startDate endDate,
             Supabase.restricted_to uid (TaxReport.report_query uid startDate endDate))
         /\ (Supabase.agree uid invoices1 invoices2 ->
             Supabase.agree uid expenses1 expenses2 ->
             Supabase.agree uid mileage1 mileage2 ->
             TaxReport.loader yearStart today uid searchParams
               invoices1 expenses1 mileage1
             = TaxReport.loader yearStart today uid searchParams
                 invoices2 expenses2 mileage2))
  /\ (forall (Row : Type)
             (owned_row : Supabase.Owned Row) (server_row : Supabase.Postgrest Row)
             (uid : string) (searchParams : URLSearchParams.t)
             (table1 table2 : list Row),
         Supabase.restricted_to uid (ClientsList.clientsQuery uid searchParams)
         /\ (Supabase.agree uid table1 table2 ->
             ClientsList.loader uid searchParams table1
             = ClientsList.loader uid searchParams table2)).
Proof.
  split; [|split; [|split]].
  - intros. split; [apply list_query_restricted|].
    split; [apply views_query_restricted|].
    intros Htable Hviews. unfold ListLoader.loader.
    rewrite (run_agree uid _ table1 table2
               (list_query_restricted getDateRangeFromPreset builtin_text cfg uid
                  searchParams) Htable).
    rewrite (run_agree uid _ views1 views2 (views_query_restricted cfg uid) Hviews).
    reflexivity.
  - intros. split; [apply templates_query_restricted|].
    intros Htable. unfold ListLoader.templates_loader.
    rewrite (run_agree uid _ table1 table2
               (templates_query_restricted uid searchParams) Htable).
    reflexivity.
  - intros. split; [intros; apply report_query_restricted|].
    intros Hinvoices Hexpenses Hmileage.
    unfold TaxReport.loader, TaxReport.fetch.
    rewrite (run_agree uid _ invoices1 invoices2 (report_query_restricted uid _ _) Hinvoices).
    rewrite (run_agree uid _ expenses1 expenses2 (report_query_restricted uid _ _) Hexpenses).
    rewrite (run_agree uid _ mileage1 mileage2 (report_query_restricted uid _ _) Hmileage).
    reflexivity.
  - intros. split; [apply clientsQuery_restricted|].
    intros Htable. unfold ClientsList.loader.
    rewrite (run_agree uid _ table1 table2
               (clientsQuery_restricted uid searchParams) Htable).
    reflexivity.
Qed.

(** Two states that differ in the rows of [u2] only: the clients list and
    the tax report of [u1] are the same on both. *)
Lemma loaders_noninterference_witness :
  @ListLoader.loader _ _ Reference.client_owned Reference.clients
    Reference.view_owned Reference.saved_views
    Reference.no_preset Reference.builtin_text ListLoader.clients "u1"
    [("page", "1"); ("limit", "10")]
    [ {| Reference.client_user_id := "u1"; Reference.client_name := "Ada";
         Reference.client_created_at := "2025-01-05" |};
      {| Reference.client_user_id := "u2"; Reference.client_name := "Bob";
         Reference.client_created_at := "2025-01-06" |} ]
    [ {| Reference.view_user_id := "u1"; Reference.view_name := "Leads";
         Reference.view_table_name := "clients";
         Reference.view_created_at := "2025-02-01" |} ]
  = @ListLoader.loader _ _ Reference.client_owned Reference.clients
      Reference.view_owned Reference.saved_views
      Reference.no_preset Reference.builtin_text ListLoader.clients "u1"
      [("page", "1"); ("limit", "10")]
      [ {| Reference.client_user_id := "u2"; Reference.client_name := "Cy";
           Reference.client_created_at := "2025-01-01" |};
        {| Reference.client_user_id := "u1"; Reference.client_name := "Ada";
           Reference.client_created_at := "2025-01-05" |} ]
      [ {| Reference.view_user_id := "u2"; Reference.view_name := "Mine";
           Reference.view_table_name := "clients";
           Reference.view_created_at := "2025-03-01" |};
        {| Reference.view_user_id := "u1"; Reference.view_name := "Leads";
           Reference.view_table_name := "clients";
           Reference.view_created_at := "2025-02-01" |} ]
  /\ @TaxReport.loader Reference.invoices Reference.expenses Reference.mileage
       "2025-01-01" "2025-12-31" "u1" []
       [ {| Schema.Invoice.user_id := "u1"; Schema.Invoice.date := "2025-02-01";
            Schema.Invoice.status := Some "paid"; Schema.Invoice.total := 120000 |} ]
       [] []
     = @TaxReport.loader Reference.invoices Reference.expenses Reference.mileage
         "2025-01-01" "2025-12-31" "u1" []
         [ {| Schema.Invoice.user_id := "u2"; Schema.Invoice.date := "2025-02-02";
              Schema.Invoice.status := Some "paid"; Schema.Invoice.total := 990000 |};
           {| Schema.Invoice.user_id := "u1"; Schema.Invoice.date := "2025-02-01";
              Schema.Invoice.status := Some "paid"; Schema.Invoice.total := 120000 |} ]
         [ {| Schema.Expense.user_id := "u2"; Schema.Expense.date := "2025-02-03";
              Schema.Expense.total := 5000;
              Schema.Expense.is_tax_deductible := Some true;
              Schema.Expense.business_use_percentage := Some 10000;
              Schema.Expense.tax_category := None |} ]
         [].
Proof.
  destruct loaders_noninterference as (Hlist & _ & Hreport & _).
  split.
  - apply Hlist; reflexivity.
  - apply Hreport; reflexivity.
Defined.

(** ** JSON text *)

Section JsonProperties.
Import Json.

Lemma append_assoc (a b c : string) : (a ++ b) ++ c = a ++ (b ++ c).
Proof.
  induction a as [|x a IH]; [reflexivity|].
  change (String x ((a ++ b) ++ c) = String x (a ++ (b ++ c))).
  rewrite IH. reflexivity.
Qed.

Lemma append_nil_r (a : string) : a ++ "" = a.
Proof.
  induction a as [|x a IH]; [reflexivity|].
  change (String x (a ++ "") = String x a). rewrite IH. reflexivity.
Qed.

Lemma length_append (a b : string) :
  String.length (a ++ b) = (String.length a + String.length b)%nat.
Proof.
  induction a as [|x a IH]; [reflexivity|].
  change (S (String.length (a ++ b)) = S (String.length a + String.length b)).
  rewrite IH. reflexivity.
Qed.

(** *** String literals *)

Lemma parse_chars_escape_char (c : ascii) (tail : string) :
  parse_chars (escape_char c ++ tail) = prepend (String c "") (parse_chars tail).
Proof.
  destruct c as [[] [] [] [] [] [] [] []]; reflexivity.
Qed.

Lemma parse_chars_escape (s rest : string) :
  parse_chars (escape s ++ String dquote rest) = Some (s, rest).
Proof.
  induction s as [|c s IH]; [reflexivity|].
  change (escape (String c s)) with (escape_char c ++ escape s).
  rewrite append_assoc, parse_chars_escape_char, IH. reflexivity.
Qed.

Lemma quote_append (s rest : string) :
  quote s ++ rest = String dquote (escape s ++ String dquote rest).
Proof.
  unfold quote.
  change (String dquote ((escape s ++ String dquote "") ++ rest)
          = String dquote (escape s ++ String dquote rest)).
  rewrite append_assoc. reflexivity.
Qed.

(** *** The first character of a value's text *)

Lemma stringify_head (v : value) :
  printable v = true ->
  exists c t, stringify v = String c t /\ starts_value c = true.
Proof.
  destruct v as [|[]|literal|s|l|members]; intros Hp; try discriminate Hp;
    cbn [stringify]; eexists _, _; (split; [reflexivity | reflexivity]).
Qed.

Lemma skip_ws_head (c : ascii) (t : string) :
  starts_value c = true -> skip_ws (String c t) = String c t.
Proof.
  destruct c as [[] [] [] [] [] [] [] []]; intros H; try discriminate H; reflexivity.
Qed.

(** *** One step of the parser *)

Lemma value_at_string elements members (r : string) :
  value_at elements members (String dquote r)
  = match parse_chars r with
    | Some (str, r') => Some (JString str, r')
    | None => None
    end.
Proof. reflexivity. Qed.

Lemma value_at_array elements members (c : ascii) (t : string) :
  starts_value c = true ->
  value_at elements members (String "[" (String c t))
  = match elements (String c t) with
    | Some (vs, r) => Some (JArray vs, r)
    | None => None
    end.
Proof.
  destruct c as [[] [] [] [] [] [] [] []]; intros H; try discriminate H; reflexivity.
Qed.

Lemma value_at_object elements members (t : string) :
  value_at elements members (String "{" (String dquote t))
  = match members (String dquote t) with
    | Some (ms, r) => Some (JObject ms, r)
    | None => None
    end.
Proof. reflexivity. Qed.

Lemma next_element_comma continue (v : value) (tail : string) :
  next_element continue v (String "," tail)
  = match continue tail with
    | Some (vs, r) => Some (v :: vs, r)
    | None => None
    end.
Proof. reflexivity. Qed.

Lemma next_member_comma continue (k : string) (v : value) (tail : string) :
  next_member continue k v (String "," tail)
  = match continue tail with
    | Some (ms, r) => Some ((k, v) :: ms, r)
    | None => None
    end.
Proof. reflexivity. Qed.

Lemma member_at_name value_of continue (k tail : string) :
  member_at value_of continue (quote k ++ String ":" tail)
  = match value_of tail with
    | Some (v, r) => next_member continue k v r
    | None => None
    end.
Proof.
  rewrite quote_append.
  change (member_at value_of continue (String dquote (escape k ++ String dquote (String ":" tail))))
    with (match parse_chars (escape k ++ String dquote (String ":" tail)) with
          | Some (k', r') => member_value value_of continue k' r'
          | None => None
          end).
  rewrite parse_chars_escape. reflexivity.
Qed.

(** *** The text of arrays and objects *)

Lemma array_text (l : list value) (rest : string) :
  stringify (JArray l) ++ rest
  = String "[" (String.concat "," (map stringify l) ++ String "]" rest).
Proof.
  change (stringify (JArray l))
    with (String "[" (String.concat "," (map stringify l) ++ "]")).
  change (String "[" ((String.concat "," (map stringify l) ++ "]") ++ rest)
          = String "[" (String.concat "," (map stringify l) ++ String "]" rest)).
  rewrite append_assoc. reflexivity.
Qed.

Lemma object_text (members : list (string * value)) (rest : string) :
  stringify (JObject members) ++ rest
  = String "{" (String.concat "," (map member_text members) ++ String "}" rest).
Proof.
  change (stringify (JObject members))
    with (String "{" (String.concat "," (map member_text members) ++ "}")).
  change (String "{" ((String.concat "," (map member_text members) ++ "}") ++ rest)
          = String "{" (String.concat "," (map member_text members) ++ String "}" rest)).
  rewrite append_assoc. reflexivity.
Qed.

Lemma concat_cons2 (x y : string) (l : list string) (rest : string) :
  String.concat "," (x :: y :: l) ++ rest
  = x ++ String "," (String.concat "," (y :: l) ++ rest).
Proof.
  change (String.concat "," (x :: y :: l))
    with (x ++ "," ++ String.concat "," (y :: l)).
  rewrite append_assoc. reflexivity.
Qed.

Lemma elements_head (x : value) (xs : list value) (tail : string) :
  printable x = true ->
  exists c t,
    String.concat "," (map stringify (x :: xs)) ++ tail = String c t
    /\ starts_value c = true.
Proof.
  intros Hx. destruct (stringify_head x Hx) as (c & t & E & Hc).
  destruct xs as [|y ys].
  - exists c, (t ++ tail). split; [|exact Hc].
    change (String.concat "," (map stringify [x])) with (stringify x).
    rewrite E. reflexivity.
  - exists c, (t ++ String "," (String.concat "," (map stringify (y :: ys)) ++ tail)).
    split; [|exact Hc].
    change (map stringify (x :: y :: ys))
      with (stringify x :: stringify y :: map stringify ys).
    rewrite concat_cons2, E. reflexivity.
Qed.

Lemma members_head (kv : string * value) (ms : list (string * value)) (tail : string) :
  exists t, String.concat "," (map member_text (kv :: ms)) ++ tail = String dquote t.
Proof.
  destruct ms as [|kv' ms'].
  - change (String.concat "," (map member_text [kv])) with (member_text kv).
    unfold member_text. rewrite append_assoc, quote_append. eexists. reflexivity.
  - change (map member_text (kv :: kv' :: ms'))
      with (member_text kv :: member_text kv' :: map member_text ms').
    rewrite concat_cons2. unfold member_text at 1.
    rewrite append_assoc, quote_append. eexists. reflexivity.
Qed.

Lemma sizes_cons {A : Type} (f : A -> nat) (x : A) (l : list A) :
  list_sum (map f (x :: l)) = (f x + list_sum (map f l))%nat.
Proof. reflexivity. Qed.

Lemma size_pos (v : value) : (1 <= size v)%nat.
Proof. destruct v; cbn [size]; lia. Qed.

(** *** The parser reads back what [stringify] writes *)

Lemma parse_stringify_fuel (fuel : nat) :
  (forall v rest,
      printable v = true -> (size v <= fuel)%nat ->
      parse_value fuel (stringify v ++ rest) = Some (v, rest))
  /\ (forall v vs rest,
         printable v = true -> forallb printable vs = true ->
         (list_sum (map (fun x => S (size x)) (v :: vs)) <= fuel)%nat ->
         parse_elements fuel
           (String.concat "," (map stringify (v :: vs)) ++ String "]" rest)
         = Some (v :: vs, rest))
  /\ (forall kv ms rest,
         printable (snd kv) = true ->
         forallb (fun kv => printable (snd kv)) ms = true ->
         (list_sum (map (fun kv => S (size (snd kv))) (kv :: ms)) <= fuel)%nat ->
         parse_members fuel
           (String.concat "," (map member_text (kv :: ms)) ++ String "}" rest)
         = Some (kv :: ms, rest)).
Proof.
  induction fuel as [|fuel (IHv & IHe & IHm)].
  - split; [|split].
    + intros v rest _ Hs. pose proof (size_pos v). lia.
    + intros v vs rest _ _ Hs. rewrite sizes_cons in Hs. lia.
    + intros kv ms rest _ _ Hs. rewrite sizes_cons in Hs. lia.
  - split; [|split].
    + intros v rest Hp Hs.
      change (parse_value (S fuel) (stringify v ++ rest))
        with (value_at (parse_elements fuel) (parse_members fuel)
                (skip_ws (stringify v ++ rest))).
      destruct v as [|[]|literal|s|l|members]; try discriminate Hp;
        try reflexivity.
      * cbn [stringify]. rewrite quote_append.
        rewrite skip_ws_head by reflexivity.
        rewrite value_at_string, parse_chars_escape. reflexivity.
      * destruct l as [|x xs]; [reflexivity|].
        cbn [printable forallb] in Hp. apply andb_prop in Hp as [Hx Hxs].
        cbn [size] in Hs.
        rewrite array_text, skip_ws_head by reflexivity.
        destruct (elements_head x xs (String "]" rest) Hx) as (c & t & E & Hc).
        rewrite E, (value_at_array _ _ c t Hc), <- E.
        rewrite (IHe x xs rest Hx Hxs) by lia. reflexivity.
      * destruct members as [|kv ms]; [reflexivity|].
        cbn [printable forallb] in Hp. apply andb_prop in Hp as [Hkv Hms].
        cbn [size] in Hs.
        rewrite object_text, skip_ws_head by reflexivity.
        destruct (members_head kv ms (String "}" rest)) as (t & E).
        rewrite E, value_at_object, <- E.
        rewrite (IHm kv ms rest Hkv Hms) by lia. reflexivity.
    + intros v vs rest Hv Hvs Hs.
      rewrite sizes_cons in Hs.
      change (parse_elements (S fuel) ?s)
        with (match parse_value fuel s with
              | Some (v, r) => next_element (parse_elements fuel) v r
              | None => None
              end).
      destruct vs as [|v' vs'].
      * change (String.concat "," (map stringify [v])) with (stringify v).
        rewrite (IHv v _ Hv) by lia. reflexivity.
      * cbn [forallb] in Hvs. apply andb_prop in Hvs as [Hv' Hvs'].
        change (map stringify (v :: v' :: vs'))
          with (stringify v :: stringify v' :: map stringify vs').
        rewrite concat_cons2.
        rewrite (IHv v _ Hv) by lia.
        rewrite next_element_comma.
        change (stringify v' :: map stringify vs') with (map stringify (v' :: vs')).
        rewrite (IHe v' vs' rest Hv' Hvs') by (rewrite sizes_cons in *; lia).
        reflexivity.
    + intros kv ms rest Hkv Hms Hs.
      rewrite sizes_cons in Hs.
      change (parse_members (S fuel) ?s)
        with (member_at (parse_value fuel) (parse_members fuel) s).
      destruct kv as [k v]. cbn [snd] in Hkv, Hs.
      destruct ms as [|kv' ms'].
      * change (String.concat "," (map member_text [(k, v)]))
          with (quote k ++ ":" ++ stringify v).
        rewrite append_assoc.
        change ((":" ++ stringify v) ++ String "}" rest)
          with (String ":" (stringify v ++ String "}" rest)).
        rewrite member_at_name.
        rewrite (IHv v _ Hkv) by lia. reflexivity.
      * cbn [forallb] in Hms. apply andb_prop in Hms as [Hkv' Hms'].
        change (map member_text ((k, v) :: kv' :: ms'))
          with ((quote k ++ ":" ++ stringify v) :: member_text kv' :: map member_text ms').
        rewrite concat_cons2, append_assoc.
        change ((":" ++ stringify v) ++ ?x) with (String ":" (stringify v ++ x)).
        rewrite member_at_name.
        rewrite (IHv v _ Hkv) by lia.
        rewrite next_member_comma.
        change (member_text kv' :: map member_text ms') with (map member_text (kv' :: ms')).
        rewrite (IHm kv' ms' rest Hkv' Hms') by (rewrite sizes_cons in *; lia).
        reflexivity.
Qed.

Lemma length_concat_elements (l : list value) :
  (forall x, In x l -> (size x <= String.length (stringify x))%nat) ->
  (list_sum (map (fun x => S (size x)) l)
   <= String.length (String.concat "," (map stringify l)) + 1)%nat.
Proof.
  induction l as [|x l IH]; intros Hall; [cbn; lia|].
  rewrite sizes_cons.
  pose proof (Hall x (or_introl eq_refl)) as Hx.
  specialize (IH (fun y Hy => Hall y (or_intror Hy))).
  destruct l as [|y l'].
  - change (String.concat "," (map stringify [x])) with (stringify x).
    cbn [map list_sum] in *. cbn. lia.
  - change (String.concat "," (map stringify (x :: y :: l')))
      with (stringify x ++ "," ++ String.concat "," (map stringify (y :: l'))).
    rewrite !length_append.
    change (String.length ",") with 1%nat. lia.
Qed.

Lemma length_concat_members (ms : list (string * value)) :
  (forall kv, In kv ms -> (size (snd kv) <= String.length (stringify (snd kv)))%nat) ->
  (list_sum (map (fun kv => S (size (snd kv))) ms)
   <= String.length (String.concat "," (map member_text ms)) + 1)%nat.
Proof.
  assert (forall kv : string * value,
             (String.length (stringify (snd kv)) < String.length (member_text kv))%nat)
    as Hmember.
  { intros [k v]. unfold member_text, quote. cbn [fst snd].
    change (String.length (String dquote (escape k ++ String dquote "") ++ ":" ++ stringify v))
      with (S (String.length ((escape k ++ String dquote "") ++ ":" ++ stringify v))).
    rewrite !length_append. change (String.length ":") with 1%nat. lia. }
  induction ms as [|kv ms IH]; intros Hall; [cbn; lia|].
  rewrite sizes_cons.
  pose proof (Hall kv (or_introl eq_refl)) as Hkv.
  pose proof (Hmember kv) as Hlt.
  specialize (IH (fun y Hy => Hall y (or_intror Hy))).
  destruct ms as [|kv' ms'].
  - change (String.concat "," (map member_text [kv])) with (member_text kv).
    cbn [map list_sum] in *. cbn. lia.
  - change (String.concat "," (map member_text (kv :: kv' :: ms')))
      with (member_text kv ++ "," ++ String.concat "," (map member_text (kv' :: ms'))).
    rewrite !length_append.
    change (String.length ",") with 1%nat. lia.
Qed.

(** The text of a value is at least as long as the fuel it asks for. *)
Lemma size_le_length (n : nat) (v : value) :
  (size v <= n)%nat -> printable v = true ->
  (size v <= String.length (stringify v))%nat.
Proof.
  revert v. induction n as [|n IH]; intros v Hn Hp.
  - pose proof (size_pos v). lia.
  - destruct v as [|[]|literal|s|l|members]; try discriminate Hp;
      try (cbn; lia).
    + cbn [size] in *.
      change (stringify (JArray l))
        with (String "[" (String.concat "," (map stringify l) ++ "]")).
      change (String.length (String "[" ?x)) with (S (String.length x)).
      rewrite length_append.
      change (String.length "]") with 1%nat.
      assert (forall x, In x l -> (size x <= String.length (stringify x))%nat) as Hall.
      { intros x Hx. cbn [printable] in Hp. rewrite forallb_forall in Hp.
        apply IH; [|apply Hp, Hx].
        assert (S (size x) <= list_sum (map (fun x => S (size x)) l))%nat; [|lia].
        clear -Hx. induction l as [|y l IHl]; [destruct Hx|].
        rewrite sizes_cons. destruct Hx as [-> | Hx]; [lia|].
        specialize (IHl Hx). lia. }
      pose proof (length_concat_elements l Hall). lia.
    + cbn [size] in *.
      change (stringify (JObject members))
        with (String "{" (String.concat "," (map member_text members) ++ "}")).
      change (String.length (String "{" ?x)) with (S (String.length x)).
      rewrite length_append.
      change (String.length "}") with 1%nat.
      assert (forall kv, In kv members ->
                         (size (snd kv) <= String.length (stringify (snd kv)))%nat) as Hall.
      { intros kv Hkv. cbn [printable] in Hp. rewrite forallb_forall in Hp.
        apply IH; [|apply (Hp kv), Hkv].
        assert (S (size (snd kv))
                <= list_sum (map (fun kv => S (size (snd kv))) members))%nat; [|lia].
        clear -Hkv. induction members as [|y l IHl]; [destruct Hkv|].
        rewrite sizes_cons. destruct Hkv as [-> | Hkv]; [lia|].
        specialize (IHl Hkv). lia. }
      pose proof (length_concat_members members Hall). lia.
Qed.

(** [JSON.parse(JSON.stringify(v))] is [v], for a value without numbers. *)
Lemma parse_stringify (v : value) :
  printable v = true -> parse (stringify v) = Some v.
Proof.
  intros Hp. unfold parse.
  pose proof (size_le_length (size v) v (le_n _) Hp) as Hlen.
  rewrite <- (append_nil_r (stringify v)) at 2.
  rewrite (proj1 (parse_stringify_fuel (S (String.length (stringify v)))) v "" Hp)
    by lia.
  reflexivity.
Qed.

End JsonProperties.

(** ** Saved views *)

Section ViewsProperties.
Import Json Views.

Lemma strings_printable (l : list string) :
  forallb printable (map JString l) = true.
Proof. induction l as [|x l IH]; [reflexivity | exact IH]. Qed.

Lemma all_strings_map (l : list string) : all_strings (map JString l) = Some l.
Proof.
  induction l as [|x l IH]; [reflexivity|].
  cbn [map all_strings as_string]. rewrite IH. reflexivity.
Qed.

Lemma nullable_printable (s : option string) : printable (nullable s) = true.
Proof. destruct s; reflexivity. Qed.

Lemma as_nullable_nullable (s : option string) : as_nullable (nullable s) = Some s.
Proof. destruct s; reflexivity. Qed.

Lemma to_object_printable (state : ViewState) : printable (to_object state) = true.
Proof.
  destruct state as [[st cat dr se] [sb so]].
  destruct st as [st|], cat as [cat|], dr as [[f t]|], se as [se|];
    cbn [to_object FilterParams_object SortParams_object DateRangeFilter_object
           strings_object optional option_map filters sort
           Filtering.status Filtering.category Filtering.dateRange Filtering.search
           Filtering.from Filtering.to Sorting.sortBy Sorting.sortOrder
           printable forallb snd app];
    rewrite ?strings_printable, ?nullable_printable; reflexivity.
Qed.

Lemma as_SortParams_object (p : Sorting.SortParams) :
  as_SortParams (SortParams_object p) = Some p.
Proof.
  destruct p as [sb so]. unfold as_SortParams, SortParams_object.
  cbn [Sorting.sortBy Sorting.sortOrder].
  change (read_required as_nullable "sortBy"
            [("sortBy", nullable sb); ("sortOrder", JString (Sorting.SortOrder_string so))])
    with (as_nullable (nullable sb)).
  change (read_required as_SortOrder "sortOrder"
            [("sortBy", nullable sb); ("sortOrder", JString (Sorting.SortOrder_string so))])
    with (as_SortOrder (JString (Sorting.SortOrder_string so))).
  rewrite as_nullable_nullable. destruct so; reflexivity.
Qed.

Lemma as_DateRangeFilter_object (r : Filtering.DateRangeFilter) :
  as_DateRangeFilter (DateRangeFilter_object r) = Some r.
Proof.
  destruct r as [f t]. unfold as_DateRangeFilter, DateRangeFilter_object.
  cbn [Filtering.from Filtering.to].
  change (read_required as_nullable "from" [("from", nullable f); ("to", nullable t)])
    with (as_nullable (nullable f)).
  change (read_required as_nullable "to" [("from", nullable f); ("to", nullable t)])
    with (as_nullable (nullable t)).
  rewrite !as_nullable_nullable. reflexivity.
Qed.

Lemma as_strings_object (l : list string) : as_strings (strings_object l) = Some l.
Proof. apply all_strings_map. Qed.

Lemma as_FilterParams_object (f : Filtering.FilterParams) :
  as_FilterParams (FilterParams_object f) = Some f.
Proof.
  destruct f as [st cat dr se].
  destruct st as [st|], cat as [cat|], dr as [dr|], se as [se|];
    unfold as_FilterParams, FilterParams_object;
    cbn [Filtering.status Filtering.category Filtering.dateRange Filtering.search
           optional option_map app];
    unfold read_optional;
    cbn [member String.eqb Ascii.eqb Bool.eqb option_map];
    rewrite ?as_strings_object, ?as_DateRangeFilter_object; reflexivity.
Qed.

Lemma as_ViewState_to_object (state : ViewState) :
  as_ViewState (to_object state) = Some state.
Proof.
  destruct state as [f p]. unfold as_ViewState, to_object. cbn [filters sort].
  change (read_required as_FilterParams "filters"
            [("filters", FilterParams_object f); ("sort", SortParams_object p)])
    with (as_FilterParams (FilterParams_object f)).
  change (read_required as_SortParams "sort"
            [("filters", FilterParams_object f); ("sort", SortParams_object p)])
    with (as_SortParams (SortParams_object p)).
  rewrite as_FilterParams_object, as_SortParams_object. reflexivity.
Qed.

(** Whatever the order of its properties, an object without numbers
    comes back from [decodeViewState] as it went into [encodeViewState]. *)
Lemma decode_encode_object (obj : value) :
  printable obj = true -> decodeViewState (encodeViewState obj) = obj.
Proof.
  intros Hp. unfold decodeViewState, encodeViewState.
  rewrite (parse_stringify obj Hp). reflexivity.
Qed.

End ViewsProperties.

(** C6.  For every view state [s], a filters struct and a sort struct,
    decoding the encoding of [s] gives [s] back: the object that
    [decodeViewState] returns is the object of [s], and it reads as [s]. *)
Theorem view_state_roundtrip (s : Views.ViewState) :
  Views.decodeViewState (Views.encodeViewState (Views.to_object s)) = Views.to_object s
  /\ Views.as_ViewState
       (Views.decodeViewState (Views.encodeViewState (Views.to_object s)))
     = Some s.
Proof.
  rewrite (decode_encode_object _ (to_object_printable s)).
  split; [reflexivity | apply as_ViewState_to_object].
Qed.

(** * Further properties of the code *)

(** ** [String(n)] and [parseInt] *)

Section NumberPrinting.
Import Js JsMath.
#[local] Open Scope list_scope.

Lemma digit_char_spec (d : N) :
  (d < 10)%N ->
  is_digit (digit_char d) = true /\ digit_value (digit_char d) = Z.of_N d.
Proof.
  intros H.
  assert (d = 0 \/ d = 1 \/ d = 2 \/ d = 3 \/ d = 4 \/ d = 5 \/ d = 6
          \/ d = 7 \/ d = 8 \/ d = 9)%N as Hd by lia.
  repeat (destruct Hd as [-> | Hd]); try subst d; split; reflexivity.
Qed.

Lemma digits_digit (c : ascii) (s : string) :
  is_digit c = true -> digits (String c s) = digit_value c :: digits s.
Proof. intros H. change (digits (String c s)) with (if is_digit c then digit_value c :: digits s else []). rewrite H. reflexivity. Qed.

Lemma digits_value_snoc (l : list Z) (d : Z) :
  digits_value (l ++ [d]) = 10 * digits_value l + d.
Proof. unfold digits_value. rewrite fold_left_app. reflexivity. Qed.

Lemma digits_before_spec (fuel : nat) :
  forall (n : N) (acc : string),
    (0 < fuel)%nat -> (n < 10 ^ N.of_nat fuel)%N ->
    exists d l,
      digits (digits_before fuel n acc) = (d :: l) ++ digits acc
      /\ digits_value (d :: l) = Z.of_N n.
Proof.
  induction fuel as [|fuel IH]; intros n acc Hfuel Hn; [lia|].
  change (digits_before (S fuel) n acc)
    with (if (n <? 10)%N then String (digit_char (n mod 10)) acc
          else digits_before fuel (n / 10) (String (digit_char (n mod 10)) acc)).
  assert (n mod 10 < 10)%N as Hmod by (apply N.mod_lt; lia).
  destruct (digit_char_spec _ Hmod) as [Hdigit Hvalue].
  destruct (N.ltb_spec n 10) as [Hlt | Hge].
  - exists (Z.of_N n), [].
    rewrite (digits_digit _ _ Hdigit), Hvalue.
    rewrite N.mod_small by exact Hlt.
    split; [reflexivity|]. unfold digits_value. simpl. lia.
  - assert (n / 10 < 10 ^ N.of_nat fuel)%N as Hdiv.
    { apply N.Div0.div_lt_upper_bound.
      replace (N.of_nat (S fuel)) with (N.succ (N.of_nat fuel)) in Hn by lia.
      rewrite N.pow_succ_r' in Hn. exact Hn. }
    assert (1 <= n / 10)%N as Hpos.
    { apply N.div_le_lower_bound; lia. }
    assert (0 < fuel)%nat as Hfuel'.
    { destruct fuel; [|lia]. simpl in Hdiv. lia. }
    destruct (IH (n / 10)%N (String (digit_char (n mod 10)) acc) Hfuel' Hdiv)
      as (d & l & Hdigits & Hval).
    rewrite (digits_digit _ _ Hdigit), Hvalue in Hdigits.
    destruct (@exists_last _ (d :: l ++ [Z.of_N (n mod 10)])) as (l' & x & Hl');
      [discriminate|].
    exists d, (l ++ [Z.of_N (n mod 10)]).
    split.
    + rewrite Hdigits. rewrite <- !app_comm_cons, <- app_assoc. reflexivity.
    + rewrite app_comm_cons, digits_value_snoc, Hval.
      pose proof (N.div_mod n 10 ltac:(lia)) as Hdm. lia.
Qed.

Lemma string_of_N_spec (n : N) :
  exists d l,
    digits (string_of_N n) = d :: l /\ digits_value (d :: l) = Z.of_N n.
Proof.
  unfold string_of_N.
  assert (n < 10 ^ N.of_nat (S (N.to_nat (N.log2 n))))%N as Hn.
  { replace (N.of_nat (S (N.to_nat (N.log2 n)))) with (N.succ (N.log2 n)) by lia.
    destruct (N.eq_dec n 0%N) as [-> | Hnz]; [reflexivity|].
    apply N.lt_le_trans with (2 ^ N.succ (N.log2 n))%N.
    - apply N.log2_spec. lia.
    - apply N.pow_le_mono_l. lia. }
  destruct (digits_before_spec _ n EmptyString (Nat.lt_0_succ _) Hn) as (d & l & Hd & Hv).
  exists d, l. split; [|exact Hv].
  rewrite Hd. change (digits EmptyString) with (@nil Z). apply app_nil_r.
Qed.

Lemma digits_cons_inv (s : string) (d : Z) (l : list Z) :
  digits s = d :: l -> exists c r, s = String c r /\ is_digit c = true.
Proof.
  destruct s as [|c r]; [discriminate|].
  change (digits (String c r)) with (if is_digit c then digit_value c :: digits r else []).
  destruct (is_digit c) eqn:E; [|discriminate].
  intros _. exists c, r. split; [reflexivity | exact E].
Qed.

Lemma trimStart_digit (c : ascii) (s : string) :
  is_digit c = true -> trimStart (String c s) = String c s.
Proof.
  intros H.
  destruct c as [[] [] [] [] [] [] [] []]; try discriminate H;
    destruct s as [|c2 [|c3 s]]; reflexivity.
Qed.

Lemma parseInt_digit (c : ascii) (s : string) :
  is_digit c = true ->
  parseInt (String c s) = round (digits_value (digits (String c s))).
Proof.
  intros H. unfold parseInt. rewrite (trimStart_digit c s H).
  rewrite (digits_digit c s H).
  destruct c as [[] [] [] [] [] [] [] []]; try discriminate H; reflexivity.
Qed.

Lemma parseInt_minus (c : ascii) (s : string) :
  is_digit c = true ->
  parseInt (String "-" (String c s)) = round (- digits_value (digits (String c s))).
Proof.
  intros H. unfold parseInt.
  assert (trimStart (String "-" (String c s)) = String "-" (String c s)) as ->
    by (destruct s as [|c3 s]; reflexivity).
  change (code "-" =? 45)%N with true. cbv beta iota zeta.
  rewrite (digits_digit c s H). reflexivity.
Qed.

Lemma parseInt_string_of_N (n : N) : parseInt (string_of_N n) = round (Z.of_N n).
Proof.
  destruct (string_of_N_spec n) as (d & l & Hd & Hv).
  destruct (digits_cons_inv _ _ _ Hd) as (c & r & Hs & Hc).
  rewrite Hs in *. rewrite (parseInt_digit c r Hc), Hd, Hv. reflexivity.
Qed.

Lemma parseInt_string_of_Z (z : Z) : parseInt (string_of_Z z) = round z.
Proof.
  unfold string_of_Z.
  destruct (Z.ltb_spec z 0) as [Hneg | Hpos].
  - destruct (string_of_N_spec (Z.to_N (- z))) as (d & l & Hd & Hv).
    destruct (digits_cons_inv _ _ _ Hd) as (c & r & Hs & Hc).
    rewrite Hs in *. rewrite (parseInt_minus c r Hc), Hd, Hv. f_equal. lia.
  - rewrite parseInt_string_of_N. f_equal. lia.
Qed.

Lemma string_of_Z_nonempty (z : Z) : exists c r, string_of_Z z = String c r.
Proof.
  unfold string_of_Z. destruct (z <? 0); [eauto|].
  destruct (string_of_N_spec (Z.to_N z)) as (d & l & Hd & _).
  destruct (digits_cons_inv _ _ _ Hd) as (c & r & Hs & _). eauto.
Qed.

Lemma to_String_safe (z : Z) :
  Z.abs z < 2 ^ 53 -> to_String (Num z) = string_of_Z z.
Proof.
  intros Hz. unfold to_String.
  destruct (Z.ltb_spec (Z.abs z) (2 ^ 53)) as [_ | Hge]; [reflexivity | lia].
Qed.

(** [String(n)] of [NaN] or of a safe integer is not empty, and
    [parseInt] reads it back as [n]. *)
Lemma to_String_nonempty (n : JsNumber) :
  safe n -> exists c r, to_String n = String c r.
Proof.
  destruct n as [|s|z]; [simpl; eauto | intros [] |].
  intros Hz. rewrite (to_String_safe z Hz). apply string_of_Z_nonempty.
Qed.

Lemma parseInt_to_String (n : JsNumber) : safe n -> parseInt (to_String n) = n.
Proof.
  destruct n as [|s|z]; [reflexivity | intros [] |].
  intros Hz. rewrite (to_String_safe z Hz), parseInt_string_of_Z.
  apply round_small, Hz.
Qed.

End NumberPrinting.

(** ** Reading a parameter after the list was changed *)

Section URLSearchParamsLookups.
Import URLSearchParams.

Lemma get_delete (name : string) (ps : t) : get name (delete name ps) = None.
Proof.
  unfold delete. induction ps as [|[k v] ps IH]; simpl; [reflexivity|].
  destruct (String.eqb k name) eqn:E; simpl; [exact IH|].
  rewrite E. exact IH.
Qed.

Lemma get_delete_other (name k : string) (ps : t) :
  k <> name -> get k (delete name ps) = get k ps.
Proof.
  intros Hk. unfold delete. induction ps as [|[k' v] ps IH]; simpl; [reflexivity|].
  destruct (String.eqb_spec k' name) as [-> | Hne]; simpl.
  - destruct (String.eqb_spec name k) as [-> | _]; [contradiction | exact IH].
  - rewrite IH. reflexivity.
Qed.

Lemma get_set_other (name value k : string) (ps : t) :
  k <> name -> get k (set name value ps) = get k ps.
Proof.
  intros Hk. induction ps as [|[k' v] ps IH]; simpl.
  - destruct (String.eqb_spec name k) as [-> | _]; [contradiction | reflexivity].
  - destruct (String.eqb_spec k' name) as [-> | Hne]; simpl.
    + destruct (String.eqb_spec name k) as [-> | _]; [contradiction|].
      apply get_delete_other. exact Hk.
    + rewrite IH. reflexivity.
Qed.

(** What [forEach] leaves of the listed parameters. *)
Lemma get_preserve (searchParams : t) (k : string) (keys : list string) :
  forall acc,
    get k
      (fold_left
         (fun params key =>
            match get key searchParams with
            | Some (String c v) => set key (String c v) params
            | Some EmptyString | None => params
            end)
         keys acc)
    = match Views.truthy (get k searchParams) with
      | Some v => if existsb (String.eqb k) keys then Some v else get k acc
      | None => get k acc
      end.
Proof.
  induction keys as [|key keys IH]; intros acc; simpl.
  - destruct (Views.truthy (get k searchParams)); reflexivity.
  - rewrite IH.
    destruct (String.eqb_spec k key) as [-> | Hne].
    + destruct (get key searchParams) as [[|c v]|]; simpl; try reflexivity.
      destruct (existsb (String.eqb key) keys); [reflexivity|].
      apply get_set.
    + destruct (get k searchParams) as [[|c v]|] eqn:Ek; simpl;
        destruct (get key searchParams) as [[|c' v']|]; simpl; try reflexivity;
        rewrite ?(get_set_other _ _ _ _ Hne); reflexivity.
Qed.

End URLSearchParamsLookups.

(** ** The links of the pager *)

Section PagerProperties.
Import Js JsMath Pagination PaginationMeta Pager.

Lemma set_not_nil (name value : string) (ps : URLSearchParams.t) :
  URLSearchParams.set name value ps <> [].
Proof. destruct ps as [|[k v] ps]; simpl; [|destruct (String.eqb k name)]; discriminate. Qed.

Lemma toString_not_empty (ps : URLSearchParams.t) :
  ps <> [] -> exists c r, URLSearchParams.toString ps = String c r.
Proof.
  intros Hps.
  destruct (URLSearchParams.toString ps) as [|c r] eqn:E; [|eauto].
  exfalso. apply Hps.
  rewrite <- (parse_pairs_toString ps), E. reflexivity.
Qed.

Lemma with_query_set (baseUrl name value : string) (ps : URLSearchParams.t) :
  with_query baseUrl (URLSearchParams.toString (URLSearchParams.set name value ps))
  = baseUrl ++ "?" ++ URLSearchParams.toString (URLSearchParams.set name value ps).
Proof.
  destruct (toString_not_empty _ (set_not_nil name value ps)) as (c & r & ->).
  reflexivity.
Qed.

Lemma parseInt_param (n : JsNumber) (fallback : string) :
  safe n -> parseInt (or_else (Some (to_String n)) fallback) = n.
Proof.
  intros Hn.
  destruct (to_String_nonempty n Hn) as (c & r & E).
  rewrite E. simpl. rewrite <- E. apply parseInt_to_String, Hn.
Qed.

Lemma max_1_Num (z : Z) : Js.max (Num 1) (Num z) = Num (Z.max 1 z).
Proof. reflexivity. Qed.

Lemma createPageParams_limit (searchParams : URLSearchParams.t)
    (keys : list string) (itemsPerPage page : JsNumber) :
  itemsPerPage <> Num 20 ->
  createPageParams searchParams keys itemsPerPage page
  = URLSearchParams.set "limit" (to_String itemsPerPage)
      (URLSearchParams.set "page" (to_String page) (preserve searchParams keys)).
Proof.
  intros Hne. unfold createPageParams.
  repeat match goal with
         | |- context [match ?x with _ => _ end] =>
             is_var x; destruct x
         end;
    congruence.
Qed.

Lemma get_preserve_absent (searchParams : URLSearchParams.t)
    (keys : list string) (k : string) :
  existsb (String.eqb k) keys = false ->
  URLSearchParams.get k (preserve searchParams keys) = None.
Proof.
  intros Hk. unfold preserve. rewrite get_preserve, Hk.
  destruct (Views.truthy _); reflexivity.
Qed.

(** X1: the link to page [page] of a pager showing [itemsPerPage] rows a
    page, each [NaN] or a safe integer, read back by
    [parsePaginationParams], is that page and that page size; it keeps
    the listed parameters that have a value and drops the others. *)
Theorem createPageUrl_parsed (basePath : string)
    (searchParams : URLSearchParams.t) (keys : list string)
    (itemsPerPage page : JsNumber) :
  existsb (String.eqb "limit") keys = false ->
  safe itemsPerPage -> safe page ->
  let params := createPageParams searchParams keys itemsPerPage page in
  createPageUrl basePath searchParams keys itemsPerPage page
  = basePath ++ "?" ++ URLSearchParams.toString params
  /\ parsePaginationParams
       (URLSearchParams.parse ("?" ++ URLSearchParams.toString params))
     = {| Pagination.page := Js.max (Num 1) page;
          Pagination.limit := Js.max (Num 1) itemsPerPage |}
  /\ forall k, k <> "page" -> k <> "limit" ->
       URLSearchParams.get k params
       = if existsb (String.eqb k) keys
         then Views.truthy (URLSearchParams.get k searchParams)
         else None.
Proof.
  intros Hlimit Hsize Hpage params.
  assert (forall k, k <> "page" -> k <> "limit" ->
            URLSearchParams.get k params
            = URLSearchParams.get k (preserve searchParams keys)) as Hother.
  { intros k Hp Hl. unfold params, createPageParams.
    repeat match goal with
           | |- context [match ?x with _ => _ end] => is_var x; destruct x
           end;
      rewrite ?(get_set_other "limit") by exact Hl;
      rewrite (get_set_other "page") by exact Hp; reflexivity. }
  split; [|split].
  - unfold createPageUrl. fold params. unfold params, createPageParams.
    repeat match goal with
           | |- context [match ?x with _ => _ end] => is_var x; destruct x
           end;
      apply with_query_set.
  - rewrite parse_query. unfold parsePaginationParams. f_equal.
    + assert (URLSearchParams.get "page" params = Some (to_String page)) as ->.
      { unfold params, createPageParams.
        repeat match goal with
               | |- context [match ?x with _ => _ end] => is_var x; destruct x
               end;
          rewrite ?(get_set_other "limit") by discriminate; apply get_set. }
      rewrite parseInt_param by exact Hpage. reflexivity.
    + assert (itemsPerPage = Num 20 \/ itemsPerPage <> Num 20) as [-> | Hne].
      { destruct itemsPerPage as [|?|z]; [right; discriminate..|].
        destruct (Z.eq_dec z 20) as [-> | Hz]; [left; reflexivity | right; congruence]. }
      * unfold params, createPageParams.
        rewrite (get_set_other "page") by discriminate.
        rewrite (get_preserve_absent _ _ _ Hlimit). reflexivity.
      * unfold params. rewrite (createPageParams_limit _ _ _ _ Hne), get_set.
        rewrite parseInt_param by exact Hsize. reflexivity.
  - intros k Hp Hl. rewrite (Hother k Hp Hl).
    unfold preserve. rewrite get_preserve.
    destruct (Views.truthy (URLSearchParams.get k searchParams));
      destruct (existsb (String.eqb k) keys); reflexivity.
Qed.

Lemma createPageUrl_parsed_witness :
  let params :=
    createPageParams [("q", "a b"); ("page", "7"); ("status", "")]
      ["q"; "status"] (Num 50) (Num 3) in
  parsePaginationParams
    (URLSearchParams.parse ("?" ++ URLSearchParams.toString params))
  = {| Pagination.page := Num 3; Pagination.limit := Num 50 |}.
Proof.
  exact (proj1 (proj2 (createPageUrl_parsed "/dashboard/clients"
                         [("q", "a b"); ("page", "7"); ("status", "")]
                         ["q"; "status"] (Num 50) (Num 3) eq_refl
                         ltac:(simpl; lia) ltac:(simpl; lia)))).
Defined.

(** X2: the link that changes the page size, to [NaN] or a safe
    integer, goes to page 1 with that size. *)
Theorem createLimitUrl_parsed (basePath : string)
    (searchParams : URLSearchParams.t) (keys : list string) (limit : JsNumber) :
  safe limit ->
  let params := createLimitParams searchParams keys limit in
  createLimitUrl basePath searchParams keys limit
  = basePath ++ "?" ++ URLSearchParams.toString params
  /\ parsePaginationParams
       (URLSearchParams.parse ("?" ++ URLSearchParams.toString params))
     = {| Pagination.page := Num 1; Pagination.limit := Js.max (Num 1) limit |}.
Proof.
  intros Hlimit params. split.
  - apply with_query_set.
  - rewrite parse_query. unfold parsePaginationParams, params, createLimitParams.
    rewrite get_set, (get_set_other "limit") by discriminate.
    rewrite get_set, parseInt_param by exact Hlimit. reflexivity.
Qed.

Lemma createLimitUrl_parsed_witness :
  let params := createLimitParams [("q", "a b"); ("page", "7")] ["q"] (Num 50) in
  createLimitUrl "/dashboard/invoices" [("q", "a b"); ("page", "7")] ["q"] (Num 50)
  = "/dashboard/invoices" ++ "?" ++ URLSearchParams.toString params
  /\ parsePaginationParams
       (URLSearchParams.parse ("?" ++ URLSearchParams.toString params))
     = {| Pagination.page := Num 1; Pagination.limit := Js.max (Num 1) (Num 50) |}.
Proof.
  apply (createLimitUrl_parsed "/dashboard/invoices" [("q", "a b"); ("page", "7")]
           ["q"] (Num 50)).
  simpl. lia.
Defined.

(** X3: [createPaginationUrl] changes the page and the page size it is
    given, each [NaN] or a safe integer and read back as it was passed,
    and no other parameter. *)
Theorem createPaginationUrl_parsed (searchParams : URLSearchParams.t)
    (updates : Updates) :
  default True (safe <$> update_page updates) ->
  default True (safe <$> update_limit updates) ->
  let params := createPaginationParams searchParams updates in
  let parsed :=
    parsePaginationParams
      (URLSearchParams.parse ("?" ++ URLSearchParams.toString params)) in
  Pagination.page parsed
  = match update_page updates with
    | Some page => Js.max (Num 1) page
    | None => Pagination.page (parsePaginationParams searchParams)
    end
  /\ Pagination.limit parsed
     = match update_limit updates with
       | Some limit => Js.max (Num 1) limit
       | None => Pagination.limit (parsePaginationParams searchParams)
       end
  /\ forall k, k <> "page" -> k <> "limit" ->
       URLSearchParams.get k params = URLSearchParams.get k searchParams.
Proof.
  intros Hpage Hlimit params parsed. unfold parsed. rewrite parse_query.
  unfold params, createPaginationParams, parsePaginationParams.
  destruct updates as [[page|] [limit|]]; cbn [update_page update_limit
    Pagination.page Pagination.limit URLSearchParams.copy];
    cbn [update_page update_limit fmap option_fmap option_map default] in Hpage, Hlimit;
    repeat split;
    try (intros k Hp Hl);
    rewrite ?get_set, ?(get_set_other "limit" _ "page") by discriminate;
    rewrite ?(get_set_other "page" _ "limit") by discriminate;
    rewrite ?get_set, ?parseInt_param by assumption;
    rewrite ?(get_set_other "limit" _ k) by exact Hl;
    rewrite ?(get_set_other "page" _ k) by exact Hp;
    reflexivity.
Qed.

Lemma createPaginationUrl_parsed_witness :
  let params :=
    createPaginationParams [("q", "ink"); ("page", "2")]
      {| update_page := Some (Num 4); update_limit := None |} in
  let parsed :=
    parsePaginationParams
      (URLSearchParams.parse ("?" ++ URLSearchParams.toString params)) in
  Pagination.page parsed = Js.max (Num 1) (Num 4)
  /\ Pagination.limit parsed
     = Pagination.limit (parsePaginationParams [("q", "ink"); ("page", "2")])
  /\ forall k, k <> "page" -> k <> "limit" ->
       URLSearchParams.get k params
       = URLSearchParams.get k [("q", "ink"); ("page", "2")].
Proof.
  apply (createPaginationUrl_parsed [("q", "ink"); ("page", "2")]
           {| update_page := Some (Num 4); update_limit := None |}).
  - simpl. lia.
  - exact I.
Defined.

End PagerProperties.

(** ** Pagination metadata *)

Section PaginationMetaProperties.
Import Js JsMath Pagination PaginationMeta.
#[local] Open Scope list_scope.

Lemma ceil_div_bounds (t l : Z) :
  0 < l -> (- (- t / l) - 1) * l < t <= - (- t / l) * l.
Proof.
  intros Hl.
  pose proof (Z.div_mod (- t) l ltac:(lia)) as Hdm.
  pose proof (Z.mod_pos_bound (- t) l Hl) as Hmod.
  nia.
Qed.

Lemma ceil_unique (m E c : Z) :
  0 < E -> (c - 1) * E < m <= c * E -> - (- m / E) = c.
Proof.
  intros HE Hm.
  pose proof (ceil_div_bounds m E HE) as Hb.
  nia.
Qed.

(** The exponent that [div_round] works with leaves [b] below twice the
    scale. *)
Lemma div_round_scale (a b : Z) :
  0 < a < 2 ^ 53 -> 0 < b < 2 ^ 53 ->
  let l0 := Z.log2 a - Z.log2 b in
  let below := if 0 <=? l0 then a <? b * 2 ^ l0 else a * 2 ^ (- l0) <? b in
  let l := if below then l0 - 1 else l0 in
  -53 <= l <= 52 /\ b < 2 * 2 ^ (52 - l).
Proof.
  intros Ha Hb l0 below l.
  pose proof (Z.log2_spec a ltac:(lia)) as Hla.
  pose proof (Z.log2_spec b ltac:(lia)) as Hlb.
  pose proof (Z.log2_nonneg a) as Hna.
  pose proof (Z.log2_nonneg b) as Hnb.
  assert (Z.log2 a < 53) as Hua by (apply Z.log2_lt_pow2; lia).
  assert (Z.log2 b < 53) as Hub by (apply Z.log2_lt_pow2; lia).
  assert (-53 <= l <= 52) as Hl by (unfold l, l0; destruct below; lia).
  split; [exact Hl|].
  replace (2 * 2 ^ (52 - l)) with (2 ^ (53 - l))
    by (replace (53 - l) with (Z.succ (52 - l)) by lia;
        rewrite Z.pow_succ_r by lia; reflexivity).
  destruct (Z.le_gt_cases l 0) as [Hneg | Hpos].
  - apply Z.lt_le_trans with (2 ^ 53); [lia|].
    apply Z.pow_le_mono_r; lia.
  - assert (b * 2 ^ l <= a) as Hscaled.
    { unfold l, below in *.
      destruct (Z.leb_spec 0 l0) as [H0 | H0].
      - destruct (Z.ltb_spec a (b * 2 ^ l0)) as [Hlt | Hge]; [|exact Hge].
        apply Z.le_trans with (2 ^ Z.log2 a); [|lia].
        replace (Z.log2 a) with (Z.succ (Z.log2 b) + (l0 - 1)) by (unfold l0; lia).
        rewrite Z.pow_add_r by lia.
        apply Z.mul_le_mono_nonneg_r; [apply Z.pow_nonneg; lia | lia].
      - destruct (a * 2 ^ (- l0) <? b); lia. }
    assert (2 ^ 53 = 2 ^ l * 2 ^ (53 - l)) as Hsplit
      by (rewrite <- Z.pow_add_r by lia; f_equal; lia).
    assert (0 < 2 ^ l) as Hpl by (apply Z.pow_pos_nonneg; lia).
    nia.
Qed.

Lemma div_round_ceil (a b : Z) :
  0 < a < 2 ^ 53 -> 0 < b < 2 ^ 53 ->
  (let '(m, e) := div_round a b in ceil_scaled false m e) = - (- a / b).
Proof.
  intros Ha Hb.
  destruct (div_round_scale a b Ha Hb) as [Hl Hscale].
  unfold div_round. cbv zeta in *.
  set (l := if (if 0 <=? Z.log2 a - Z.log2 b
                then a <? b * 2 ^ (Z.log2 a - Z.log2 b)
                else a * 2 ^ (- (Z.log2 a - Z.log2 b)) <? b)
            then Z.log2 a - Z.log2 b - 1 else Z.log2 a - Z.log2 b) in *.
  replace (Z.max (l - 52) (-1074)) with (l - 52) by lia.
  set (E := 2 ^ (52 - l)) in *.
  assert (0 < E) as HE by (apply Z.pow_pos_nonneg; lia).
  assert ((if l - 52 <? 0 then a * 2 ^ (- (l - 52)) else a) = a * E) as ->.
  { destruct (Z.ltb_spec (l - 52) 0) as [Hlt | Hge].
    - unfold E. do 2 f_equal. lia.
    - unfold E. replace (52 - l) with 0 by lia. lia. }
  assert ((if l - 52 <? 0 then b else b * 2 ^ (l - 52)) = b) as ->.
  { destruct (Z.ltb_spec (l - 52) 0) as [Hlt | Hge]; [reflexivity|].
    replace (l - 52) with 0 by lia. lia. }
  set (q := a * E / b). set (r := (a * E) mod b).
  pose proof (Z.div_mod (a * E) b ltac:(lia)) as Hdm. fold q r in Hdm.
  pose proof (Z.mod_pos_bound (a * E) b ltac:(lia)) as Hr. fold r in Hr.
  pose proof (ceil_div_bounds a b ltac:(lia)) as Hc.
  set (c := - (- a / b)) in *.
  set (up := (b <? 2 * r) || (2 * r =? b) && Z.odd q).
  assert ((c - 1) * E < (if up then q + 1 else q) <= c * E) as Hm.
  { assert (q <= c * E) as Hqc by nia.
    assert ((c - 1) * E <= q) as Hcq by nia.
    destruct up eqn:Hup.
    - split; [lia|].
      destruct (Z.eq_dec q (c * E)) as [Heq | Hne]; [|lia].
      exfalso. assert (r = 0) as Hr0 by nia.
      unfold up in Hup. rewrite Hr0 in Hup.
      destruct (Z.ltb_spec b (2 * 0)); [lia|].
      destruct (Z.eqb_spec (2 * 0) b); [lia|]. discriminate Hup.
    - split; [|lia].
      destruct (Z.eq_dec q ((c - 1) * E)) as [Heq | Hne]; [|lia].
      exfalso. assert (E <= r) as HrE by nia.
      unfold up in Hup.
      destruct (Z.ltb_spec b (2 * r)); [discriminate Hup | lia]. }
  unfold ceil_scaled.
  destruct (Z.leb_spec 0 (l - 52)) as [Hge | Hlt].
  - replace (l - 52) with 0 by lia.
    assert (E = 1) as HE1 by (unfold E; replace (52 - l) with 0 by lia; reflexivity).
    rewrite HE1 in Hm. rewrite Z.pow_0_r. lia.
  - replace (- (l - 52)) with (52 - l) by lia. fold E.
    apply ceil_unique; assumption.
Qed.

Lemma ceil_div_exact (t l : Z) :
  0 <= t < 2 ^ 53 -> 1 <= l < 2 ^ 53 ->
  ceil_div (Num t) (Num l) = Num (- (- t / l)).
Proof.
  intros Ht Hl. unfold ceil_div.
  destruct (Z.eqb_spec l 0) as [E | _]; [lia|].
  destruct (Z.eqb_spec t 0) as [-> | Hne]; [reflexivity|].
  rewrite !Z.abs_eq by lia.
  destruct (Z.ltb_spec t 0) as [E | _]; [lia|].
  destruct (Z.ltb_spec l 0) as [E | _]; [lia|].
  cbn [xorb].
  pose proof (div_round_ceil t l ltac:(lia) ltac:(lia)) as H.
  destruct (div_round t l) as [m e]. rewrite H. reflexivity.
Qed.

(** A result that is not negative rounds to a number that is not
    negative, or overflows. *)
Lemma round_nonneg (z : Z) :
  0 <= z -> round z = Inf false \/ exists v, round z = Num v /\ 0 <= v.
Proof.
  intros Hz. unfold round. cbv zeta. rewrite Z.abs_eq by exact Hz.
  destruct (Z.ltb_spec z (2 ^ 53)) as [Hs | Hl]; [right; eauto|].
  destruct (Z.ltb_spec z 0) as [Hneg | _]; [lia|].
  match goal with |- context [2 ^ 1024 <=? ?w] => set (v := w) end.
  destruct (2 ^ 1024 <=? v); [left; reflexivity | right].
  exists v. split; [reflexivity|].
  assert (0 <= Z.log2 z - 52) as He.
  { pose proof (Z.log2_le_mono (2 ^ 53) z Hl) as H.
    rewrite Z.log2_pow2 in H by lia. lia. }
  assert (0 < 2 ^ (Z.log2 z - 52)) as Hp by (apply Z.pow_pos_nonneg; lia).
  pose proof (Z.div_pos z (2 ^ (Z.log2 z - 52)) Hz Hp) as Hq.
  unfold v. apply Z.mul_nonneg_nonneg; [|lia].
  destruct (_ || _); lia.
Qed.

(** A double from [2 ^ 53] on is a multiple of the spacing around it. *)
Lemma is_double_large (p : Z) :
  2 ^ 53 <= p -> is_double p = true ->
  p < 2 ^ 1024 /\ exists k, p = k * 2 ^ (Z.log2 p - 52).
Proof.
  intros Hp. unfold is_double, round. cbv zeta. rewrite Z.abs_eq by lia.
  destruct (Z.ltb_spec p (2 ^ 53)) as [Hlt | _]; [lia|].
  destruct (Z.ltb_spec p 0) as [Hneg | _]; [lia|].
  match goal with |- context [2 ^ 1024 <=? ?w] => set (v := w) end.
  destruct (Z.leb_spec (2 ^ 1024) v) as [Hinf | Hfin]; [discriminate|].
  intros Hv. apply Z.eqb_eq in Hv. split; [lia|].
  unfold v in Hv. eexists. symmetry. exact Hv.
Qed.

(** The number before a double that is at least 1 does not overflow. *)
Lemma round_pred_finite (p : Z) :
  1 <= p -> is_double p = true -> exists v, round (p - 1) = Num v /\ 0 <= v.
Proof.
  intros Hp Hd.
  destruct (round_nonneg (p - 1) ltac:(lia)) as [Hinf | Hfin]; [|exact Hfin].
  exfalso. revert Hinf.
  destruct (Z.lt_ge_cases (p - 1) (2 ^ 53)) as [Hs | Hl].
  { rewrite round_small by lia. discriminate. }
  destruct (is_double_large p ltac:(lia) Hd) as (Hmax & k & Hk).
  unfold round. cbv zeta. rewrite Z.abs_eq by lia.
  destruct (Z.ltb_spec (p - 1) (2 ^ 53)) as [Hlt | _]; [lia|].
  set (e' := Z.log2 (p - 1) - 52).
  assert (0 <= e') as He'.
  { unfold e'. pose proof (Z.log2_le_mono (2 ^ 53) (p - 1) Hl) as H.
    rewrite Z.log2_pow2 in H by lia. lia. }
  assert (e' <= Z.log2 p - 52) as Hee
    by (unfold e'; pose proof (Z.log2_le_mono (p - 1) p ltac:(lia)); lia).
  assert (0 < 2 ^ e') as Hpe by (apply Z.pow_pos_nonneg; lia).
  assert (exists k', p = k' * 2 ^ e') as (k' & Hk').
  { exists (k * 2 ^ (Z.log2 p - 52 - e')).
    rewrite <- Z.mul_assoc, <- Z.pow_add_r by lia.
    replace (Z.log2 p - 52 - e' + e') with (Z.log2 p - 52) by lia. exact Hk. }
  pose proof (Z.div_mod (p - 1) (2 ^ e') ltac:(lia)) as Hdm.
  pose proof (Z.mod_pos_bound (p - 1) (2 ^ e') Hpe) as Hr.
  set (q := (p - 1) / 2 ^ e') in *.
  assert (q + 1 <= k') as Hqk by nia.
  match goal with |- context [2 ^ 1024 <=? ?w] => set (v := w) end.
  assert (v <= p) as Hvp.
  { apply Z.le_trans with (k' * 2 ^ e'); [|lia].
    unfold v. apply Z.mul_le_mono_nonneg_r; [lia|].
    destruct (_ || _); lia. }
  destruct (Z.leb_spec (2 ^ 1024) v) as [Hinf | _]; [lia | discriminate].
Qed.

(** X4: with a page size of at least one, and numbers below [2 ^ 53], the
    number of pages is the least that holds all the items (one page when
    there are none), the current page is the requested one brought into
    1..totalPages, and the two flags tell whether it has a neighbour. *)
Theorem calculatePaginationMeta_pages (t p l : Z) :
  0 <= t < 2 ^ 53 -> 1 <= l < 2 ^ 53 ->
  exists tp cp,
    totalPages (calculatePaginationMeta (int t) (int p) (int l)) = int tp
    /\ currentPage (calculatePaginationMeta (int t) (int p) (int l)) = int cp
    /\ (tp - 1) * l < Z.max 1 t <= tp * l
    /\ 1 <= cp <= tp
    /\ (1 <= p <= tp -> cp = p)
    /\ (p < 1 -> cp = 1)
    /\ (tp < p -> cp = tp)
    /\ hasNextPage (calculatePaginationMeta (int t) (int p) (int l)) = (cp <? tp)
    /\ hasPreviousPage (calculatePaginationMeta (int t) (int p) (int l)) = (1 <? cp).
Proof.
  intros Ht Hl.
  unfold calculatePaginationMeta.
  cbn [totalPages currentPage hasNextPage hasPreviousPage].
  rewrite (ceil_div_exact t l Ht Hl).
  cbn [Js.max Js.min ltb gtb].
  eexists _, _.
  pose proof (ceil_div_bounds t l ltac:(lia)) as Hceil.
  repeat split; try reflexivity; try lia; nia.
Qed.

Lemma calculatePaginationMeta_pages_witness :
  exists tp cp,
    totalPages (calculatePaginationMeta (int 45) (int 9) (int 20)) = int tp
    /\ currentPage (calculatePaginationMeta (int 45) (int 9) (int 20)) = int cp
    /\ (tp - 1) * 20 < Z.max 1 45 <= tp * 20
    /\ 1 <= cp <= tp
    /\ (1 <= 9 <= tp -> cp = 9)
    /\ (9 < 1 -> cp = 1)
    /\ (tp < 9 -> cp = tp)
    /\ hasNextPage (calculatePaginationMeta (int 45) (int 9) (int 20)) = (cp <? tp)
    /\ hasPreviousPage (calculatePaginationMeta (int 45) (int 9) (int 20)) = (1 <? cp).
Proof. apply (calculatePaginationMeta_pages 45 9 20); lia. Defined.

(** X5: on a page that exists, with [totalItems + itemsPerPage] below
    [2 ^ 53], the items shown are those of the range that the loader asks
    the database for, as far as there are items. *)
Theorem calculatePaginationMeta_range (t p l : Z) :
  0 < t -> 1 <= l -> t + l < 2 ^ 53 ->
  currentPage (calculatePaginationMeta (int t) (int p) (int l)) = int p ->
  exists s e,
    startIndex (calculatePaginationMeta (int t) (int p) (int l)) = int s
    /\ endIndex (calculatePaginationMeta (int t) (int p) (int l)) = int e
    /\ 0 <= s <= e /\ e < t /\ e - s < l
    /\ forall i,
         s <= i <= e
         <-> In i (indices (getSupabaseRange (Num p) (Num l))) /\ i < t.
Proof.
  intros Ht Hl Htl.
  unfold calculatePaginationMeta.
  cbn [currentPage startIndex endIndex].
  rewrite (ceil_div_exact t l ltac:(lia) ltac:(lia)).
  cbn [Js.max Js.min].
  intros Hp. injection Hp as Hp. rewrite Hp.
  pose proof (ceil_div_bounds t l ltac:(lia)) as Hceil.
  assert (1 <= p <= - (- t / l)) as Hrange by lia.
  assert ((p - 1) * l <= (- (- t / l) - 1) * l) as Hstart
    by (apply Z.mul_le_mono_nonneg_r; lia).
  assert (0 <= (p - 1) * l) as Hnonneg by nia.
  assert (p * l < 2 ^ 53) as Hpl by nia.
  assert (p < 2 ^ 53) as Hp53 by nia.
  cbn [Js.sub]. rewrite (round_small (p - 1)) by lia.
  cbn [Js.mul]. rewrite (round_small ((p - 1) * l)) by lia.
  cbn [Js.add]. rewrite (round_small ((p - 1) * l + l)) by lia.
  rewrite (round_small (t - 1)) by lia.
  cbn [Js.sub]. rewrite (round_small ((p - 1) * l + l - 1)) by lia.
  cbn [Js.min].
  eexists _, _. split; [reflexivity|]. split; [reflexivity|].
  split; [lia|]. split; [lia|]. split; [lia|].
  intros i. rewrite getSupabaseRange_Num, indices_spec by lia. lia.
Qed.

Lemma calculatePaginationMeta_range_witness :
  exists s e,
    startIndex (calculatePaginationMeta (int 45) (int 3) (int 20)) = int s
    /\ endIndex (calculatePaginationMeta (int 45) (int 3) (int 20)) = int e
    /\ 0 <= s <= e /\ e < 45 /\ e - s < 20
    /\ forall i,
         s <= i <= e
         <-> In i (indices (getSupabaseRange (Num 3) (Num 20))) /\ i < 45.
Proof.
  apply (calculatePaginationMeta_range 45 3 20); [lia | lia | lia | reflexivity].
Defined.

(** X6: a page size that is 0 or [NaN] is not refused: with 0 there are
    infinitely many pages, every page has a next one and shows no item;
    with [NaN] every number of the metadata is [NaN] and neither flag is
    set.  The page asked for is any double. *)
Theorem calculatePaginationMeta_no_page_size (t p : Z) :
  0 < t -> is_double p = true ->
  calculatePaginationMeta (int t) (int p) (int 0)
  = {| currentPage := int (Z.max 1 p);
       totalPages := inf false;
       totalItems := int t;
       itemsPerPage := int 0;
       hasNextPage := true;
       hasPreviousPage := 1 <? Z.max 1 p;
       startIndex := int 0;
       endIndex := int (-1) |}
  /\ calculatePaginationMeta (int t) (int p) nan
     = {| currentPage := nan;
          totalPages := nan;
          totalItems := int t;
          itemsPerPage := nan;
          hasNextPage := false;
          hasPreviousPage := false;
          startIndex := nan;
          endIndex := nan |}.
Proof.
  intros Ht Hp. split; [|reflexivity].
  unfold calculatePaginationMeta, ceil_div.
  change (0 =? 0) with true. cbv beta iota.
  destruct (Z.eqb_spec t 0) as [E | _]; [lia|].
  destruct (Z.ltb_spec t 0) as [E | _]; [lia|].
  cbn [Js.max Js.min Js.sub ltb gtb negb].
  assert (is_double (Z.max 1 p) = true) as Hmax.
  { destruct (Z.max_spec 1 p) as [[_ ->] | [_ ->]]; [exact Hp | reflexivity]. }
  destruct (round_pred_finite (Z.max 1 p) ltac:(lia) Hmax) as (v & Hv & Hv0).
  rewrite Hv. cbn [Js.mul]. rewrite Z.mul_0_r.
  change (round 0) with (Num 0). cbn [Js.add]. change (round (0 + 0)) with (Num 0).
  cbn [Js.sub]. change (round (0 - 1)) with (Num (-1)).
  assert (Js.min (Num (-1)) (round (t - 1)) = Num (-1)) as ->.
  { destruct (round_nonneg (t - 1) ltac:(lia)) as [-> | (w & -> & Hw)];
      [reflexivity|].
    cbn [Js.min]. f_equal. lia. }
  reflexivity.
Qed.

Lemma calculatePaginationMeta_no_page_size_witness :
  totalPages (calculatePaginationMeta (int 45) (int 2) (int 0)) = inf false.
Proof.
  exact (f_equal totalPages
           (proj1 (calculatePaginationMeta_no_page_size 45 2 ltac:(lia) eq_refl))).
Defined.

End PaginationMetaProperties.

(** ** The page list of the pager *)

Section PageNumbersProperties.
Import Js JsMath PaginationMeta.
#[local] Open Scope list_scope.

#[local] Abbreviation pg := (fun i : Z => Page (Num i)).

Lemma from_to_nil (a b : Z) : b < a -> from_to a b = [].
Proof.
  intros H. unfold from_to.
  replace (Z.to_nat (b - a + 1)) with 0%nat by lia. reflexivity.
Qed.

Lemma from_to_cons (a b : Z) : a <= b -> from_to a b = a :: from_to (a + 1) b.
Proof.
  intros H. unfold from_to.
  replace (Z.to_nat (b - a + 1)) with (S (Z.to_nat (b - (a + 1) + 1))) by lia.
  cbn [seq map]. f_equal; [lia|].
  rewrite <- seq_shift, map_map. apply map_ext. intros k. lia.
Qed.

Lemma In_from_to (a b i : Z) : In i (from_to a b) <-> a <= i <= b.
Proof.
  unfold from_to. rewrite in_map_iff. split.
  - intros (k & <- & Hk). apply in_seq in Hk. lia.
  - intros Hi. exists (Z.to_nat (i - a)). split; [lia|]. apply in_seq. lia.
Qed.

Lemma from_to_length (a b : Z) :
  a <= b + 1 -> Z.of_nat (length (from_to a b)) = b - a + 1.
Proof. intros H. unfold from_to. rewrite length_map, length_seq. lia. Qed.

Lemma from_to_length_le (a b : Z) :
  Z.of_nat (length (from_to a b)) <= Z.max 0 (b - a + 1).
Proof. unfold from_to. rewrite length_map, length_seq. lia. Qed.

Lemma In_pg (i : Z) (l : list Z) : In (Page (Num i)) (map pg l) <-> In i l.
Proof.
  rewrite in_map_iff. split.
  - intros (j & Hj & Hi). injection Hj as <-. exact Hi.
  - intros Hi. exists i. split; [reflexivity | exact Hi].
Qed.

(** Below [2 ^ 53] the loop counts one by one and ends. *)
Lemma counted_exact (steps : nat) :
  forall i last : Z,
    0 <= i -> last < 2 ^ 53 - 1 -> last - i + 1 <= Z.of_nat steps ->
    counted steps i last = Some (from_to i last).
Proof.
  induction steps as [|steps IH]; intros i last Hi Hlast Hsteps.
  - cbn [counted]. destruct (Z.ltb_spec last i) as [_ | E]; [|lia].
    rewrite from_to_nil by lia. reflexivity.
  - cbn [counted]. destruct (Z.ltb_spec last i) as [Hdone | Hmore].
    + rewrite from_to_nil by lia. reflexivity.
    + rewrite round_small by lia.
      destruct (Z.leb_spec (i + 1) i) as [E | _]; [lia|].
      rewrite IH by lia. rewrite (from_to_cons i last) by lia. reflexivity.
Qed.

Lemma for_loop_exact (first last : Z) :
  0 <= first -> last < 2 ^ 53 - 1 -> last - first <= array_limit ->
  for_loop (Num first) (Num last) = Some (from_to first last).
Proof.
  intros Hf Hl Hlen. unfold for_loop. cbn [leb].
  destruct (Z.leb_spec first last) as [Hle | Hgt].
  - apply counted_exact; lia.
  - rewrite from_to_nil by lia. reflexivity.
Qed.

Lemma marks_gaps_run (n : nat) :
  forall (a b : Z) (rest : list PageItem),
    b - a = Z.of_nat n ->
    marks_gaps (map pg (from_to a b) ++ rest) = marks_gaps (Page (Num b) :: rest).
Proof.
  induction n as [|n IH]; intros a b rest Hn.
  - assert (a = b) as -> by lia.
    rewrite from_to_cons, from_to_nil by lia. reflexivity.
  - rewrite from_to_cons by lia.
    rewrite <- (IH (a + 1) b rest) by lia.
    rewrite (from_to_cons (a + 1) b) by lia.
    cbn [map app marks_gaps]. rewrite Z.eqb_refl. reflexivity.
Qed.

Lemma marks_gaps_from_to (a b : Z) (rest : list PageItem) :
  a <= b ->
  marks_gaps (map pg (from_to a b) ++ rest) = marks_gaps (Page (Num b) :: rest).
Proof. intros H. apply (marks_gaps_run (Z.to_nat (b - a))). lia. Qed.

(** The list when there are no more pages than [maxVisible]. *)
Lemma getPageNumbers_short (cp tp mv : Z) :
  tp <= mv -> mv < 2 ^ 31 ->
  getPageNumbers (Num cp) (Num tp) (Some (Num mv)) = Some (map pg (from_to 1 tp)).
Proof.
  intros Hshort Hmv. unfold getPageNumbers.
  change (default (Num 7) (Some (Num mv))) with (Num mv). cbv zeta. cbn [leb].
  destruct (Z.leb_spec tp mv) as [_ | E]; [|lia].
  unfold Array_from_length, array_limit.
  destruct (Z.ltb_spec (2 ^ 32 - 1) tp) as [E | _]; [lia | reflexivity].
Qed.

(** The list when there are more pages than [maxVisible]. *)
Lemma getPageNumbers_long (cp tp mv : Z) :
  3 <= mv < 2 ^ 31 -> mv < tp -> tp < 2 ^ 52 -> 1 <= cp <= tp ->
  exists s e,
    getPageNumbers (Num cp) (Num tp) (Some (Num mv))
    = Some ((Page (Num 1) :: (if 2 <? s then [Ellipsis] else []))
            ++ map pg (from_to s e)
            ++ (if e <? tp - 1 then [Ellipsis] else []) ++ [Page (Num tp)])
    /\ ((cp <= mv / 2 /\ s = Z.max 2 (cp - mv / 2) /\ e = mv - 1)
        \/ (mv / 2 < cp /\ tp - mv / 2 <= cp /\ s = tp - mv + 2
            /\ e = Z.min (tp - 1) (cp + mv / 2))
        \/ (mv / 2 < cp < tp - mv / 2 /\ s = Z.max 2 (cp - mv / 2)
            /\ e = Z.min (tp - 1) (cp + mv / 2))).
Proof.
  intros Hmv Hlong Htp Hcp.
  pose proof (Z.div_mod mv 2 ltac:(lia)) as Hdm.
  pose proof (Z.mod_pos_bound mv 2 ltac:(lia)) as Hmod.
  unfold getPageNumbers.
  change (default (Num 7) (Some (Num mv))) with (Num mv). cbv zeta.
  cbn [leb floor_half Js.sub Js.add geb gtb ltb].
  destruct (Z.leb_spec tp mv) as [E | _]; [lia|].
  rewrite (round_small (cp - mv / 2)), (round_small (tp - 1)),
    (round_small (cp + mv / 2)), (round_small (mv - 1)),
    (round_small (tp - mv / 2)), (round_small (tp - mv)) by lia.
  cbn [Js.max Js.min leb geb Js.add]. rewrite (round_small (tp - mv + 2)) by lia.
  destruct (Z.ltb_spec 1 tp) as [_ | E]; [|lia].
  destruct (Z.leb_spec cp (mv / 2)) as [Hlow | Hlow];
    [|destruct (Z.leb_spec (tp - mv / 2) cp) as [Hhigh | Hhigh]];
    eexists _, _; (split; [|eauto 10 with lia]);
    rewrite for_loop_exact by (unfold array_limit; lia);
    cbn [ltb gtb];
    match goal with
    | |- context [from_to ?s ?e] => pose proof (from_to_length_le s e) as Hlen
    end;
    repeat match goal with
           | |- context [if ?a <? ?b then _ else _] =>
               lazymatch a with
               | array_limit => fail
               | _ => destruct (a <? b)
               end
           end;
    rewrite !length_app, length_map; cbn [length app];
    (match goal with
     | |- context [array_limit <? ?n] =>
         destruct (Z.ltb_spec array_limit n) as [E | _];
         [unfold array_limit in E; lia|]
     end);
    rewrite <- ?app_assoc; reflexivity.
Qed.

(** X7: for at most [2 ^ 52] pages, the call returns a page list that
    starts with page 1, ends with the last page, holds the current page,
    and is marked honestly: numbers that stand side by side are
    consecutive and an ellipsis stands exactly where pages are left
    out. *)
Theorem getPageNumbers_marks (cp tp : Z) (maxVisible : option Z) :
  3 <= default 7 maxVisible < 2 ^ 31 -> 1 <= cp <= tp -> tp < 2 ^ 52 ->
  exists pages,
    getPageNumbers (Num cp) (Num tp) (Num <$> maxVisible) = Some pages
    /\ marks_gaps pages = true
    /\ head pages = Some (Page (Num 1))
    /\ last pages = Some (Page (Num tp))
    /\ In (Page (Num cp)) pages
    /\ forall i, In (Page (Num i)) pages -> 1 <= i <= tp.
Proof.
  intros Hmv Hcp Htp.
  assert (getPageNumbers (Num cp) (Num tp) (Num <$> maxVisible)
          = getPageNumbers (Num cp) (Num tp) (Some (Num (default 7 maxVisible)))) as ->
    by (destruct maxVisible; reflexivity).
  generalize dependent (default 7 maxVisible). clear maxVisible. intros mv Hmv.
  destruct (Z.le_gt_cases tp mv) as [Hshort | Hlong].
  - rewrite getPageNumbers_short by lia. eexists. split; [reflexivity|].
    split; [|split; [|split; [|split]]].
    + rewrite <- (app_nil_r (map pg (from_to 1 tp))).
      rewrite marks_gaps_from_to by lia. reflexivity.
    + rewrite from_to_cons by lia. reflexivity.
    + destruct (Z.eq_dec tp 1) as [-> | Hne]; [reflexivity|].
      assert (from_to 1 tp = from_to 1 (tp - 1) ++ [tp]) as ->.
      { unfold from_to.
        replace (Z.to_nat (tp - 1 + 1)) with (Z.to_nat (tp - 1 - 1 + 1) + 1)%nat by lia.
        rewrite seq_app, map_app. cbn [seq map]. do 2 f_equal. lia. }
      rewrite map_app. apply last_snoc.
    + apply In_pg, In_from_to. lia.
    + intros i Hi. apply In_pg, In_from_to in Hi. exact Hi.
  - destruct (getPageNumbers_long cp tp mv Hmv Hlong Htp Hcp) as (s & e & -> & Hcase).
    eexists. split; [reflexivity|].
    pose proof (Z.div_mod mv 2 ltac:(lia)) as Hdm.
    pose proof (Z.mod_pos_bound mv 2 ltac:(lia)) as Hmod.
    assert (s <= e /\ 2 <= s /\ e <= tp - 1
            /\ (cp = 1 \/ cp = tp \/ s <= cp <= e)) as (Hse & Hs & He & Hin) by lia.
    split; [|split; [|split; [|split]]].
    + assert (marks_gaps
                (map pg (from_to s e)
                 ++ (if e <? tp - 1 then [Ellipsis] else []) ++ [Page (Num tp)]) = true)
        as Hrun.
      { rewrite marks_gaps_from_to by exact Hse.
        destruct (Z.ltb_spec e (tp - 1)) as [Hgap | Hnone]; cbn [app marks_gaps].
        - destruct (Z.ltb_spec (e + 1) tp); [reflexivity | lia].
        - destruct (Z.eqb_spec tp (e + 1)); [reflexivity | lia]. }
      destruct (Z.ltb_spec 2 s) as [Hgap | Hnone]; cbn [app].
      * rewrite (from_to_cons s e) in * by exact Hse. cbn [map app] in *.
        cbn [marks_gaps]. cbn [marks_gaps] in Hrun.
        destruct (Z.ltb_spec (1 + 1) s); [exact Hrun | lia].
      * assert (s = 2) as -> by lia.
        change (Page (Num 1) :: map pg (from_to 2 e) ++ ?r)
          with (map pg (1 :: from_to (1 + 1) e) ++ r).
        rewrite <- from_to_cons by lia.
        rewrite marks_gaps_from_to by lia.
        rewrite marks_gaps_from_to in Hrun by lia. exact Hrun.
    + reflexivity.
    + rewrite !app_assoc. apply last_snoc.
    + destruct Hin as [-> | [-> | Hin]].
      * left. reflexivity.
      * rewrite !app_assoc. apply in_or_app. right. left. reflexivity.
      * apply in_or_app. right. apply in_or_app. left.
        apply In_pg, In_from_to. exact Hin.
    + intros i Hi.
      apply in_app_or in Hi. destruct Hi as [Hi | Hi].
      * destruct Hi as [Hi | Hi]; [injection Hi as <-; lia|].
        destruct (2 <? s); [destruct Hi as [Hi | []]; discriminate | destruct Hi].
      * apply in_app_or in Hi. destruct Hi as [Hi | Hi].
        -- apply In_pg, In_from_to in Hi. lia.
        -- apply in_app_or in Hi. destruct Hi as [Hi | Hi].
           ++ destruct (e <? tp - 1); [destruct Hi as [Hi | []]; discriminate | destruct Hi].
           ++ destruct Hi as [Hi | []]. injection Hi as <-. lia.
Qed.

Lemma getPageNumbers_marks_witness :
  exists pages,
    getPageNumbers (Num 10) (Num 20) (Num <$> None) = Some pages
    /\ marks_gaps pages = true
    /\ head pages = Some (Page (Num 1))
    /\ last pages = Some (Page (Num 20))
    /\ In (Page (Num 10)) pages
    /\ forall i, In (Page (Num i)) pages -> 1 <= i <= 20.
Proof. apply (getPageNumbers_marks 10 20 None); simpl; lia. Defined.

(** From [2 ^ 53] on, [i++] leaves [i] as it is and the loop over the
    middle pages does not end: the call returns no list. *)
Lemma getPageNumbers_stalls :
  is_double (2 ^ 53) = true /\ is_double (2 ^ 53 + 4) = true
  /\ getPageNumbers (Num (2 ^ 53)) (Num (2 ^ 53 + 4)) None = None.
Proof. repeat split; vm_compute; reflexivity. Qed.

End PageNumbersProperties.

(** ** Filters: toggles, the badge count and the filter bar *)

(** Reads of a parameter through [set] and [delete] on concrete names. *)
Ltac lookup :=
  repeat first
    [ rewrite get_set
    | rewrite get_delete
    | rewrite get_set_other by discriminate
    | rewrite get_delete_other by discriminate ].

Section FilterProperties.
Import Js Supabase Filtering FilterTools FilterBar.
#[local] Open Scope list_scope.

Lemma includes_In (v : string) (vs : list string) :
  includes v vs = true <-> In v vs.
Proof.
  unfold includes. rewrite existsb_exists. split.
  - intros (x & Hx & E). apply String.eqb_eq in E. subst. exact Hx.
  - intros Hv. exists v. split; [exact Hv | apply String.eqb_refl].
Qed.

(** X8: toggling a value flips whether it is selected and leaves every
    other value as it was; a selection without repetitions stays so. *)
Theorem toggleFilterValue_spec (currentValues : list string) (value : string) :
  (In value (toggleFilterValue currentValues value) <-> ~ In value currentValues)
  /\ (forall v, v <> value ->
        (In v (toggleFilterValue currentValues value) <-> In v currentValues))
  /\ (List.NoDup currentValues -> List.NoDup (toggleFilterValue currentValues value)).
Proof.
  unfold toggleFilterValue.
  destruct (includes value currentValues) eqn:E.
  - apply includes_In in E. split; [|split].
    + rewrite filter_In, String.eqb_refl. simpl.
      split; [intros [_ H]; discriminate | intros H; contradiction].
    + intros v Hv. rewrite filter_In.
      destruct (String.eqb_spec v value); [contradiction|]. simpl. tauto.
    + intros Hnd. apply List.NoDup_filter. exact Hnd.
  - assert (~ In value currentValues) as Hnot.
    { intros Hin. apply includes_In in Hin. congruence. }
    split; [|split].
    + rewrite in_app_iff. simpl. tauto.
    + intros v Hv. rewrite in_app_iff. simpl. split; [|tauto].
      intros [H | [H | []]]; [exact H | congruence].
    + intros Hnd. apply List.NoDup_app; [exact Hnd | |].
      * constructor; [intros [] | constructor].
      * intros x Hx [<- | []]. exact (Hnot Hx).
Qed.

Lemma toggleFilterValue_values (vs : list string) (v : string) :
  forallb is_value vs = true -> is_value v = true ->
  forallb is_value (toggleFilterValue vs v) = true.
Proof.
  intros Hvs Hv. rewrite forallb_forall in *.
  intros x Hx. unfold toggleFilterValue in Hx.
  destruct (includes v vs).
  - apply filter_In in Hx. apply Hvs. tauto.
  - apply in_app_iff in Hx. destruct Hx as [Hx | [<- | []]]; [apply Hvs|]; assumption.
Qed.

(** *** Comma-separated values *)

Lemma split_pieces_free (sep : ascii) (s : string) :
  forallb (URLSearchParams.free_of sep) (split sep s) = true.
Proof.
  induction s as [|c s IH]; [reflexivity|].
  cbn [split].
  destruct (Ascii.eqb_spec c sep) as [-> | Hne].
  - cbn [forallb URLSearchParams.free_of]. exact IH.
  - destruct (split sep s) as [|piece pieces]; cbn [forallb URLSearchParams.free_of] in *.
    + apply Ascii.eqb_neq in Hne. rewrite Hne. reflexivity.
    + apply Ascii.eqb_neq in Hne. rewrite Hne. exact IH.
Qed.

Lemma filter_Boolean_values (vs : list string) :
  forallb (URLSearchParams.free_of ",") vs = true ->
  forallb is_value (filter_Boolean vs) = true.
Proof.
  unfold filter_Boolean.
  induction vs as [|v vs IH]; [reflexivity|].
  cbn [forallb List.filter]. intros [Hv Hvs]%andb_prop.
  destruct (String.eqb v EmptyString) eqn:E; cbn [negb]; [exact (IH Hvs)|].
  cbn [forallb]. unfold is_value at 1. rewrite E, Hv. exact (IH Hvs).
Qed.

Lemma split_values (s : string) :
  forallb is_value (filter_Boolean (split "," s)) = true.
Proof. apply filter_Boolean_values, split_pieces_free. Qed.

Lemma join_cons (v v' : string) (vs : list string) :
  join "," (v :: v' :: vs) = (v ++ String "," (join "," (v' :: vs)))%string.
Proof. reflexivity. Qed.

Lemma join_values (vs : list string) :
  forallb is_value vs = true ->
  filter_Boolean (split "," (join "," vs)) = match vs with [] => [] | _ => vs end
  /\ (vs <> [] -> exists c r, join "," vs = String c r).
Proof.
  induction vs as [|v vs IH]; [intros _; split; [reflexivity | congruence]|].
  intros [Hv Hvs]%andb_prop. specialize (IH Hvs).
  unfold is_value in Hv. apply andb_prop in Hv. destruct Hv as [Hne Hfree].
  destruct v as [|c r]; [discriminate Hne|].
  destruct vs as [|v' vs].
  - split; [|intros _; eauto].
    change (join "," [String c r]) with (String c r).
    rewrite (split_free _ _ Hfree). reflexivity.
  - split; [|intros _; rewrite join_cons; simpl; eauto].
    rewrite join_cons, (split_app _ _ _ Hfree).
    unfold filter_Boolean. cbn [List.filter String.eqb negb].
    f_equal. apply IH.
Qed.

Lemma parsed_values
    (getDateRangeFromPreset : string -> DateRangeFilter)
    (searchParams : URLSearchParams.t) :
  forallb is_value (default [] (status (parseFilterParams getDateRangeFromPreset searchParams)))
  = true
  /\ forallb is_value
       (default [] (category (parseFilterParams getDateRangeFromPreset searchParams)))
     = true.
Proof.
  unfold parseFilterParams. cbn [status category].
  split.
  - destruct (URLSearchParams.get "status" searchParams) as [[|c s]|];
      try reflexivity. apply split_values.
  - destruct (URLSearchParams.get "category" searchParams) as [[|c s]|];
      try reflexivity. apply split_values.
Qed.

(** X9: the values that [parseFilterParams] reads from a comma-separated
    parameter are never empty and hold no comma; joined with commas and
    split again they are read back as they were. *)
Theorem parseFilterParams_values
    (getDateRangeFromPreset : string -> DateRangeFilter)
    (searchParams : URLSearchParams.t) :
  let filters := parseFilterParams getDateRangeFromPreset searchParams in
  forallb is_value (default [] (status filters)) = true
  /\ forallb is_value (default [] (category filters)) = true
  /\ filter_Boolean (split "," (join "," (default [] (status filters))))
     = default [] (status filters)
  /\ filter_Boolean (split "," (join "," (default [] (category filters))))
     = default [] (category filters).
Proof.
  intros filters.
  destruct (parsed_values getDateRangeFromPreset searchParams) as [Hs Hc].
  fold filters in Hs, Hc.
  split; [exact Hs|]. split; [exact Hc|]. split.
  - rewrite (proj1 (join_values _ Hs)). destruct (default [] (status filters)); reflexivity.
  - rewrite (proj1 (join_values _ Hc)). destruct (default [] (category filters)); reflexivity.
Qed.

(** *** What the filter bar navigates to *)

(** The text that [buildFilterUrl] stores under the key. *)
Lemma buildFilterUrl_get (currentParams : URLSearchParams.t) (key : string)
    (value : FilterValue) :
  key <> "page" ->
  URLSearchParams.get key
    (URLSearchParams.parse (buildFilterUrl currentParams key value))
  = match value with
    | FNull | FArray [] => None
    | FArray values => Some (join "," values)
    | FString text => Some text
    end.
Proof.
  intros Hkey. unfold buildFilterUrl. rewrite parse_query.
  rewrite get_set_other by exact Hkey.
  destruct value as [|[|v vs]|text]; cbn [URLSearchParams.copy];
    first [apply get_delete | apply get_set].
Qed.

Lemma buildFilterUrl_get_other (currentParams : URLSearchParams.t)
    (key k : string) (value : FilterValue) :
  k <> "page" -> k <> key ->
  URLSearchParams.get k
    (URLSearchParams.parse (buildFilterUrl currentParams key value))
  = URLSearchParams.get k currentParams.
Proof.
  intros Hpage Hkey. unfold buildFilterUrl. rewrite parse_query.
  rewrite get_set_other by exact Hpage.
  destruct value as [|[|v vs]|text]; cbn [URLSearchParams.copy];
    first [apply get_delete_other | apply get_set_other]; exact Hkey.
Qed.

Lemma or_null_parsed (vs : list string) :
  forallb is_value vs = true ->
  match
    match or_null vs with
    | FNull | FArray [] => None
    | FArray values => Some (join "," values)
    | FString text => Some text
    end
  with
  | Some (String c s) => Some (filter_Boolean (split "," (String c s)))
  | _ => None
  end = Views.nonempty (Some vs).
Proof.
  intros Hvs. destruct vs as [|v vs]; [reflexivity|].
  destruct (join_values _ Hvs) as [Hsplit Hjoin].
  destruct (Hjoin ltac:(discriminate)) as (c & r & E).
  cbn [or_null Views.nonempty]. rewrite E, <- E, Hsplit. reflexivity.
Qed.

(** X10: a click on a status of the filter bar leads to a query whose
    status filter is the current one with that status toggled, and whose
    other filters are the current ones; likewise for a category. *)
Theorem handleToggle_parsed
    (getDateRangeFromPreset : string -> DateRangeFilter)
    (searchParams : URLSearchParams.t) (value : string) :
  is_value value = true ->
  let filters := parseFilterParams getDateRangeFromPreset searchParams in
  let by_status :=
    parseFilterParams getDateRangeFromPreset
      (URLSearchParams.parse (handleToggleStatus filters searchParams value)) in
  let by_category :=
    parseFilterParams getDateRangeFromPreset
      (URLSearchParams.parse (handleToggleCategory filters searchParams value)) in
  by_status
  = {| status :=
         Views.nonempty
           (Some (toggleFilterValue (default [] (status filters)) value));
       category := category filters;
       dateRange := dateRange filters;
       search := search filters |}
  /\ by_category
     = {| status := status filters;
          category :=
            Views.nonempty
              (Some (toggleFilterValue (default [] (category filters)) value));
          dateRange := dateRange filters;
          search := search filters |}.
Proof.
  intros Hvalue filters by_status by_category.
  destruct (parsed_values getDateRangeFromPreset searchParams)
    as [Hstatus Hcategory].
  fold filters in Hstatus, Hcategory.
  pose proof (toggleFilterValue_values _ _ Hstatus Hvalue) as Hs.
  pose proof (toggleFilterValue_values _ _ Hcategory Hvalue) as Hc.
  split.
  - unfold by_status, handleToggleStatus.
    unfold parseFilterParams at 1.
    rewrite buildFilterUrl_get by discriminate.
    rewrite !buildFilterUrl_get_other by discriminate.
    rewrite (or_null_parsed _ Hs). reflexivity.
  - unfold by_category, handleToggleCategory.
    unfold parseFilterParams at 1.
    rewrite buildFilterUrl_get by discriminate.
    rewrite !buildFilterUrl_get_other by discriminate.
    rewrite (or_null_parsed _ Hc). reflexivity.
Qed.

Lemma handleToggle_parsed_witness :
  status
    (parseFilterParams Reference.no_preset
       (URLSearchParams.parse
          (handleToggleStatus
             (parseFilterParams Reference.no_preset [("status", "paid,sent")])
             [("status", "paid,sent")] "paid")))
  = Some ["sent"].
Proof.
  exact (f_equal status
           (proj1 (handleToggle_parsed Reference.no_preset
                     [("status", "paid,sent")] "paid" eq_refl))).
Defined.

(** X11: applying a date range replaces a preset by the two dates given,
    an empty one standing for none, and leaves the other filters. *)
Theorem handleApplyDateRange_parsed
    (getDateRangeFromPreset : string -> DateRangeFilter)
    (searchParams : URLSearchParams.t) (from to : option string) :
  let filters := parseFilterParams getDateRangeFromPreset searchParams in
  parseFilterParams getDateRangeFromPreset
    (URLSearchParams.parse (handleApplyDateRange searchParams from to))
  = {| status := status filters;
       category := category filters;
       dateRange :=
         match Views.truthy from, Views.truthy to with
         | None, None => None
         | from, to => Some {| Filtering.from := from; Filtering.to := to |}
         end;
       search := search filters |}.
Proof.
  intros filters. unfold handleApplyDateRange. rewrite parse_query.
  unfold filters, parseFilterParams. cbn [URLSearchParams.copy].
  destruct from as [[|c s]|], to as [[|c' s']|]; lookup; reflexivity.
Qed.

(** X12: "clear all" of the filter bar removes the status, category and
    date filters and keeps the search text, the sort and the page size;
    [clearAllFilters] with its default keeps the page size only.  Both go
    to page 1. *)
Theorem clear_all_parsed
    (getDateRangeFromPreset : string -> DateRangeFilter)
    (searchParams : URLSearchParams.t)
    (defaultSortBy : option string) (defaultSortOrder : option Sorting.SortOrder) :
  let bar := URLSearchParams.parse (handleClearAll searchParams) in
  let lib := URLSearchParams.parse (clearAllFilters searchParams None) in
  parseFilterParams getDateRangeFromPreset bar
  = {| status := None; category := None; dateRange := None;
       search := search (parseFilterParams getDateRangeFromPreset searchParams) |}
  /\ Sorting.parseSortParams bar defaultSortBy defaultSortOrder
     = Sorting.parseSortParams searchParams defaultSortBy defaultSortOrder
  /\ Pagination.parsePaginationParams bar
     = {| Pagination.page := Num 1;
          Pagination.limit :=
            Pagination.limit (Pagination.parsePaginationParams searchParams) |}
  /\ parseFilterParams getDateRangeFromPreset lib
     = {| status := None; category := None; dateRange := None; search := None |}
  /\ getActiveFilterCount (parseFilterParams getDateRangeFromPreset lib) = 0%nat
  /\ Pagination.parsePaginationParams lib
     = {| Pagination.page := Num 1;
          Pagination.limit :=
            Pagination.limit (Pagination.parsePaginationParams searchParams) |}.
Proof.
  intros bar lib.
  assert (forall k, k <> "page" ->
            URLSearchParams.get k lib
            = if String.eqb k "limit"
              then Views.truthy (URLSearchParams.get k searchParams)
              else None) as Hlib.
  { intros k Hk. unfold lib, clearAllFilters. rewrite parse_query.
    rewrite get_set_other by exact Hk.
    change (default ["limit"] None) with ["limit"].
    rewrite get_preserve. cbn [existsb orb].
    destruct (Views.truthy (URLSearchParams.get k searchParams));
      destruct (String.eqb k "limit"); reflexivity. }
  assert (URLSearchParams.get "page" lib = Some "1") as Hpage.
  { unfold lib, clearAllFilters. rewrite parse_query. apply get_set. }
  assert (parseFilterParams getDateRangeFromPreset lib
          = {| status := None; category := None; dateRange := None;
               search := None |}) as Hfilters.
  { unfold parseFilterParams. rewrite !Hlib by discriminate. reflexivity. }
  unfold bar, handleClearAll. rewrite parse_query. cbn [URLSearchParams.copy].
  split; [|split; [|split; [|split; [|split]]]].
  - unfold parseFilterParams. lookup. reflexivity.
  - unfold Sorting.parseSortParams. lookup. reflexivity.
  - unfold Pagination.parsePaginationParams. lookup. reflexivity.
  - exact Hfilters.
  - rewrite Hfilters. reflexivity.
  - unfold Pagination.parsePaginationParams.
    rewrite Hpage, Hlib by discriminate. cbn [String.eqb Ascii.eqb Bool.eqb].
    destruct (URLSearchParams.get "limit" searchParams) as [[|c s]|]; reflexivity.
Qed.

(** *** The badge count and the database query *)

Lemma filters_add_filter (f : Filter) (q : Query) :
  Supabase.filters (add_filter f q) = Supabase.filters q ++ [f].
Proof. reflexivity. Qed.

(** The filters that [applySupabaseFilters] adds. *)
Lemma applySupabaseFilters_adds (q : Query) (f : FilterParams)
    (o : FilterOptions) :
  exists extra,
    Supabase.filters (applySupabaseFilters q f o) = Supabase.filters q ++ extra
    /\ ordering (applySupabaseFilters q f o) = ordering q
    /\ window (applySupabaseFilters q f o) = window q
    /\ (extra = [] <->
        Views.nonempty (status f) = None /\ Views.nonempty (category f) = None
        /\ match dateRange f with
           | Some range =>
               Views.truthy (from range) = None /\ Views.truthy (to range) = None
           | None => True
           end).
Proof.
  unfold applySupabaseFilters.
  destruct f as [[[|s1 sl]|] [[|c1 cl]|] [[[[|a fr]|] [[|b t]|]]|] se];
    cbn [status category dateRange from to Views.nonempty Views.truthy];
    unfold in_, gte, lte;
    rewrite ?filters_add_filter, <- ?app_assoc; cbn [app];
    eexists; (split; [first [reflexivity | symmetry; apply app_nil_r]|]);
    (split; [reflexivity|]); (split; [reflexivity|]);
    split; intros H; try discriminate H; try tauto;
    try (destruct H as (H1 & H2 & H3); try discriminate;
         destruct H3 as [H3 H4]; discriminate).
Qed.

(** X13: the badge shows no active filter exactly when the database query
    is left as it was and there is no search text; a filter only ever
    narrows the rows selected. *)
Theorem getActiveFilterCount_query {Row : Type} `{Owned Row} `{Postgrest Row}
    (q : Query) (f : FilterParams) (o : FilterOptions) (table : list Row) :
  (getActiveFilterCount f = 0%nat
   <-> applySupabaseFilters q f o = q /\ Views.truthy (search f) = None)
  /\ (getActiveFilterCount f <= 4)%nat
  /\ incl (selected (applySupabaseFilters q f o) table) (selected q table).
Proof.
  destruct (applySupabaseFilters_adds q f o) as (extra & Hf & Ho & Hw & Hextra).
  split; [|split].
  - split.
    + intros Hcount.
      assert (extra = [] /\ Views.truthy (search f) = None) as [Hnil Hsearch].
      { rewrite Hextra. unfold getActiveFilterCount in Hcount.
        destruct f as [[[|s1 sl]|] [[|c1 cl]|] [[[[|a fr]|] [[|b t]|]]|] [[|x se]|]];
          cbn in Hcount |- *; try discriminate Hcount; tauto. }
      split; [|exact Hsearch].
      destruct (applySupabaseFilters q f o) as [fs os ws], q as [fq oq wq].
      cbn in Hf, Ho, Hw. subst. rewrite app_nil_r. reflexivity.
    + intros [Hq Hsearch].
      assert (extra = []) as Hnil.
      { rewrite Hq in Hf. apply (f_equal (@length _)) in Hf.
        rewrite length_app in Hf. destruct extra; [reflexivity | simpl in Hf; lia]. }
      apply Hextra in Hnil. unfold getActiveFilterCount.
      destruct f as [[[|s1 sl]|] [[|c1 cl]|] [[[[|a fr]|] [[|b t]|]]|] [[|x se]|]];
        cbn in Hnil, Hsearch |- *; try reflexivity; try discriminate Hsearch;
        destruct Hnil as (H1 & H2 & H3); try discriminate;
        destruct H3 as [H3 H4]; discriminate.
  - unfold getActiveFilterCount.
    destruct (status f) as [[|? ?]|], (category f) as [[|? ?]|],
      (dateRange f) as [[[[|? ?]|] [[|? ?]|]]|], (search f) as [[|? ?]|];
      cbn; lia.
  - intros r Hr. unfold selected in *. rewrite filter_In in *.
    destruct Hr as [Hin Hall]. split; [exact Hin|].
    rewrite Hf, forallb_app in Hall. apply andb_prop in Hall. tauto.
Qed.

End FilterProperties.

(** ** Sorting by a click on a column header *)

Section SortProperties.
Import Js Sorting SortIndicator.

Lemma or_else_nonempty (s fallback : string) :
  s <> EmptyString -> or_else (Some s) fallback = s.
Proof. destruct s; [contradiction | reflexivity]. Qed.

Lemma parseSortParams_order (searchParams : URLSearchParams.t)
    (defaultSortBy : option string) (defaultSortOrder : option SortOrder)
    (order : SortOrder) :
  URLSearchParams.get "order" searchParams = Some (SortOrder_string order) ->
  parseSortParams searchParams defaultSortBy defaultSortOrder
  = {| sortBy :=
         Some (or_else (URLSearchParams.get "sort" searchParams)
                 (default "created_at" defaultSortBy));
       sortOrder := order |}.
Proof.
  intros Horder. unfold parseSortParams. rewrite Horder.
  destruct order; reflexivity.
Qed.

(** X14: after a click on a column header the list is sorted by that
    column: in the other direction when it was the sort column already, and
    else upwards for a name or an e-mail column and downwards for any other;
    the header then shows the indicator of that direction. *)
Theorem buildSortUrl_parsed (searchParams : URLSearchParams.t) (column : string)
    (defaultSortBy : option string) (defaultSortOrder : option SortOrder) :
  column <> EmptyString ->
  let current := parseSortParams searchParams defaultSortBy defaultSortOrder in
  let next :=
    parseSortParams
      (URLSearchParams.parse
         (buildSortUrl searchParams column (sortBy current) (sortOrder current)))
      defaultSortBy defaultSortOrder in
  sortBy next = Some column
  /\ sortOrder next
     = (if bool_decide (Some column = sortBy current)
        then match sortOrder current with asc => desc | desc => asc end
        else if includes "name" column || includes "email" column
             then asc else desc)
  /\ getSortIndicator column (sortBy next) (sortOrder next) = Some (sortOrder next)
  /\ Pagination.page
       (Pagination.parsePaginationParams
          (URLSearchParams.parse
             (buildSortUrl searchParams column (sortBy current) (sortOrder current))))
     = Num 1.
Proof.
  intros Hcolumn current next.
  assert (sortBy next = Some column
          /\ sortOrder next
             = (if bool_decide (Some column = sortBy current)
                then match sortOrder current with asc => desc | desc => asc end
                else if includes "name" column || includes "email" column
                     then asc else desc)) as [Hby Horder].
  { unfold next, buildSortUrl. cbn [URLSearchParams.copy].
    case_bool_decide as Hsame; rewrite parse_query.
    - assert (sortBy current
              = Some (or_else (URLSearchParams.get "sort" searchParams)
                        (default "created_at" defaultSortBy))) as Hcurrent.
      { unfold current, parseSortParams.
        destruct (negb _ && negb _); reflexivity. }
      rewrite Hcurrent in Hsame. injection Hsame as Hsame.
      rewrite (parseSortParams_order _ _ _
                 (match sortOrder current with asc => desc | desc => asc end)).
      + lookup. rewrite <- Hsame. split; reflexivity.
      + lookup. destruct (sortOrder current); reflexivity.
    - rewrite (parseSortParams_order _ _ _
                 (if includes "name" column || includes "email" column
                  then asc else desc)).
      + lookup. rewrite (or_else_nonempty _ _ Hcolumn). split; reflexivity.
      + lookup. destruct (includes "name" column || includes "email" column);
          reflexivity. }
  split; [exact Hby|]. split; [exact Horder|]. split.
  - unfold getSortIndicator. rewrite Hby.
    rewrite bool_decide_true by reflexivity. reflexivity.
  - unfold buildSortUrl. rewrite parse_query.
    unfold Pagination.parsePaginationParams. cbn [Pagination.page].
    rewrite get_set. reflexivity.
Qed.

Lemma buildSortUrl_parsed_witness :
  sortBy
    (parseSortParams
       (URLSearchParams.parse
          (buildSortUrl [("sort", "date")] "name"
             (sortBy (parseSortParams [("sort", "date")] None None))
             (sortOrder (parseSortParams [("sort", "date")] None None))))
       None None)
  = Some "name".
Proof.
  exact (proj1 (buildSortUrl_parsed [("sort", "date")] "name" None None
                  ltac:(discriminate))).
Defined.

End SortProperties.

(** ** Search links and the search condition *)

Section SearchProperties.
Import Js Search SearchUrl.
#[local] Open Scope list_scope.

Lemma has_false_get (name : string) (ps : URLSearchParams.t) :
  URLSearchParams.has name ps = false -> URLSearchParams.get name ps = None.
Proof.
  unfold URLSearchParams.has.
  induction ps as [|[k v] ps IH]; [reflexivity|].
  cbn [existsb fst URLSearchParams.get].
  destruct (String.eqb k name); [discriminate | exact IH].
Qed.

Lemma get_q_set (query : string) (ps : URLSearchParams.t) :
  URLSearchParams.get "q" ps = None ->
  URLSearchParams.get "q"
    match trim query with
    | String c s => URLSearchParams.set "q" (String c s) ps
    | EmptyString => ps
    end
  = Views.truthy (Some (trim query)).
Proof.
  intros Hq. destruct (trim query) as [|c s]; [exact Hq | apply get_set].
Qed.

Lemma parseSearchParams_q (query : string) (ps : URLSearchParams.t) :
  URLSearchParams.get "q" ps = Views.truthy (Some (trim query)) ->
  URLSearchParams.get "search" ps = None ->
  parseSearchParams ps = trim query.
Proof.
  intros Hq Hsearch. unfold parseSearchParams. rewrite Hq, Hsearch.
  destruct (trim query); reflexivity.
Qed.

(** X15: the link of a search carries the trimmed text as the query that
    the loaders read, none when the text is blank, and leads to page 1; so
    does the link that the search input navigates to. *)
Theorem search_links_parsed (searchParams : URLSearchParams.t) (query : string)
    (preserveParams : option (list string)) :
  existsb (String.eqb "q") (default [] preserveParams) = false ->
  existsb (String.eqb "search") (default [] preserveParams) = false ->
  let lib := createSearchParams searchParams query preserveParams in
  let input :=
    updateSearchParams searchParams (default [] preserveParams) query in
  parseSearchParams (URLSearchParams.parse ("?" ++ URLSearchParams.toString lib))
  = trim query
  /\ Pagination.page
       (Pagination.parsePaginationParams
          (URLSearchParams.parse ("?" ++ URLSearchParams.toString lib)))
     = Num 1
  /\ parseSearchParams
       (URLSearchParams.parse ("?" ++ URLSearchParams.toString input))
     = trim query
  /\ Pagination.page
       (Pagination.parsePaginationParams
          (URLSearchParams.parse ("?" ++ URLSearchParams.toString input)))
     = Num 1.
Proof.
  intros Hq Hsearch lib input.
  set (keys := default [] preserveParams) in *.
  set (kept := Pager.preserve searchParams keys).
  set (with_q := match trim query with
                 | String c s => URLSearchParams.set "q" (String c s) kept
                 | EmptyString => kept
                 end).
  assert (URLSearchParams.get "q" with_q = Views.truthy (Some (trim query)))
    as Hget_q.
  { apply get_q_set. apply get_preserve_absent. exact Hq. }
  assert (URLSearchParams.get "search" with_q = None) as Hget_search.
  { unfold with_q. destruct (trim query); [|rewrite get_set_other by discriminate];
      apply get_preserve_absent; exact Hsearch. }
  assert (forall ps : URLSearchParams.t,
            URLSearchParams.get "page" ps = None ->
            URLSearchParams.get "page"
              match trim query with
              | String c s => URLSearchParams.set "q" (String c s) ps
              | EmptyString => ps
              end = None) as Hno_page.
  { intros ps Hps. destruct (trim query); [|rewrite get_set_other by discriminate];
      exact Hps. }
  rewrite !parse_query.
  assert (lib = if URLSearchParams.has "page" with_q
                then URLSearchParams.set "page" "1" with_q else with_q) as ->
    by reflexivity.
  assert (input = if URLSearchParams.has "page" searchParams
                  then URLSearchParams.set "page" "1" with_q else with_q) as ->
    by reflexivity.
  unfold Pagination.parsePaginationParams. cbn [Pagination.page].
  split; [|split; [|split]].
  - destruct (URLSearchParams.has "page" with_q);
      apply parseSearchParams_q; lookup; assumption.
  - destruct (URLSearchParams.has "page" with_q) eqn:E.
    + rewrite get_set. reflexivity.
    + rewrite (has_false_get _ _ E). reflexivity.
  - destruct (URLSearchParams.has "page" searchParams);
      apply parseSearchParams_q; lookup; assumption.
  - destruct (URLSearchParams.has "page" searchParams) eqn:E.
    + rewrite get_set. reflexivity.
    + assert (URLSearchParams.get "page" with_q = None) as ->; [|reflexivity].
      apply Hno_page. unfold kept, Pager.preserve. rewrite get_preserve.
      rewrite (has_false_get _ _ E). reflexivity.
Qed.

Lemma search_links_parsed_witness :
  parseSearchParams
    (URLSearchParams.parse
       ("?" ++ URLSearchParams.toString
                 (createSearchParams [("q", "old"); ("page", "4"); ("limit", "50")]
                    "  acme  " (Some ["limit"; "page"]))))
  = "acme".
Proof.
  exact (proj1 (search_links_parsed [("q", "old"); ("page", "4"); ("limit", "50")]
                  "  acme  " (Some ["limit"; "page"]) eq_refl eq_refl)).
Defined.

Lemma split_join (sep : ascii) (pieces : list string) :
  pieces <> [] ->
  forallb (URLSearchParams.free_of sep) pieces = true ->
  split sep (String.concat (String sep EmptyString) pieces) = pieces.
Proof.
  induction pieces as [|p pieces IH]; [congruence|].
  intros _ [Hp Hps]%andb_prop.
  destruct pieces as [|p' pieces].
  - apply split_free. exact Hp.
  - change (String.concat (String sep EmptyString) (p :: p' :: pieces))
      with (p ++ String sep (String.concat (String sep EmptyString) (p' :: pieces)))%string.
    rewrite (split_app _ _ _ Hp). f_equal. apply IH; [discriminate | exact Hps].
Qed.

(** X16: for a search text without a comma and column names without one,
    the search condition holds one [ilike] test for each column, on the
    trimmed text between two [%]. *)
Theorem buildSupabaseSearchQuery_conditions (query : string) (fields : list string) :
  trim query <> EmptyString ->
  URLSearchParams.free_of "," (trim query) = true ->
  forallb (URLSearchParams.free_of ",") fields = true ->
  fields <> [] ->
  split "," (buildSupabaseSearchQuery query fields)
  = map (fun field => (field ++ ".ilike.%" ++ trim query ++ "%")%string) fields.
Proof.
  intros Hquery Hfree Hfields Hne.
  unfold buildSupabaseSearchQuery.
  destruct (String.eqb_spec (trim query) EmptyString) as [E | _]; [contradiction|].
  case_bool_decide as Hnil; [contradiction|]. cbn [orb].
  change (String.concat ","
            (map (fun field => (field ++ ".ilike." ++ "%" ++ trim query ++ "%")%string)
               fields))
    with (String.concat ","
            (map (fun field => (field ++ ".ilike.%" ++ trim query ++ "%")%string)
               fields)).
  apply split_join.
  - destruct fields; [contradiction | discriminate].
  - rewrite forallb_forall in *. intros piece Hpiece.
    apply in_map_iff in Hpiece. destruct Hpiece as (field & <- & Hfield).
    rewrite !free_of_app, (Hfields _ Hfield), Hfree. reflexivity.
Qed.

Lemma buildSupabaseSearchQuery_conditions_witness :
  split "," (buildSupabaseSearchQuery " acme " ["name"; "email"])
  = ["name.ilike.%acme%"; "email.ilike.%acme%"].
Proof.
  exact (buildSupabaseSearchQuery_conditions " acme " ["name"; "email"]
           ltac:(discriminate) eq_refl eq_refl ltac:(discriminate)).
Defined.

End SearchProperties.

(** ** Saved views: the link of a view and its description *)

Section SavedViewProperties.
Import Js Supabase Sorting Filtering FilterTools Views ViewDescription.
#[local] Open Scope list_scope.

(** The parameters of the link of a view. *)
Lemma buildUrlFromViewState_get (state : ViewState) :
  let params := URLSearchParams.parse (buildUrlFromViewState state None) in
  URLSearchParams.get "status" params
  = option_map (join ",") (nonempty (status (filters state)))
  /\ URLSearchParams.get "category" params
     = option_map (join ",") (nonempty (category (filters state)))
  /\ URLSearchParams.get "date_from" params
     = match dateRange (filters state) with
       | Some range => truthy (from range)
       | None => None
       end
  /\ URLSearchParams.get "date_to" params
     = match dateRange (filters state) with
       | Some range => truthy (to range)
       | None => None
       end
  /\ URLSearchParams.get "date_preset" params = None
  /\ URLSearchParams.get "q" params = truthy (search (filters state))
  /\ URLSearchParams.get "sort" params = truthy (sortBy (sort state))
  /\ URLSearchParams.get "order" params
     = option_map (fun _ => SortOrder_string (sortOrder (sort state)))
         (truthy (sortBy (sort state)))
  /\ URLSearchParams.get "page" params = Some "1"
  /\ URLSearchParams.get "limit" params = None.
Proof.
  intros params. unfold params, buildUrlFromViewState, set_if.
  rewrite parse_query. cbn [URLSearchParams.copy].
  destruct (truthy (sortBy (sort state))),
    (nonempty (status (filters state))),
    (nonempty (category (filters state))),
    (dateRange (filters state)) as [[from to]|],
    (truthy (search (filters state)));
    cbn [Filtering.from Filtering.to];
    try destruct (truthy from); try destruct (truthy to);
    cbn [option_map id]; repeat split; lookup; reflexivity.
Qed.

Lemma joined_parsed (values : option (list string)) :
  forallb is_value (default [] values) = true ->
  match option_map (join ",") (nonempty values) with
  | Some (String c s) => Some (filter_Boolean (split "," (String c s)))
  | _ => None
  end = nonempty values.
Proof.
  intros Hvs. destruct values as [[|v vs]|]; try reflexivity.
  cbn [default from_option id] in Hvs.
  destruct (join_values _ Hvs) as [Hsplit Hjoin].
  destruct (Hjoin ltac:(discriminate)) as (c & r & E).
  cbn [nonempty option_map]. rewrite E, <- E, Hsplit. reflexivity.
Qed.

(** The filters of a view as a query carries them: an empty list or text
    stands for none. *)
Lemma truthy_String (s : option string) :
  match truthy s with
  | Some (String c v) => Some (String c v)
  | _ => None
  end = truthy s.
Proof. destruct s as [[|c v]|]; reflexivity. Qed.

(** X17: the link of a saved view, read back by the loaders, gives the
    filters and the sort of the view, an empty list or text standing for
    none, and page 1; the database query filtered by what is read back is
    the one filtered by the view. *)
Theorem buildUrlFromViewState_parsed
    (getDateRangeFromPreset : string -> DateRangeFilter) (state : ViewState)
    (defaultSortBy : option string) (defaultSortOrder : option SortOrder) :
  forallb is_value (default [] (status (filters state))) = true ->
  forallb is_value (default [] (category (filters state))) = true ->
  let params := URLSearchParams.parse (buildUrlFromViewState state None) in
  parseFilterParams getDateRangeFromPreset params
  = {| status := nonempty (status (filters state));
       category := nonempty (category (filters state));
       dateRange :=
         match dateRange (filters state) with
         | Some range =>
             match truthy (from range), truthy (to range) with
             | None, None => None
             | from, to => Some {| from := from; to := to |}
             end
         | None => None
         end;
       search := truthy (search (filters state)) |}
  /\ parseSortParams params defaultSortBy defaultSortOrder
     = match truthy (sortBy (sort state)) with
       | Some column =>
           {| sortBy := Some column; sortOrder := sortOrder (sort state) |}
       | None => parseSortParams [] defaultSortBy defaultSortOrder
       end
  /\ Pagination.parsePaginationParams params
     = {| Pagination.page := Num 1; Pagination.limit := Num 20 |}
  /\ forall (q : Query) (o : FilterOptions),
       applySupabaseFilters q (parseFilterParams getDateRangeFromPreset params) o
       = applySupabaseFilters q (filters state) o.
Proof.
  intros Hstatus Hcategory params.
  destruct (buildUrlFromViewState_get state)
    as (Gs & Gc & Gf & Gt & Gp & Gq & Gsort & Gorder & Gpage & Glimit).
  fold params in Gs, Gc, Gf, Gt, Gp, Gq, Gsort, Gorder, Gpage, Glimit.
  assert (parseFilterParams getDateRangeFromPreset params
          = {| status := nonempty (status (filters state));
               category := nonempty (category (filters state));
               dateRange :=
                 match dateRange (filters state) with
                 | Some range =>
                     match truthy (from range), truthy (to range) with
                     | None, None => None
                     | from, to => Some {| from := from; to := to |}
                     end
                 | None => None
                 end;
               search := truthy (search (filters state)) |}) as Hfilters.
  { unfold parseFilterParams. rewrite Gs, Gc, Gf, Gt, Gp, Gq.
    rewrite (joined_parsed _ Hstatus), (joined_parsed _ Hcategory), truthy_String.
    f_equal.
    destruct (dateRange (filters state)) as [[[[|c v]|] [[|c' v']|]]|]; reflexivity. }
  split; [exact Hfilters|]. split; [|split].
  - destruct (truthy (sortBy (sort state))) as [column|] eqn:E.
    + rewrite (parseSortParams_order _ _ _ (sortOrder (sort state))) by exact Gorder.
      rewrite Gsort.
      destruct (sortBy (sort state)) as [[|c v]|]; try discriminate E.
      injection E as <-. reflexivity.
    + unfold parseSortParams. rewrite Gsort, Gorder. reflexivity.
  - unfold Pagination.parsePaginationParams. rewrite Gpage, Glimit. reflexivity.
  - intros q o. rewrite Hfilters. unfold applySupabaseFilters.
    cbn [status category dateRange].
    destruct (status (filters state)) as [[|s1 sl]|],
      (category (filters state)) as [[|c1 cl]|],
      (dateRange (filters state)) as [[[[|c v]|] [[|c' v']|]]|]; reflexivity.
Qed.

Lemma buildUrlFromViewState_parsed_witness :
  status
    (parseFilterParams Reference.no_preset
       (URLSearchParams.parse
          (buildUrlFromViewState
             {| filters :=
                  {| status := Some ["paid"; "sent"]; category := Some [];
                     dateRange := None; search := Some "acme" |};
                sort := {| sortBy := Some "date"; sortOrder := asc |} |}
             None)))
  = Some ["paid"; "sent"].
Proof.
  exact (f_equal status
           (proj1 (buildUrlFromViewState_parsed Reference.no_preset
                     {| filters :=
                          {| status := Some ["paid"; "sent"]; category := Some [];
                             dateRange := None; search := Some "acme" |};
                        sort := {| sortBy := Some "date"; sortOrder := asc |} |}
                     None None eq_refl eq_refl))).
Defined.

Lemma getActiveFilterCount_zero (f : FilterParams) :
  getActiveFilterCount f = 0%nat
  <-> nonempty (status f) = None /\ nonempty (category f) = None
      /\ match dateRange f with
         | Some range => truthy (from range) = None /\ truthy (to range) = None
         | None => True
         end
      /\ truthy (search f) = None.
Proof.
  unfold getActiveFilterCount.
  destruct f as [[[|s1 sl]|] [[|c1 cl]|] [[[[|a fr]|] [[|b t]|]]|] [[|x se]|]];
    cbn; split; intros H; try discriminate H; try tauto;
    destruct H as (H1 & H2 & H3 & H4); try discriminate;
    destruct H3 as [H3 H5]; discriminate.
Qed.

Lemma join_head (sep : string) (c : ascii) (x : string) (rest : list string) :
  exists r, join sep (String c x :: rest) = String c r.
Proof. destruct rest; eexists; reflexivity. Qed.

Lemma join_head_ne (sep part : string) (rest : list string) (c : ascii) :
  (exists x, part = String c x) -> c <> "N"%char ->
  join sep (part :: rest) <> "No filters applied".
Proof.
  intros [x ->] Hc. destruct (join_head sep c x rest) as [r ->].
  intros E. injection E as E _. contradiction.
Qed.

(** X18: a view is described as "No filters applied" exactly when it has
    no sort column and the badge would count no active filter. *)
Theorem getViewDescription_none (state : ViewState) :
  getViewDescription state = "No filters applied"
  <-> truthy (sortBy (sort state)) = None
      /\ getActiveFilterCount (filters state) = 0%nat.
Proof.
  rewrite getActiveFilterCount_zero. unfold getViewDescription.
  destruct (truthy (sortBy (sort state))) as [column|],
    (nonempty (status (filters state))) as [statuses|],
    (nonempty (category (filters state))) as [categories|],
    (dateRange (filters state)) as [[from to]|],
    (truthy (search (filters state))) as [text|];
    cbn [Filtering.from Filtering.to];
    try destruct (truthy from) as [from'|]; try destruct (truthy to) as [to'|];
    cbn [push app];
    (split;
     [ intros H;
       first
         [ exfalso; revert H; eapply join_head_ne;
           [eexists; reflexivity | discriminate]
         | repeat split; reflexivity ]
     | intros (H1 & H2 & H3 & H4 & H5);
       first [ discriminate
             | destruct H4; discriminate
             | reflexivity ] ]).
Qed.

End SavedViewProperties.

(** ** The page that a list loader returns *)

Section OrderedRows.
Import Js Supabase.
Context {Row : Type} {owned_row : Owned Row} {server_row : Postgrest Row}.
#[local] Open Scope list_scope.

Lemma insert_sorted_spec (le : Row -> Row -> bool) (a : Row) (l : list Row) :
  (forall x, In x (insert_sorted le a l) <-> x = a \/ In x l)
  /\ length (insert_sorted le a l) = S (length l).
Proof.
  induction l as [|b l [IHin IHlen]]; cbn [insert_sorted].
  - split; [|reflexivity]. intros x. simpl. intuition congruence.
  - destruct (le a b); cbn [In length].
    + split; [|reflexivity]. intros x. intuition congruence.
    + split; [|rewrite IHlen; reflexivity].
      intros x. rewrite IHin. intuition congruence.
Qed.

Lemma sort_rows_spec (le : Row -> Row -> bool) (l : list Row) :
  (forall x, In x (sort_rows le l) <-> In x l)
  /\ length (sort_rows le l) = length l.
Proof.
  unfold sort_rows. induction l as [|a l [IHin IHlen]]; cbn [fold_right].
  - split; [tauto | reflexivity].
  - destruct (insert_sorted_spec le a (fold_right (insert_sorted le) [] l))
      as [Hin Hlen].
    split; [|rewrite Hlen, IHlen; reflexivity].
    intros x. rewrite Hin, IHin. simpl. intuition congruence.
Qed.

Lemma ordered_spec (q : Query) (l : list Row) :
  (forall x, In x (ordered q l) <-> In x l)
  /\ length (ordered q l) = length l.
Proof.
  unfold ordered. induction (ordering q) as [|o os [IHin IHlen]]; cbn [fold_right].
  - split; [tauto | reflexivity].
  - destruct (sort_rows_spec (le_on o)
                (fold_right (fun o rows => sort_rows (le_on o) rows) l os))
      as [Hin Hlen].
    split; [|rewrite Hlen, IHlen; reflexivity].
    intros x. rewrite Hin, IHin. tauto.
Qed.

(** A request with a window that the server answers. *)
Lemma run_window (q : Query) (table : list Row) (a b : JsNumber) :
  window q = Some (a, b) ->
  error (run q table) = false ->
  exists x y,
    a = Num x /\ b = Num y /\ 0 <= x <= y
    /\ data (run q table)
       = Some (take (Z.to_nat (y - x + 1))
                 (drop (Z.to_nat x) (ordered q (selected q table))))
    /\ count (run q table) = Some (length (selected q table)).
Proof.
  intros Hw. unfold run. rewrite Hw.
  destruct (rejects q); [discriminate|].
  destruct a as [| |x]; [discriminate..|].
  destruct b as [| |y]; [discriminate..|].
  destruct (Z.leb_spec 0 x); [|discriminate].
  destruct (Z.leb_spec x y); [|discriminate].
  cbn [andb error data count]. intros _.
  exists x, y. rewrite (proj2 (ordered_spec q _)).
  repeat split; lia.
Qed.

End OrderedRows.

Section LoaderPageProperties.
Import Js Supabase Pagination ListLoader.
Context {Row View : Type}.
Context {owned_row : Owned Row} {server_row : Postgrest Row}.
Context {owned_view : Owned View} {server_view : Postgrest View}.
#[local] Open Scope list_scope.

(** X19: a list loader that returns gives rows of the table that all
    belong to the user and match the query, no more of them than the
    total, which is the number of rows that match, whatever the page; and
    the saved views are views of the user. *)
Theorem loader_page (getDateRangeFromPreset : string -> Filtering.DateRangeFilter)
    (builtin_text : string -> string) (cfg : Config) (uid : string)
    (searchParams : URLSearchParams.t) (table : list Row)
    (saved_views : list View) (d : Data) :
  loader getDateRangeFromPreset builtin_text cfg uid searchParams table saved_views
  = Returned d ->
  totalCount d
  = length
      (selected
         (list_query getDateRangeFromPreset builtin_text cfg uid searchParams)
         table)
  /\ (length (rows d) <= totalCount d)%nat
  /\ (forall r,
        In r (rows d) ->
        In r (selected
                (list_query getDateRangeFromPreset builtin_text cfg uid searchParams)
                table)
        /\ In r table /\ owner r = uid)
  /\ (forall v, In v (savedViews d) -> In v saved_views /\ owner v = uid).
Proof.
  unfold loader.
  set (q := list_query getDateRangeFromPreset builtin_text cfg uid searchParams).
  set (pp := parsePaginationParams searchParams).
  destruct (error (run q table)) eqn:Herror; [discriminate|].
  intros Hd. injection Hd as <-.
  cbn [rows totalCount currentPage itemsPerPage savedViews].
  assert (window q
          = Some (Pagination.from (getSupabaseRange (page pp) (limit pp)),
                  Pagination.to (getSupabaseRange (page pp) (limit pp)))) as Hw
    by reflexivity.
  destruct (run_window q table _ _ Hw Herror) as (x & y & Hx & Hy & Hxy & Hdata & Hcount).
  rewrite Hdata, Hcount. cbn [default from_option id].
  split; [reflexivity|]. split; [|split].
  - rewrite length_take, length_drop, (proj2 (ordered_spec q _)). lia.
  - intros r Hr.
    assert (In r (selected q table)) as Hsel.
    { apply (proj1 (ordered_spec q _)). eapply In_drop, In_take, Hr. }
    split; [exact Hsel|].
    unfold selected in Hsel. apply filter_In in Hsel. destruct Hsel as [Hin Hall].
    split; [exact Hin|].
    apply String.eqb_eq. eapply restricted_owner; [|exact Hall].
    apply list_query_restricted.
  - intros v Hv. split.
    + unfold run in Hv. destruct (rejects (views_query cfg uid)); [destruct Hv|].
      change (window (views_query cfg uid)) with (@None (JsNumber * JsNumber)) in Hv.
      cbn [data default from_option id] in Hv.
      apply (proj1 (proj1 (ordered_spec (views_query cfg uid) _) v)) in Hv.
      unfold selected in Hv. apply filter_In in Hv. tauto.
    + eapply run_owner; [apply views_query_restricted | exact Hv].
Qed.

End LoaderPageProperties.

Lemma loader_page_witness :
  1%nat
  = length
      (@Supabase.selected Reference.Client Reference.client_owned Reference.clients
         (ListLoader.list_query Reference.no_preset Reference.builtin_text
            ListLoader.clients "u1" [])
         [ {| Reference.client_user_id := "u1"; Reference.client_name := "Acme";
              Reference.client_created_at := "2024-01-01" |};
           {| Reference.client_user_id := "u2"; Reference.client_name := "Bolt";
              Reference.client_created_at := "2024-01-02" |} ]).
Proof.
  exact (proj1
    (@loader_page Reference.Client Reference.SavedView
       Reference.client_owned Reference.clients
       Reference.view_owned Reference.saved_views
       Reference.no_preset Reference.builtin_text ListLoader.clients "u1" []
       [ {| Reference.client_user_id := "u1"; Reference.client_name := "Acme";
            Reference.client_created_at := "2024-01-01" |};
         {| Reference.client_user_id := "u2"; Reference.client_name := "Bolt";
            Reference.client_created_at := "2024-01-02" |} ]
       []
       {| ListLoader.rows :=
            [ {| Reference.client_user_id := "u1"; Reference.client_name := "Acme";
                 Reference.client_created_at := "2024-01-01" |} ];
          ListLoader.totalCount := 1;
          ListLoader.currentPage := Js.Num 1;
          ListLoader.itemsPerPage := Js.Num 20;
          ListLoader.sortParams :=
            {| Sorting.sortBy := Some "created_at"; Sorting.sortOrder := Sorting.desc |};
          ListLoader.filterParams :=
            {| Filtering.status := None; Filtering.category := None;
               Filtering.dateRange := None; Filtering.search := None |};
          ListLoader.savedViews := [] |}
       eq_refl)).
Defined.

(** ** The action that saves and deletes views *)

Section SavedViewsActionProperties.
Import Js Supabase ListLoader SavedViews.
Variable is_uuid : string -> bool.
Variables (next_id now : string).
Variable fits : Values -> bool.
#[local] Open Scope list_scope.

Lemma rows_of_app (uid : string) (l1 l2 : list Row) :
  rows_of uid (l1 ++ l2) = rows_of uid l1 ++ rows_of uid l2.
Proof. apply List.filter_app. Qed.

Lemma insert_rows_of (uid other : string) (values : Values)
    (table table' : list Row) :
  insert next_id now fits uid values table = Some table' ->
  other <> uid ->
  rows_of other table' = rows_of other table.
Proof.
  unfold insert. intros Hinsert Hother.
  destruct (new_name values), (new_table_name values), (new_view_state values);
    try discriminate.
  destruct (String.eqb_spec (new_user_id values) uid) as [E | _];
    [|discriminate].
  cbn [negb] in Hinsert.
  destruct (_ || _); [discriminate|].
  destruct (negb (fits values)); [discriminate|].
  destruct (negb _); [discriminate|].
  destruct (existsb _ table); [discriminate|].
  destruct (existsb _ table); [discriminate|].
  injection Hinsert as <-.
  rewrite rows_of_app. unfold rows_of at 2. cbn [List.filter owner row_owned user_id].
  destruct (String.eqb_spec (new_user_id values) other) as [E' | _];
    [congruence | apply app_nil_r].
Qed.

Lemma delete_rows_of (uid other : string) (viewId : option string)
    (table table' : list Row) :
  delete is_uuid uid viewId uid table = Some table' ->
  other <> uid ->
  rows_of other table' = rows_of other table.
Proof.
  unfold delete. intros Hdelete Hother.
  destruct (is_uuid _); [|discriminate].
  injection Hdelete as <-.
  apply filter_implied. intros r Hr.
  cbn [owner row_owned] in Hr. apply String.eqb_eq in Hr.
  destruct (String.eqb_spec (user_id r) uid) as [E | _]; [congruence | reflexivity].
Qed.

(** X20: whatever the form holds, the action of a user leaves the views of
    every other user as they are; and an action that throws or answers with
    an error changes nothing at all. *)
Theorem action_keeps_other_users (uid other : string) (formData : FormData)
    (table : list Row) :
  other <> uid ->
  rows_of other (snd (action is_uuid next_id now fits uid formData table))
  = rows_of other table
  /\ (fst (action is_uuid next_id now fits uid formData table) <> Returned Success ->
      snd (action is_uuid next_id now fits uid formData table) = table).
Proof.
  intros Hother. unfold action.
  case_bool_decide as Hsave.
  - destruct (Json.parse _) as [state|]; [|split; reflexivity].
    destruct (insert _ _ _ _ _ _) as [table'|] eqn:E; [|split; reflexivity].
    cbn [fst snd]. split; [|congruence].
    eapply insert_rows_of; eassumption.
  - case_bool_decide as Hdelete; [|split; reflexivity].
    destruct (delete _ _ _ _ _) as [table'|] eqn:E; [|split; reflexivity].
    cbn [fst snd]. split; [|congruence].
    eapply delete_rows_of; eassumption.
Qed.

(** X21: saving the current view under a name that the user does not have
    on that list, neither the name nor the view holding U+0000 and both
    within the limits of the server on sizes, stores the view state as
    the menu holds it, and the loader then lists the view; saving under
    the same name again is refused and changes nothing. *)
Theorem save_view_listed {server : Postgrest Row} (uid viewName : string)
    (cfg : Config) (state : Views.ViewState) (table : list Row) :
  (forall value r,
      holds (Eq "table_name" value) r = String.eqb (table_name r) value) ->
  (forall q, rejects q = false) ->
  In (tableName cfg) table_names ->
  Js.has_nul viewName = false ->
  Json.has_nul (Views.to_object state) = false ->
  fits {| new_user_id := uid; new_name := Some viewName;
          new_table_name := Some (tableName cfg);
          new_view_state := Some (Views.to_object state) |} = true ->
  existsb (fun r => String.eqb (id r) next_id) table = false ->
  existsb (same_name uid (tableName cfg) viewName) table = false ->
  let form := save_form viewName (tableName cfg) (Views.to_object state) in
  let row :=
    {| id := next_id; user_id := uid; name := viewName;
       table_name := tableName cfg; view_state := Views.to_object state;
       created_at := now |} in
  action is_uuid next_id now fits uid form table = (Returned Success, table ++ [row])
  /\ In row (default [] (data (run (views_query cfg uid) (table ++ [row]))))
  /\ Views.as_ViewState (view_state row) = Some state
  /\ forall next_id' now',
       action is_uuid next_id' now' fits uid form (table ++ [row])
       = (Thrown "Failed to save view", table ++ [row]).
Proof.
  intros Hholds Hrejects Htable Hnul Hnul' Hfits Hfresh Hname form row.
  assert (forall id' now' (t : list Row),
            action is_uuid id' now' fits uid form t
            = match
                insert id' now' fits uid
                  {| new_user_id := uid; new_name := Some viewName;
                     new_table_name := Some (tableName cfg);
                     new_view_state := Some (Views.to_object state) |} t
              with
              | None => (Thrown "Failed to save view", t)
              | Some t' => (Returned Success, t')
              end) as Haction.
  { intros id' now' t. unfold action, form, save_form.
    cbn [get String.eqb Ascii.eqb Bool.eqb].
    rewrite bool_decide_true by reflexivity.
    cbn [default from_option Datatypes.id].
    rewrite (parse_stringify _ (to_object_printable state)). reflexivity. }
  assert (existsb (String.eqb (tableName cfg)) table_names = true) as Hcheck.
  { apply existsb_exists. exists (tableName cfg).
    split; [exact Htable | apply String.eqb_refl]. }
  split; [|split; [|split]].
  - rewrite Haction. unfold insert.
    cbn [new_name new_table_name new_view_state new_user_id].
    rewrite String.eqb_refl, Hnul, Hnul', Hfits, Hcheck, Hfresh, Hname. reflexivity.
  - unfold run. rewrite Hrejects.
    change (window (views_query cfg uid)) with (@None (JsNumber * JsNumber)).
    cbn [data default from_option Datatypes.id].
    apply (proj1 (ordered_spec (views_query cfg uid) _)).
    unfold selected. apply filter_In. split.
    + apply in_or_app. right. left. reflexivity.
    + change (filters (views_query cfg uid))
        with [Eq "user_id" uid; Eq "table_name" (tableName cfg)].
      cbn [forallb sat String.eqb Ascii.eqb Bool.eqb owner row_owned].
      rewrite Hholds. unfold row. cbn [user_id table_name].
      rewrite !String.eqb_refl. reflexivity.
  - apply as_ViewState_to_object.
  - intros id' now'. rewrite Haction. unfold insert.
    cbn [new_name new_table_name new_view_state new_user_id].
    rewrite String.eqb_refl, Hnul, Hnul', Hfits, Hcheck. cbn [negb orb].
    destruct (existsb (fun r => String.eqb (id r) id') (table ++ [row]));
      [reflexivity|].
    rewrite existsb_app.
    assert (existsb (same_name uid (tableName cfg) viewName) [row] = true) as ->.
    { unfold same_name, row. cbn [existsb user_id table_name name].
      rewrite !String.eqb_refl. reflexivity. }
    rewrite orb_true_r. reflexivity.
Qed.

End SavedViewsActionProperties.

Lemma action_keeps_other_users_witness :
  Supabase.rows_of "u2"
    (snd (SavedViews.action (fun _ => true) "id-2" "2024-05-01" (fun _ => true) "u1"
            [("intent", "delete_view"); ("view_id", "id-1")]
            [ {| SavedViews.id := "id-1"; SavedViews.user_id := "u2";
                 SavedViews.name := "Paid"; SavedViews.table_name := "invoices";
                 SavedViews.view_state := Json.JObject [];
                 SavedViews.created_at := "2024-01-01" |} ]))
  = [ {| SavedViews.id := "id-1"; SavedViews.user_id := "u2";
         SavedViews.name := "Paid"; SavedViews.table_name := "invoices";
         SavedViews.view_state := Json.JObject [];
         SavedViews.created_at := "2024-01-01" |} ].
Proof.
  exact (proj1 (action_keeps_other_users (fun _ => true) "id-2" "2024-05-01"
                  (fun _ => true)
                  "u1" "u2"
                  [("intent", "delete_view"); ("view_id", "id-1")]
                  [ {| SavedViews.id := "id-1"; SavedViews.user_id := "u2";
                       SavedViews.name := "Paid"; SavedViews.table_name := "invoices";
                       SavedViews.view_state := Json.JObject [];
                       SavedViews.created_at := "2024-01-01" |} ]
                  ltac:(discriminate))).
Defined.

Lemma save_view_listed_witness :
  SavedViews.action (fun _ => true) "id-1" "2024-05-01" (fun _ => true) "u1"
    (SavedViews.save_form "Paid" "clients"
       (Views.to_object
          {| Views.filters :=
               {| Filtering.status := Some ["active"]; Filtering.category := None;
                  Filtering.dateRange := None; Filtering.search := None |};
             Views.sort :=
               {| Sorting.sortBy := Some "name"; Sorting.sortOrder := Sorting.asc |} |}))
    []
  = (ListLoader.Returned SavedViews.Success,
     [ {| SavedViews.id := "id-1"; SavedViews.user_id := "u1";
          SavedViews.name := "Paid"; SavedViews.table_name := "clients";
          SavedViews.view_state :=
            Views.to_object
              {| Views.filters :=
                   {| Filtering.status := Some ["active"];
                      Filtering.category := None;
                      Filtering.dateRange := None; Filtering.search := None |};
                 Views.sort :=
                   {| Sorting.sortBy := Some "name";
                      Sorting.sortOrder := Sorting.asc |} |};
          SavedViews.created_at := "2024-05-01" |} ]).
Proof.
  exact (proj1 (@save_view_listed (fun _ => true) "id-1" "2024-05-01"
                  (fun _ => true)
                  SavedViews.server "u1" "Paid" ListLoader.clients
                  {| Views.filters :=
                       {| Filtering.status := Some ["active"];
                          Filtering.category := None;
                          Filtering.dateRange := None; Filtering.search := None |};
                     Views.sort :=
                       {| Sorting.sortBy := Some "name";
                          Sorting.sortOrder := Sorting.asc |} |}
                  []
                  (fun _ _ => eq_refl) (fun _ => eq_refl)
                  (or_intror (or_intror (or_introl eq_refl)))
                  eq_refl eq_refl eq_refl eq_refl eq_refl)).
Defined.

(** ** The generated columns *)

Section GeneratedColumns.
Import Schema.

Lemma round_half_away_mono (num num' den : Z) :
  0 < den -> num <= num' ->
  round_half_away num den <= round_half_away num' den.
Proof.
  intros Hden Hle.
  pose proof (round_half_away_bound num den Hden) as Hb.
  pose proof (round_half_away_bound num' den Hden) as Hb'.
  unfold round_half_away in *.
  destruct (Z.leb_spec 0 num) as [Hn | Hn], (Z.leb_spec 0 num') as [Hn' | Hn'];
    try lia.
  - apply Z.div_le_mono; lia.
  - assert (0 <= (2 * num' + den) / (2 * den)) by (apply Z.div_pos; lia).
    assert (0 <= (2 * - num + den) / (2 * den)) by (apply Z.div_pos; lia).
    lia.
  - assert ((2 * - num' + den) / (2 * den) <= (2 * - num + den) / (2 * den))
      by (apply Z.div_le_mono; lia).
    lia.
Qed.

Lemma round_half_away_0 (den : Z) : 0 < den -> round_half_away 0 den = 0.
Proof.
  intros Hden. unfold round_half_away. simpl.
  apply Z.div_small. lia.
Qed.

Lemma round_half_away_opp (num den : Z) :
  0 < den -> round_half_away (- num) den = - round_half_away num den.
Proof.
  intros Hden. unfold round_half_away.
  destruct (Z.leb_spec 0 num) as [Hn | Hn], (Z.leb_spec 0 (- num)) as [Hn' | Hn'];
    rewrite ?Z.opp_involutive; try reflexivity; try lia.
  assert (num = 0) as -> by lia.
  replace (2 * - 0 + den) with den by lia. replace (2 * 0 + den) with den by lia.
  rewrite Z.div_small by lia. reflexivity.
Qed.

(** X22: for a business use of 0 to 100 percent the deductible amount of
    an expense lies between 0 and its total, on the side of the total; it
    is 0 at 0 percent and the total at 100, and it grows with the
    percentage. *)
Theorem deductible_amount_bounds (r : Expense.t) (pct : hundredths) :
  Expense.business_use_percentage r = Some pct ->
  0 <= pct <= 10000 ->
  exists d,
    Expense.deductible_amount r = Some d
    /\ Z.abs d <= Z.abs (Expense.total r)
    /\ (0 <= Expense.total r -> 0 <= d)
    /\ (Expense.total r <= 0 -> d <= 0)
    /\ (pct = 0 -> d = 0)
    /\ (pct = 10000 -> d = Expense.total r)
    /\ forall pct' d',
         pct <= pct' <= 10000 ->
         Expense.deductible_amount
           {| Expense.user_id := Expense.user_id r;
              Expense.date := Expense.date r;
              Expense.total := Expense.total r;
              Expense.is_tax_deductible := Expense.is_tax_deductible r;
              Expense.business_use_percentage := Some pct';
              Expense.tax_category := Expense.tax_category r |} = Some d' ->
         Z.abs d <= Z.abs d'.
Proof.
  intros Hpct Hrange. unfold Expense.deductible_amount. rewrite Hpct.
  eexists. split; [reflexivity|].
  rewrite store_product_percentage.
  set (t := Expense.total r).
  assert (forall p, 0 <= p <= 10000 ->
            (0 <= t -> 0 <= round_half_away (t * p) 10000 <= t)
            /\ (t <= 0 -> t <= round_half_away (t * p) 10000 <= 0)) as Hside.
  { intros p Hp. split; intros Ht.
    - split.
      + rewrite <- (round_half_away_0 10000) by lia.
        apply round_half_away_mono; nia.
      + rewrite <- (round_half_away_exact t 10000) at 2 by lia.
        apply round_half_away_mono; nia.
    - split.
      + rewrite <- (round_half_away_exact t 10000) at 1 by lia.
        apply round_half_away_mono; nia.
      + rewrite <- (round_half_away_0 10000) by lia.
        apply round_half_away_mono; nia. }
  destruct (Hside pct Hrange) as [Hpos Hneg].
  split; [lia|]. split; [lia|]. split; [lia|]. split; [|split].
  - intros ->. rewrite Z.mul_0_r. apply round_half_away_0. lia.
  - intros ->. rewrite Z.mul_comm. apply round_half_away_exact. lia.
  - intros pct' d' Hpct'. cbn [Expense.business_use_percentage Expense.total].
    intros Hd'. injection Hd' as <-. rewrite store_product_percentage. fold t.
    destruct (Hside pct' ltac:(lia)) as [Hpos' Hneg'].
    destruct (Z.le_ge_cases 0 t) as [Ht | Ht].
    + assert (round_half_away (t * pct) 10000 <= round_half_away (t * pct') 10000)
        by (apply round_half_away_mono; nia).
      lia.
    + assert (round_half_away (t * pct') 10000 <= round_half_away (t * pct) 10000)
        by (apply round_half_away_mono; nia).
      lia.
Qed.

Lemma deductible_amount_bounds_witness :
  exists d,
    Expense.deductible_amount
      {| Expense.user_id := "u1"; Expense.date := "2024-03-01";
         Expense.total := 3333; Expense.is_tax_deductible := Some true;
         Expense.business_use_percentage := Some 5000;
         Expense.tax_category := None |} = Some d
    /\ Z.abs d <= 3333.
Proof.
  destruct (deductible_amount_bounds
              {| Expense.user_id := "u1"; Expense.date := "2024-03-01";
                 Expense.total := 3333; Expense.is_tax_deductible := Some true;
                 Expense.business_use_percentage := Some 5000;
                 Expense.tax_category := None |} 5000 eq_refl ltac:(lia))
    as (d & Hd & Habs & _).
  exists d. split; [exact Hd | exact Habs].
Defined.

(** X23: the stored deduction of a mileage record with a rate that is not
    negative grows with the miles, is 0 for no miles, and changes sign with
    the miles. *)
Theorem mileage_total_monotone (r r' : Mileage.t) (rate : hundredths) :
  Mileage.rate_per_mile r = Some rate ->
  Mileage.rate_per_mile r' = Some rate ->
  0 <= rate ->
  Mileage.miles r <= Mileage.miles r' ->
  exists t t',
    Mileage.total r = Some t /\ Mileage.total r' = Some t' /\ t <= t'
    /\ (Mileage.miles r = 0 -> t = 0)
    /\ (Mileage.miles r' = - Mileage.miles r -> t' = - t).
Proof.
  intros Hr Hr' Hrate Hmiles. unfold Mileage.total. rewrite Hr, Hr'.
  eexists _, _. split; [reflexivity|]. split; [reflexivity|].
  rewrite !store_product. split; [|split].
  - apply round_half_away_mono; nia.
  - intros ->. apply round_half_away_0. lia.
  - intros ->. rewrite Z.mul_opp_l. apply round_half_away_opp. lia.
Qed.

Lemma mileage_total_monotone_witness :
  exists t t',
    Mileage.total
      {| Mileage.user_id := "u1"; Mileage.date := "2024-03-01";
         Mileage.miles := 1025; Mileage.rate_per_mile := Some 67 |} = Some t
    /\ Mileage.total
         {| Mileage.user_id := "u1"; Mileage.date := "2024-03-02";
            Mileage.miles := 2000; Mileage.rate_per_mile := Some 67 |} = Some t'
    /\ t <= t'.
Proof.
  destruct (mileage_total_monotone
              {| Mileage.user_id := "u1"; Mileage.date := "2024-03-01";
                 Mileage.miles := 1025; Mileage.rate_per_mile := Some 67 |}
              {| Mileage.user_id := "u1"; Mileage.date := "2024-03-02";
                 Mileage.miles := 2000; Mileage.rate_per_mile := Some 67 |}
              67 eq_refl eq_refl ltac:(lia) ltac:(simpl; lia))
    as (t & t' & Ht & Ht' & Hle & _).
  exists t, t'. repeat split; assumption.
Defined.

End GeneratedColumns.

(** ** The tax report: the categories *)

Section TaxReportTotals.
Import Js Schema TaxReport.

Lemma list_sum_perm (l l' : list nat) : Permutation l l' -> list_sum l = list_sum l'.
Proof.
  induction 1 as [|x l l' _ IH|x y l|l l' l'' _ IH1 _ IH2].
  - reflexivity.
  - change (x + list_sum l = x + list_sum l')%nat. rewrite IH. reflexivity.
  - change (y + (x + list_sum l) = x + (y + list_sum l))%nat. lia.
  - congruence.
Qed.

(** The sum of the counts of the categories. *)
Lemma categories_insert_fresh (m : gmap string CategoryTotal) (k : string)
    (x : CategoryTotal) :
  m !! k = None ->
  list_sum (map (fun kv => cat_count (snd kv)) (map_to_list (<[k := x]> m)))
  = (cat_count x
     + list_sum (map (fun kv => cat_count (snd kv)) (map_to_list m)))%nat.
Proof.
  intros Hnone.
  pose proof (map_to_list_insert m k x Hnone) as Hperm.
  rewrite (list_sum_perm _ _ (Permutation_map _ Hperm)). reflexivity.
Qed.

Lemma categories_insert_update (m : gmap string CategoryTotal) (k : string)
    (e x : CategoryTotal) :
  m !! k = Some e ->
  (list_sum (map (fun kv => cat_count (snd kv)) (map_to_list (<[k := x]> m)))
   + cat_count e
   = cat_count x
     + list_sum (map (fun kv => cat_count (snd kv)) (map_to_list m)))%nat.
Proof.
  intros E.
  pose proof (categories_insert_fresh (delete k m) k x (lookup_delete_eq m k)) as Hx.
  pose proof (categories_insert_fresh (delete k m) k e (lookup_delete_eq m k)) as He.
  rewrite insert_delete_eq in Hx.
  rewrite (insert_delete_id m k e E) in He.
  lia.
Qed.

Lemma add_to_category_lookup (acc : gmap string CategoryTotal) (exp : Expense.t)
    (k : string) :
  existsb (String.eqb (category_of exp)) Object_prototype = false ->
  add_to_category acc exp !! k
  = if String.eqb (category_of exp) k then entry_after (acc !! k) [exp]
    else acc !! k.
Proof.
  intros Hown. unfold add_to_category, get_property. fold (category_of exp).
  rewrite Hown.
  destruct (String.eqb_spec (category_of exp) k) as [<- | Hne].
  - destruct (acc !! category_of exp) as [e|] eqn:E;
      rewrite lookup_insert_eq; cbn [entry_after from_option length map fold_left];
      unfold plus_column; do 2 f_equal; lia.
  - destruct (acc !! category_of exp) as [e|] eqn:E;
      rewrite lookup_insert_ne by exact Hne; reflexivity.
Qed.

Lemma entry_after_cons (e : option CategoryTotal) (exp : Expense.t)
    (group : list Expense.t) :
  entry_after (entry_after e [exp]) group = entry_after e (exp :: group).
Proof.
  destruct group as [|x group]; [reflexivity|].
  cbn [entry_after from_option cat_count cat_total length map fold_left].
  do 2 f_equal. lia.
Qed.

Lemma fold_categories_lookup (l : list Expense.t) (k : string) :
  (forall exp, In exp l ->
     existsb (String.eqb (category_of exp)) Object_prototype = false) ->
  forall acc,
    fold_left add_to_category l acc !! k
    = entry_after (acc !! k)
        (List.filter (fun exp => String.eqb (category_of exp) k) l).
Proof.
  induction l as [|exp l IH]; intros Hown acc; [reflexivity|].
  cbn [fold_left List.filter].
  rewrite (IH (fun e He => Hown e (or_intror He))).
  rewrite (add_to_category_lookup acc exp k (Hown exp (or_introl eq_refl))).
  destruct (String.eqb (category_of exp) k); [apply entry_after_cons | reflexivity].
Qed.

Lemma add_to_category_counts (acc : gmap string CategoryTotal) (exp : Expense.t) :
  existsb (String.eqb (category_of exp)) Object_prototype = false ->
  list_sum (map (fun kv => cat_count (snd kv))
              (map_to_list (add_to_category acc exp)))
  = S (list_sum (map (fun kv => cat_count (snd kv)) (map_to_list acc))).
Proof.
  intros Hown. unfold add_to_category, get_property. fold (category_of exp).
  rewrite Hown.
  destruct (acc !! category_of exp) as [e|] eqn:E.
  - pose proof (categories_insert_update acc (category_of exp) e
                  {| cat_count := S (cat_count e);
                     cat_total := plus_column (cat_total e)
                                    (Expense.deductible_amount exp) |} E) as Hc.
    cbn [cat_count] in Hc. lia.
  - rewrite (categories_insert_fresh acc (category_of exp) _ E). reflexivity.
Qed.

Lemma fold_categories_counts (l : list Expense.t) :
  (forall exp, In exp l ->
     existsb (String.eqb (category_of exp)) Object_prototype = false) ->
  forall acc,
    list_sum (map (fun kv => cat_count (snd kv))
                (map_to_list (fold_left add_to_category l acc)))
    = (list_sum (map (fun kv => cat_count (snd kv)) (map_to_list acc))
       + length l)%nat.
Proof.
  induction l as [|exp l IH]; intros Hown acc; cbn [fold_left length]; [lia|].
  rewrite (IH (fun e He => Hown e (or_intror He))).
  rewrite (add_to_category_counts acc exp (Hown exp (or_introl eq_refl))). lia.
Qed.

Section ReportCategories.
Context {server_invoices : Supabase.Postgrest Invoice.t}.
Context {server_expenses : Supabase.Postgrest Expense.t}.
Context {server_mileage : Supabase.Postgrest Mileage.t}.
Variables (yearStart today : string).

(** X25: when no expense has a tax category named like a built-in
    property of objects, the categories of the report account for every
    deductible expense once: their counts add up to the number of
    deductible expenses; a category is listed exactly when a fetched
    deductible expense has it, and then with the number of these expenses
    and the sum in doubles, from 0 and in the order of the rows, of their
    deductible amounts. *)
Theorem tax_report_categories (uid : string) (searchParams : URLSearchParams.t)
    (invoices : list Invoice.t) (expenses : list Expense.t)
    (mileage : list Mileage.t) :
  (forall exp, In exp expenses ->
     existsb (String.eqb (or_else (Expense.tax_category exp) "uncategorized"))
       Object_prototype = false) ->
  let d := loader yearStart today uid searchParams invoices expenses mileage in
  let fetched :=
    List.filter is_deductible
      (fetch (report_query uid (startDate d) (endDate d)) expenses) in
  list_sum (map (fun kv => cat_count (snd kv))
              (map_to_list (expensesByCategory d)))
  = expenseCount (stats d)
  /\ forall k,
       expensesByCategory d !! k
       = match List.filter
                 (fun exp =>
                    String.eqb (or_else (Expense.tax_category exp) "uncategorized") k)
                 fetched with
         | [] => None
         | group =>
             Some {| cat_count := length group;
                     cat_total :=
                       Double.sum
                         (map (fun exp => column (Expense.deductible_amount exp))
                            group) |}
         end.
Proof.
  intros Hown d fetched'. unfold fetched', d, loader.
  cbn [expensesByCategory stats startDate endDate].
  set (start := or_else (URLSearchParams.get "startDate" searchParams) yearStart).
  set (end_ := or_else (URLSearchParams.get "endDate" searchParams) today).
  set (fetched := fetch (report_query uid start end_) expenses).
  assert (forall exp, In exp fetched -> In exp expenses) as Hfetched.
  { intros exp. unfold fetched. rewrite report_fetch.
    destruct (Supabase.rejects _); [intros []|].
    rewrite filter_In. tauto. }
  assert (forall exp, In exp (List.filter is_deductible fetched) ->
            existsb (String.eqb (category_of exp)) Object_prototype = false)
    as Hgroup.
  { intros exp Hexp. apply Hown, Hfetched.
    apply filter_In in Hexp. tauto. }
  split.
  - rewrite (fold_categories_counts _ Hgroup ∅), map_to_list_empty. reflexivity.
  - intros k. rewrite (fold_categories_lookup _ k Hgroup ∅), lookup_empty.
    fold category_of.
    destruct (List.filter _ (List.filter is_deductible fetched)); reflexivity.
Qed.

End ReportCategories.

End TaxReportTotals.

Lemma tax_report_categories_witness :
  list_sum
    (map (fun kv => TaxReport.cat_count (snd kv))
       (map_to_list
          (TaxReport.expensesByCategory
             (@TaxReport.loader Reference.invoices Reference.expenses
                Reference.mileage "2024-01-01" "2024-12-31" "u1" [] []
                [ {| Schema.Expense.user_id := "u1";
                     Schema.Expense.date := "2024-03-01";
                     Schema.Expense.total := 3333;
                     Schema.Expense.is_tax_deductible := Some true;
                     Schema.Expense.business_use_percentage := Some 5000;
                     Schema.Expense.tax_category := Some "travel" |} ]
                []))))
  = 1%nat.
Proof.
  refine (proj1
    (@tax_report_categories Reference.invoices Reference.expenses
       Reference.mileage "2024-01-01" "2024-12-31" "u1" [] []
       [ {| Schema.Expense.user_id := "u1";
            Schema.Expense.date := "2024-03-01";
            Schema.Expense.total := 3333;
            Schema.Expense.is_tax_deductible := Some true;
            Schema.Expense.business_use_percentage := Some 5000;
            Schema.Expense.tax_category := Some "travel" |} ]
       []
       _)).
  intros exp [<- | []]. reflexivity.
Defined.

(** ** The page of the line-item templates loader *)

Section TemplatesPageProperties.
Import Js Supabase Pagination ListLoader.
Context {Row : Type}.
Context {owned_row : Owned Row} {server_row : Postgrest Row}.
#[local] Open Scope list_scope.

(** X26: the templates loader always answers: with no template and a
    total of 0 when the query fails, and else with a page of templates of
    the table that belong to the user, no more than the total. *)
Theorem templates_loader_page (uid : string) (searchParams : URLSearchParams.t)
    (table : list Row) :
  let d := @templates_loader Row _ _ uid searchParams table in
  (forall r, In r (templates d) -> In r table /\ owner r = uid)
  /\ (length (templates d) <= templatesCount d)%nat
  /\ (error (run (templates_query uid searchParams) table) = true ->
      templates d = [] /\ templatesCount d = 0%nat)
  /\ (error (run (templates_query uid searchParams) table) = false ->
      templatesCount d
      = length (selected (templates_query uid searchParams) table)).
Proof.
  intros d. unfold d, templates_loader. cbn [templates templatesCount].
  set (q := templates_query uid searchParams).
  set (pp := parsePaginationParams searchParams).
  assert (window q
          = Some (Pagination.from (getSupabaseRange (page pp) (limit pp)),
                  Pagination.to (getSupabaseRange (page pp) (limit pp)))) as Hw
    by reflexivity.
  destruct (error (run q table)) eqn:Herror.
  - assert (run q table = failed) as ->.
    { unfold run in *. rewrite Hw in *.
      destruct (rejects q); [reflexivity|].
      destruct (Pagination.from _) as [| |x]; [reflexivity..|].
      destruct (Pagination.to _) as [| |y]; [reflexivity..|].
      destruct ((0 <=? x) && (x <=? y)); [discriminate Herror | reflexivity]. }
    unfold failed. cbn [data count]. simpl.
    split; [intros r []|]. split; [lia|]. split; [tauto | discriminate].
  - destruct (run_window q table _ _ Hw Herror)
      as (x & y & Hx & Hy & Hxy & Hdata & Hcount).
    rewrite Hdata, Hcount. cbn [default from_option Datatypes.id].
    split; [|split; [|split; [discriminate | reflexivity]]].
    + intros r Hr.
      assert (In r (selected q table)) as Hsel.
      { apply (proj1 (ordered_spec q _)). eapply In_drop, In_take, Hr. }
      unfold selected in Hsel. apply filter_In in Hsel. destruct Hsel as [Hin Hall].
      split; [exact Hin|].
      apply String.eqb_eq. eapply restricted_owner; [|exact Hall].
      apply templates_query_restricted.
    + rewrite length_take, length_drop, (proj2 (ordered_spec q _)). lia.
Qed.

End TemplatesPageProperties.

(** ** The action that creates a client *)

Section ClientsNewProperties.
Import Js Supabase ClientsNew.
Variables (next_id now : string).
#[local] Open Scope list_scope.

Lemma or_null_not_empty (value : option string) :
  or_null value <> Some EmptyString.
Proof. destruct value as [[|c s]|]; discriminate. Qed.

Lemma getStatusBadge_statuses (status : string) :
  In status statuses ->
  exists config,
    ClientsIndex.statusConfig !! status = Some config
    /\ ClientsIndex.getStatusBadge status
       = {| ClientsIndex.badge_variant := Some (ClientsIndex.variant config);
            ClientsIndex.badge_label := Some (ClientsIndex.label config) |}.
Proof.
  intros Hin. unfold statuses in Hin. cbn [In] in Hin.
  repeat (destruct Hin as [<- | Hin]); [..|destruct Hin];
    eexists; split; vm_compute; reflexivity.
Qed.

(** X27: the action that creates a client either changes nothing and
    answers with an error, which it does for a name that is missing or
    blank, or appends one row and redirects to it; the row belongs to the
    session user, has a name that is not blank, has no optional column that
    is the empty text (an empty field is stored as NULL), and has one of
    the six lifecycle statuses ("active" when the form has none), for which
    the status badge of the clients list is the entry of that status. *)
Theorem new_client_action (uid : string) (formData : SavedViews.FormData)
    (table : list Row) :
  let out := action next_id now uid formData table in
  ((exists error fields status, fst out = Json error fields status)
   /\ snd out = table)
  \/ (exists row,
        fst out = Redirect ("/dashboard/clients/" ++ id row)
        /\ snd out = table ++ [row]
        /\ user_id (values row) = uid
        /\ (exists text,
              SavedViews.get "name" formData = Some text
              /\ name (values row) = Some text /\ trim text <> EmptyString)
        /\ Forall (fun column => column <> Some EmptyString)
             (optional_columns (values row))
        /\ status (values row)
           = or_else (SavedViews.get "status" formData) "active"
        /\ exists config,
             ClientsIndex.statusConfig !! status (values row) = Some config
             /\ ClientsIndex.getStatusBadge (status (values row))
                = {| ClientsIndex.badge_variant :=
                       Some (ClientsIndex.variant config);
                     ClientsIndex.badge_label :=
                       Some (ClientsIndex.label config) |}).
Proof.
  intros out. unfold out, action. cbv zeta. cbn [name].
  destruct (SavedViews.get "name" formData) as [[|c s]|] eqn:Ename;
    try (left; split; [eexists _, _, _; reflexivity | reflexivity]).
  destruct (String.eqb_spec (trim (String c s)) EmptyString) as [Eblank | Hname];
    [left; split; [eexists _, _, _; reflexivity | reflexivity]|].
  unfold insert. cbn [name user_id status].
  rewrite String.eqb_refl. cbn [negb].
  destruct (existsb (from_option has_nul false) _);
    [left; split; [eexists _, _, _; reflexivity | reflexivity]|].
  destruct (existsb (String.eqb (or_else (SavedViews.get "status" formData) "active"))
              statuses) eqn:Estatus;
    [|left; split; [eexists _, _, _; reflexivity | reflexivity]].
  cbn [negb].
  destruct (existsb _ table);
    [left; split; [eexists _, _, _; reflexivity | reflexivity]|].
  right. eexists {| id := next_id; created_at := now; values := _ |}.
  cbn [fst snd id values user_id name status].
  split; [reflexivity|]. split; [reflexivity|]. split; [reflexivity|].
  split; [exists (String c s); repeat split; assumption|].
  split; [|split; [reflexivity|]].
  - unfold optional_columns.
    cbn [email phone mobile fax website address city state postal_code country
         contact_person tax_id notes].
    repeat constructor; apply or_null_not_empty.
  - apply getStatusBadge_statuses.
    apply existsb_exists in Estatus. destruct Estatus as (x & Hx & E).
    apply String.eqb_eq in E. subst x. exact Hx.
Qed.

End ClientsNewProperties.

(** ** The neighbours of the current page *)

Section PageNeighbours.
Import Js PaginationMeta.
#[local] Open Scope list_scope.

(** X28: with the default number of visible pages, and at most [2 ^ 52]
    pages, the page list holds the page before the current one and the
    page after it, whenever there is such a page. *)
Theorem getPageNumbers_neighbours (cp tp : Z) :
  1 <= cp <= tp -> tp < 2 ^ 52 ->
  exists pages,
    getPageNumbers (Num cp) (Num tp) None = Some pages
    /\ (1 < cp -> In (Page (Num (cp - 1))) pages)
    /\ (cp < tp -> In (Page (Num (cp + 1))) pages).
Proof.
  intros Hcp Htp.
  assert (exists pages,
            getPageNumbers (Num cp) (Num tp) None = Some pages
            /\ forall i,
                 1 <= i <= tp -> cp - 1 <= i <= cp + 1 ->
                 In (Page (Num i)) pages) as (pages & Hpages & Hnear).
  { change (getPageNumbers (Num cp) (Num tp) None)
      with (getPageNumbers (Num cp) (Num tp) (Some (Num 7))).
    destruct (Z.le_gt_cases tp 7) as [Hshort | Hlong].
    - rewrite getPageNumbers_short by lia.
      eexists. split; [reflexivity|].
      intros i Hi Hnear. apply In_pg, In_from_to. exact Hi.
    - destruct (getPageNumbers_long cp tp 7 ltac:(lia) Hlong Htp Hcp)
        as (s & e & -> & Hcase).
      eexists. split; [reflexivity|].
      intros i Hi Hnear.
      change (7 / 2) with 3 in Hcase.
      assert (i = 1 \/ i = tp \/ s <= i <= e) as [-> | [-> | Hin]] by lia.
      + left. reflexivity.
      + rewrite !app_assoc. apply in_or_app. right. left. reflexivity.
      + apply in_or_app. right. apply in_or_app. left.
        apply In_pg, In_from_to. exact Hin. }
  exists pages. split; [exact Hpages|].
  split; intros H; apply Hnear; lia.
Qed.

Lemma getPageNumbers_neighbours_witness :
  exists pages,
    getPageNumbers (Num 10) (Num 20) None = Some pages
    /\ (1 < 10 -> In (Page (Num (10 - 1))) pages)
    /\ (10 < 20 -> In (Page (Num (10 + 1))) pages).
Proof. apply (getPageNumbers_neighbours 10 20); lia. Defined.

End PageNeighbours.
